(** * Provider availability: slot generation, conflict detection, slot store

    A shallow embedding of the availability subsystem of the backend:

    - [TimezoneUtil]      (utils/timezone.util.ts)
    - [SlotGeneratorUtil] (utils/slot-generator.util.ts)
    - [AvailabilityService] (availability.service.ts of provider-availability)

    Conventions of the embedding.

    - A JS [Date] is its epoch value in milliseconds; [JsDate] is [option Z]
      where [None] is the Invalid Date, whose comparisons are all false.
    - Minute counts (slot and break durations) are integers ([Z]).
    - A thrown exception is the [Throw] outcome of the [result] monad; a
      [while] loop is a fuelled [Fixpoint] whose exhaustion is [OutOfFuel].
    - luxon is run with the process zone set to UTC, so that
      [DateTime.fromFormat(s, 'HH:mm')] is "today at s", and [plus] on days
      and months is plain calendar arithmetic on the UTC time line.
    - The IANA zone database is the interface [TimezoneDb]. *)

From Stdlib Require Import ZArith QArith Lia Bool Ascii String List.
From stdpp Require Import gmap strings stringmap pretty list fin_maps sorting.

Local Open Scope string_scope.
Local Open Scope Z_scope.

(** ** Outcomes of effectful code *)

Inductive Exn : Type :=
| InvalidTimeFormat                      (* new Error('Invalid time format') *)
| NotFoundException (msg : string)
| BadRequestException (msg : string)
| ConflictException (msg : string)
| PersistenceError (msg : string).       (* an error raised by the ORM *)

Inductive result (A : Type) : Type :=
| Ok (a : A)
| Throw (e : Exn)
| OutOfFuel.

Arguments Ok {A} a.
Arguments Throw {A} e.
Arguments OutOfFuel {A}.

Definition rbind {A B} (r : result A) (k : A -> result B) : result B :=
  match r with
  | Ok a => k a
  | Throw e => Throw e
  | OutOfFuel => OutOfFuel
  end.

Notation "x <- c ;; k" := (rbind c (fun x => k))
  (at level 62, c at next level, right associativity).

(** [arr.push(x)] and [arr.push(...xs)] *)
Definition push {A} (arr : list A) (x : A) : list A := app arr (cons x nil).
Definition pushAll {A} (arr xs : list A) : list A := app arr xs.

(** ** Calendar arithmetic on the UTC time line *)

Module Calendar.

Definition msPerMinute : Z := 60000.
Definition msPerDay : Z := 86400000.

(** Days since 1970-01-01 of the civil date y-m-d (proleptic Gregorian). *)
Definition daysFromCivil (y m d : Z) : Z :=
  let y' := if m <=? 2 then y - 1 else y in
  let era := y' / 400 in
  let yoe := y' - era * 400 in
  let mp := if 2 <? m then m - 3 else m + 9 in
  let doy := (153 * mp + 2) / 5 + d - 1 in
  let doe := yoe * 365 + yoe / 4 - yoe / 100 + doy in
  era * 146097 + doe - 719468.

(** The civil date of a day number. *)
Definition civilFromDays (z : Z) : Z * Z * Z :=
  let z' := z + 719468 in
  let era := z' / 146097 in
  let doe := z' - era * 146097 in
  let yoe := (doe - doe / 1460 + doe / 36524 - doe / 146096) / 365 in
  let y := yoe + era * 400 in
  let doy := doe - (365 * yoe + yoe / 4 - yoe / 100) in
  let mp := (5 * doy + 2) / 153 in
  let d := doy - (153 * mp + 2) / 5 + 1 in
  let m := if mp <? 10 then mp + 3 else mp - 9 in
  ((if m <=? 2 then y + 1 else y), m, d).

Definition isLeapYear (y : Z) : bool :=
  (y mod 4 =? 0) && (negb (y mod 100 =? 0) || (y mod 400 =? 0)).

Definition daysInMonth (y m : Z) : Z :=
  if m =? 2 then (if isLeapYear y then 29 else 28)
  else if (m =? 4) || (m =? 6) || (m =? 9) || (m =? 11) then 30
  else 31.

(** [date.plus({ days: n })]. *)
Definition plusDays (date n : Z) : Z := date + n * msPerDay.

(** [date.plus({ months: n })]: the month is advanced, the day of the month
    is clamped to the length of the target month, the time of day is kept. *)
Definition plusMonths (date n : Z) : Z :=
  let day := date / msPerDay in
  let tod := date mod msPerDay in
  let '(y, m, d) := civilFromDays day in
  let idx := y * 12 + (m - 1) + n in
  let y' := idx / 12 in
  let m' := idx mod 12 + 1 in
  let d' := Z.min d (daysInMonth y' m') in
  daysFromCivil y' m' d' * msPerDay + tod.

(** Midnight UTC of a civil date, as [new Date('YYYY-MM-DD')] yields it. *)
Definition utcDate (y m d : Z) : Z := daysFromCivil y m d * msPerDay.

(** An instant from a civil date and a time of day in UTC. *)
Definition utcDateTime (y m d hh mm : Z) : Z :=
  utcDate y m d + (hh * 60 + mm) * msPerMinute.

End Calendar.


(** ** The zone database (luxon's IANA zones) *)

Class TimezoneDb : Type := {
  (** whether [DateTime.now().setZone(tz)] completes without throwing *)
  setZoneSucceeds : string -> bool;
  (** offset from UTC, in ms, that zone [tz] gives the wall-clock reading
      [local] (ms on the local time line), gaps and overlaps resolved *)
  offsetAtLocal : string -> Z -> Z;
  (** offset from UTC, in ms, of zone [tz] at the instant [t] *)
  offsetAtInstant : string -> Z -> Z
}.

(** A small database with two fixed-offset zones, for evaluation. *)
Definition fixedZoneOffset (tz : string) : Z :=
  if String.eqb tz "Asia/Kolkata" then 330 * Calendar.msPerMinute else 0.

#[export] Instance fixedZones : TimezoneDb := {|
  setZoneSucceeds tz := String.eqb tz "UTC" || String.eqb tz "Asia/Kolkata";
  offsetAtLocal tz _ := fixedZoneOffset tz;
  offsetAtInstant tz _ := fixedZoneOffset tz
|}.

(** A JS Date: [None] is the Invalid Date. *)
Definition JsDate : Type := option Z.

(** [a < b] on Dates: false as soon as one of them is invalid. *)
Definition dateLt (a b : JsDate) : bool :=
  match a, b with
  | Some x, Some y => x <? y
  | _, _ => false
  end.

(** [a <= b] on Dates ([a >= b] is [dateLe b a]). *)
Definition dateLe (a b : JsDate) : bool :=
  match a, b with
  | Some x, Some y => x <=? y
  | _, _ => false
  end.

(** ** utils/timezone.util.ts *)

Module TimezoneUtil.

Definition digitValue (c : ascii) : option Z :=
  let n := Z.of_nat (nat_of_ascii c) in
  if (48 <=? n) && (n <=? 57) then Some (n - 48) else None.

(** [DateTime.fromFormat(s, 'HH:mm')]: [Some t] when the result is valid,
    with [t] the minutes elapsed since today's midnight; [None] when it is
    not. Two digits, a colon, two digits; hour 00 to 23 and minute 00 to 59,
    and luxon also takes 24:00, the midnight that ends the day. *)
Definition fromFormat_HHmm (s : string) : option Z :=
  match s with
  | String h1 (String h2 (String sep (String m1 (String m2 EmptyString)))) =>
      match digitValue h1, digitValue h2, digitValue m1, digitValue m2 with
      | Some a, Some b, Some c, Some d =>
          let hour := 10 * a + b in
          let minute := 10 * c + d in
          if negb (Ascii.eqb sep ":") then None
          else if (hour <=? 23) && (minute <=? 59) then Some (60 * hour + minute)
          else if (hour =? 24) && (minute =? 0) then Some 1440
          else None
      | _, _, _, _ => None
      end
  | _ => None
  end.

Definition digitChar (d : Z) : ascii := ascii_of_nat (48 + Z.to_nat d).

Definition pad2 (n : Z) : string :=
  String (digitChar (n / 10)) (String (digitChar (n mod 10)) EmptyString).

(** [dt.toFormat('HH:mm')] for the DateTime [t] minutes after today's
    midnight: only the time of day is printed, the day is lost. *)
Definition toFormat_HHmm (t : Z) : string :=
  let tod := t mod 1440 in
  pad2 (tod / 60) +:+ ":" +:+ pad2 (tod mod 60).

(** Convert a date and time to UTC: the UTC calendar day of [date]
    ([date.toISOString().split('T')[0]]) read at [time] in zone [tz]. *)
Definition toUTC `{TimezoneDb} (date : Z) (time : string) (tz : string) : JsDate :=
  match fromFormat_HHmm time with
  | Some t =>
      let local := (date / Calendar.msPerDay) * Calendar.msPerDay
                   + t * Calendar.msPerMinute in
      Some (local - offsetAtLocal tz local)
  | None => None
  end.

(** Check if a timezone is valid: [try { setZone } catch { return false }]. *)
Definition isValidTimezone `{TimezoneDb} (tz : string) : bool :=
  setZoneSucceeds tz.

(** Format time for display in specified timezone. *)
Definition formatTimeForDisplay `{TimezoneDb} (date : Z) (tz : string) : string :=
  toFormat_HHmm ((date + offsetAtInstant tz date) / Calendar.msPerMinute).

(** Calculate duration between two times in minutes. *)
Definition calculateDuration (startTime endTime : string) : result Z :=
  match fromFormat_HHmm startTime, fromFormat_HHmm endTime with
  | Some s, Some e => Ok (e - s)
  | _, _ => Throw InvalidTimeFormat
  end.

(** Add minutes to a time string. *)
Definition addMinutes (time : string) (minutes : Z) : result string :=
  match fromFormat_HHmm time with
  | Some t => Ok (toFormat_HHmm (t + minutes))
  | None => Throw InvalidTimeFormat
  end.

(** Check if a time is between two other times. *)
Definition isTimeBetween (time startTime endTime : string) : bool :=
  match fromFormat_HHmm time, fromFormat_HHmm startTime, fromFormat_HHmm endTime with
  | Some t, Some s, Some e => (s <=? t) && (t <=? e)
  | _, _, _ => false
  end.

(** Get current time in specified timezone, [now] being the clock. *)
Definition getCurrentTime `{TimezoneDb} (now : Z) (tz : string) : string :=
  toFormat_HHmm ((now + offsetAtInstant tz now) / Calendar.msPerMinute).

(** luxon's [padStart(n, width)]: decimal digits, zeros on the left up to
    [width], the sign of a negative number in front. *)
Definition padStart (n : Z) (width : nat) : string :=
  let digits := pretty (Z.to_N (Z.abs n)) in
  let padded :=
    String.concat "" (repeat "0" (width - String.length digits)) +:+ digits in
  if n <? 0 then "-" +:+ padded else padded.

(** [DateTime.fromJSDate(date).toFormat('yyyy-MM-dd')] *)
Definition toFormat_yyyyMMdd (date : JsDate) : string :=
  match date with
  | None => "Invalid DateTime"
  | Some t =>
      let '(y, m, d) := Calendar.civilFromDays (t / Calendar.msPerDay) in
      padStart y 4 +:+ "-" +:+ padStart m 2 +:+ "-" +:+ padStart d 2
  end.

End TimezoneUtil.

(** ** utils/slot-generator.util.ts *)

Module SlotGenerationConfig.
Record t : Type := mk {
  startTime : string;
  endTime : string;
  slotDuration : Z;
  breakDuration : Z;
  timezone : string;
  date : Z
}.
End SlotGenerationConfig.

Module GeneratedSlot.
Record t : Type := mk {
  startTime : string;
  endTime : string;
  slotStartTime : JsDate;
  slotEndTime : JsDate
}.
End GeneratedSlot.

Inductive RecurrencePattern : Type := daily | weekly | monthly.

Module SlotGeneratorUtil.

Import SlotGenerationConfig.

(** Check if time1 is before time2. *)
Definition isTimeBefore (time1 time2 : string) : result bool :=
  match TimezoneUtil.fromFormat_HHmm time1, TimezoneUtil.fromFormat_HHmm time2 with
  | Some t1, Some t2 => Ok (t1 <? t2)
  | _, _ => Throw InvalidTimeFormat
  end.

(** Check if time1 equals time2. *)
Definition isTimeEqual (time1 time2 : string) : result bool :=
  match TimezoneUtil.fromFormat_HHmm time1, TimezoneUtil.fromFormat_HHmm time2 with
  | Some t1, Some t2 => Ok (t1 =? t2)
  | _, _ => Throw InvalidTimeFormat
  end.

Definition addMinutes (time : string) (minutes : Z) : result string :=
  TimezoneUtil.addMinutes time minutes.

(** The [while] loop of [generateSlotsForDay]: [currentTime] and [slots] are
    its two mutable variables. *)
Fixpoint generateSlotsLoop `{TimezoneDb} (fuel : nat) (config : t)
    (currentTime : string) (slots : list GeneratedSlot.t)
  : result (list GeneratedSlot.t) :=
  match fuel with
  | O => OutOfFuel
  | S fuel' =>
      continue <- isTimeBefore currentTime (endTime config) ;;
      if continue then
        slotEndTime <- addMinutes currentTime (slotDuration config) ;;
        before <- isTimeBefore slotEndTime (endTime config) ;;
        fits <- (if before then Ok true
                 else isTimeEqual slotEndTime (endTime config)) ;;
        let slots' :=
          if fits then
            push slots
              (GeneratedSlot.mk currentTime slotEndTime
                 (TimezoneUtil.toUTC (date config) currentTime (timezone config))
                 (TimezoneUtil.toUTC (date config) slotEndTime (timezone config)))
          else slots in
        next <- addMinutes slotEndTime (breakDuration config) ;;
        generateSlotsLoop fuel' config next slots'
      else Ok slots
  end.

(** Generate slots for a single day. *)
Definition generateSlotsForDay `{TimezoneDb} (fuel : nat) (config : t)
  : result (list GeneratedSlot.t) :=
  generateSlotsLoop fuel config (startTime config) [].

(** Get next date based on recurrence pattern. *)
Definition getNextDate (currentDate : Z) (pattern : RecurrencePattern) : Z :=
  match pattern with
  | daily => Calendar.plusDays currentDate 1
  | weekly => Calendar.plusDays currentDate 7
  | monthly => Calendar.plusMonths currentDate 1
  end.

(** The [while (currentDate <= endDate)] loop of [generateRecurringSlots]. *)
Fixpoint recurringLoop `{TimezoneDb} (fuel : nat) (config : t)
    (pattern : RecurrencePattern) (endDate : Z)
    (currentDate : Z) (slots : list GeneratedSlot.t)
  : result (list GeneratedSlot.t) :=
  match fuel with
  | O => OutOfFuel
  | S fuel' =>
      if currentDate <=? endDate then
        daySlots <- generateSlotsForDay fuel
                      (mk (startTime config) (endTime config) (slotDuration config)
                          (breakDuration config) (timezone config) currentDate) ;;
        recurringLoop fuel' config pattern endDate
          (getNextDate currentDate pattern) (pushAll slots daySlots)
      else Ok slots
  end.

(** Generate slots for recurring availability. *)
Definition generateRecurringSlots `{TimezoneDb} (fuel : nat) (config : t)
    (pattern : RecurrencePattern) (endDate : Z) : result (list GeneratedSlot.t) :=
  recurringLoop fuel config pattern endDate (date config) [].

(** Check if time format is valid (HH:mm). *)
Definition isValidTimeFormat (time : string) : bool :=
  match TimezoneUtil.fromFormat_HHmm time with Some _ => true | None => false end.

(** [errors.push(msg)] under the guard [cond]. *)
Definition pushIf (cond : bool) (msg : string) (errors : list string) : list string :=
  if cond then push errors msg else errors.

(** Validate slot generation parameters. *)
Definition validateSlotGeneration `{TimezoneDb} (config : t) : result (list string) :=
  let errors := [] in
  let errors := pushIf (negb (isValidTimeFormat (startTime config)))
                  "Invalid start time format. Use HH:mm format." errors in
  let errors := pushIf (negb (isValidTimeFormat (endTime config)))
                  "Invalid end time format. Use HH:mm format." errors in
  endFirst <- isTimeBefore (endTime config) (startTime config) ;;
  let errors := pushIf endFirst "End time must be after start time." errors in
  let errors := pushIf (slotDuration config <=? 0)
                  "Slot duration must be greater than 0." errors in
  let errors := pushIf (breakDuration config <? 0)
                  "Break duration cannot be negative." errors in
  let errors := pushIf (negb (TimezoneUtil.isValidTimezone (timezone config)))
                  "Invalid timezone." errors in
  totalDuration <- TimezoneUtil.calculateDuration (startTime config) (endTime config) ;;
  let errors := pushIf (totalDuration <? slotDuration config)
                  "Slot duration cannot be greater than total availability duration."
                  errors in
  Ok errors.

(** Calculate total slots that can be generated. The quotient is [None]
    when the divisor is 0, where JS yields Infinity or NaN. *)
Definition calculateTotalSlots (config : t) : result (option Z) :=
  totalMinutes <- TimezoneUtil.calculateDuration (startTime config) (endTime config) ;;
  let slotWithBreak := slotDuration config + breakDuration config in
  Ok (if slotWithBreak =? 0 then None else Some (totalMinutes / slotWithBreak)).

(** Check if two slots overlap. *)
Definition slotsOverlap (slot1 slot2 : GeneratedSlot.t) : bool :=
  dateLt (GeneratedSlot.slotStartTime slot1) (GeneratedSlot.slotEndTime slot2)
  && dateLt (GeneratedSlot.slotStartTime slot2) (GeneratedSlot.slotEndTime slot1).

(** The inner [for ... of existingSlots] loop with its [break]: whether
    [newSlot] is pushed. *)
Fixpoint overlapsAny (newSlot : GeneratedSlot.t) (existingSlots : list GeneratedSlot.t)
  : bool :=
  match existingSlots with
  | [] => false
  | existingSlot :: rest =>
      if slotsOverlap newSlot existingSlot then true
      else overlapsAny newSlot rest
  end.

(** The outer [for ... of newSlots] loop, [overlapping] being its accumulator. *)
Fixpoint overlapLoop (newSlots existingSlots overlapping : list GeneratedSlot.t)
  : list GeneratedSlot.t :=
  match newSlots with
  | [] => overlapping
  | newSlot :: rest =>
      overlapLoop rest existingSlots
        (if overlapsAny newSlot existingSlots then push overlapping newSlot
         else overlapping)
  end.

(** Check for overlapping slots. *)
Definition checkForOverlappingSlots (newSlots existingSlots : list GeneratedSlot.t)
  : list GeneratedSlot.t :=
  overlapLoop newSlots existingSlots [].

(** Filter slots by date range. *)
Definition filterSlotsByDateRange (slots : list GeneratedSlot.t)
    (startDate endDate : JsDate) : list GeneratedSlot.t :=
  List.filter (fun slot =>
                 let slotDate := GeneratedSlot.slotStartTime slot in
                 dateLe startDate slotDate && dateLe slotDate endDate)
    slots.

(** [if (!grouped.has(key)) grouped.set(key, []); grouped.get(key).push(slot)]
    on a [Map], kept as its entries in insertion order. *)
Fixpoint groupedPush (grouped : list (string * list GeneratedSlot.t))
    (dateKey : string) (slot : GeneratedSlot.t)
  : list (string * list GeneratedSlot.t) :=
  match grouped with
  | [] => [(dateKey, push [] slot)]
  | (key, group) :: rest =>
      if String.eqb key dateKey then (key, push group slot) :: rest
      else (key, group) :: groupedPush rest dateKey slot
  end.

(** [grouped.get(dateKey)] *)
Fixpoint groupedGet (grouped : list (string * list GeneratedSlot.t))
    (dateKey : string) : option (list GeneratedSlot.t) :=
  match grouped with
  | [] => None
  | (key, group) :: rest =>
      if String.eqb key dateKey then Some group else groupedGet rest dateKey
  end.

Definition dateKeyOf (slot : GeneratedSlot.t) : string :=
  TimezoneUtil.toFormat_yyyyMMdd (GeneratedSlot.slotStartTime slot).

(** Group slots by date. *)
Definition groupSlotsByDate (slots : list GeneratedSlot.t)
  : list (string * list GeneratedSlot.t) :=
  fold_left (fun grouped slot => groupedPush grouped (dateKeyOf slot) slot) slots [].

End SlotGeneratorUtil.

(** ** The persisted data (Prisma schema of the availability module) *)

Module SlotStatus.
Inductive t : Type := available | booked | cancelled | blocked.
Definition eqb (a b : t) : bool :=
  match a, b with
  | available, available | booked, booked
  | cancelled, cancelled | blocked, blocked => true
  | _, _ => false
  end.
End SlotStatus.

Module AvailabilityStatus.
Inductive t : Type := available | booked | cancelled | blocked | maintenance.
End AvailabilityStatus.

Module AppointmentType.
Inductive t : Type := consultation | follow_up | emergency | telemedicine.
(** The enum member as the string the store keeps in [AppointmentSlot]. *)
Definition name (a : t) : string :=
  match a with
  | consultation => "consultation"
  | follow_up => "follow_up"
  | emergency => "emergency"
  | telemedicine => "telemedicine"
  end.
End AppointmentType.

Module Location.
Record t : Type := mk {
  type : string;
  address : string;
  room_number : option string;
  building : option string;
  floor : option string;
  instructions : option string
}.
End Location.

Module Pricing.
Record t : Type := mk {
  base_fee : Z;
  insurance_accepted : option bool;
  currency : string;
  consultation_fee : option Z;
  follow_up_fee : option Z
}.
End Pricing.

Module Provider.
Record t : Type := mk {
  id : string;
  firstName : string;
  lastName : string;
  specialization : string;
  clinicCity : string;
  clinicState : string
}.
End Provider.

Module ProviderAvailability.
Record t : Type := mk {
  id : string;
  providerId : string;
  date : Z;
  startTime : string;
  endTime : string;
  timezone : string;
  isRecurring : bool;
  recurrencePattern : option RecurrencePattern;
  recurrenceEndDate : option Z;
  slotDuration : Z;
  breakDuration : Z;
  status : AvailabilityStatus.t;
  maxAppointmentsPerSlot : Z;
  currentAppointments : Z;
  appointmentType : AppointmentType.t;
  location : option Location.t;      (* Json *)
  pricing : option Pricing.t;        (* Json? *)
  specialRequirements : list string;
  notes : option string;
  createdAt : Z;
  updatedAt : Z
}.
Definition withStatus (a : t) (s : AvailabilityStatus.t) (now : Z) : t :=
  mk (id a) (providerId a) (date a) (startTime a) (endTime a) (timezone a)
     (isRecurring a) (recurrencePattern a) (recurrenceEndDate a)
     (slotDuration a) (breakDuration a) s (maxAppointmentsPerSlot a)
     (currentAppointments a) (appointmentType a) (location a) (pricing a)
     (specialRequirements a) (notes a) (createdAt a) now.
End ProviderAvailability.

Module AppointmentSlot.
Record t : Type := mk {
  id : string;
  availabilityId : string;
  providerId : string;
  slotStartTime : Z;
  slotEndTime : Z;
  status : SlotStatus.t;
  patientId : option string;
  appointmentType : string;
  bookingReference : option string;
  createdAt : Z
}.
End AppointmentSlot.

(** The tables, each keyed by its primary key. *)
Record Store : Type := mkStore {
  providers : gmap string Provider.t;
  availabilities : gmap string ProviderAvailability.t;
  appointmentSlots : gmap string AppointmentSlot.t
}.

(** ** Request objects *)

Module CreateAvailabilityDto.
Record t : Type := mk {
  date : Z;                          (* [new Date(dto.date)] *)
  start_time : string;
  end_time : string;
  timezone : string;
  slot_duration : Z;
  break_duration : Z;
  is_recurring : bool;
  recurrence_pattern : option RecurrencePattern;
  recurrence_end_date : option Z;    (* [new Date(dto.recurrence_end_date)] *)
  appointment_type : AppointmentType.t;
  location : Location.t;
  pricing : option Pricing.t;
  special_requirements : option (list string);
  notes : option string;
  max_appointments_per_slot : option Z
}.
End CreateAvailabilityDto.

Module UpdateAvailabilityDto.
Record t : Type := mk {
  date : option Z;
  start_time : option string;
  end_time : option string;
  timezone : option string;
  slot_duration : option Z;
  break_duration : option Z;
  status : option AvailabilityStatus.t;
  appointment_type : option AppointmentType.t;
  location : option Location.t;
  pricing : option Pricing.t;
  special_requirements : option (list string);
  notes : option string;
  max_appointments_per_slot : option Z;
  current_appointments : option Z
}.
End UpdateAvailabilityDto.

Module SlotSearchDto.
Record t : Type := mk {
  date : option Z;
  start_date : option Z;
  end_date : option Z;
  specialization : option string;
  location : option string;
  provider_id : option string;
  appointment_type : option AppointmentType.t;
  timezone : option string;
  min_duration : option Z;
  max_price : option Z;
  virtual_only : option bool;
  in_person_only : option bool;
  limit : option Z;
  offset : option Z
}.
End SlotSearchDto.

(** ** JS truthiness and string helpers *)

Definition truthyNumber (x : option Z) : bool :=
  match x with Some n => negb (n =? 0) | None => false end.

Definition truthyString (x : option string) : bool :=
  match x with Some s => negb (String.eqb s "") | None => false end.

Definition truthyBool (x : option bool) : bool :=
  match x with Some b => b | None => false end.

(** [x || dflt] on an optional number. *)
Definition numberOr (x : option Z) (dflt : Z) : Z :=
  match x with Some n => if n =? 0 then dflt else n | None => dflt end.

Definition lowerChar (c : ascii) : ascii :=
  let n := nat_of_ascii c in
  if (65 <=? n)%nat && (n <=? 90)%nat then ascii_of_nat (n + 32) else c.

(** [s.toLowerCase()] on ASCII text. *)
Fixpoint toLowerCase (s : string) : string :=
  match s with
  | EmptyString => EmptyString
  | String c rest => String (lowerChar c) (toLowerCase rest)
  end.

(** [s.includes(sub)] *)
Fixpoint includes (s sub : string) : bool :=
  if String.prefix sub s then true
  else match s with
       | EmptyString => false
       | String _ rest => includes rest sub
       end.

(** ** availability.service.ts *)

Module CreateAvailabilityResult.
Record t : Type := mk {
  availability_id : string;
  slots_created : nat;
  date_range_start : Z;
  date_range_end : Z
}.
End CreateAvailabilityResult.

Module UpdatedSlot.
Record t : Type := mk {
  id : string;
  status : SlotStatus.t;
  appointment_type : string;
  slot_start_time : Z;
  slot_end_time : Z
}.
End UpdatedSlot.

Module DeleteResult.
Record t : Type := mk { message : string; reason : string }.
End DeleteResult.

(** A slot row loaded with [include: { availability: { include: { provider } } }]. *)
Module LoadedSlot.
Record t : Type := mk {
  slot : AppointmentSlot.t;
  availability : ProviderAvailability.t;
  provider : Provider.t
}.
End LoadedSlot.

Module SlotResult.
Record t : Type := mk {
  id : string;
  provider_id : string;
  provider_name : string;
  provider_specialization : string;
  provider_location : string;
  slot_start_time : Z;
  slot_end_time : Z;
  appointment_type : string;
  location : option Location.t;
  pricing : option Pricing.t;
  timezone : string
}.
End SlotResult.

Module AvailabilityView.
Record t : Type := mk {
  id : string;
  date : Z;
  start_time : string;
  end_time : string;
  timezone : string;
  status : AvailabilityStatus.t;
  appointment_type : AppointmentType.t;
  location : option Location.t;
  pricing : option Pricing.t;
  available_slots : nat;
  total_slots : nat
}.
End AvailabilityView.

Module AvailabilityStats.
Record t : Type := mk {
  total_slots : nat;
  booked_slots : nat;
  available_slots : nat;
  booking_rate : Q      (* the exact quotient; JS rounds it to a double *)
}.
End AvailabilityStats.

Module AvailabilityService.

(** [prisma.appointmentSlot.findMany({ where })] *)
Definition findManySlots (db : Store) (where_ : AppointmentSlot.t -> bool)
  : list AppointmentSlot.t :=
  List.filter where_ (List.map snd (map_to_list (appointmentSlots db))).

(** [prisma.appointmentSlot.findFirst({ where: { id, providerId } })] *)
Definition findFirstSlot (db : Store) (slotId providerId : string)
  : option AppointmentSlot.t :=
  match appointmentSlots db !! slotId with
  | Some slot =>
      if String.eqb (AppointmentSlot.providerId slot) providerId
      then Some slot else None
  | None => None
  end.

Definition configOfDto (dto : CreateAvailabilityDto.t) : SlotGenerationConfig.t :=
  SlotGenerationConfig.mk
    (CreateAvailabilityDto.start_time dto) (CreateAvailabilityDto.end_time dto)
    (CreateAvailabilityDto.slot_duration dto) (CreateAvailabilityDto.break_duration dto)
    (CreateAvailabilityDto.timezone dto) (CreateAvailabilityDto.date dto).

Definition asGeneratedSlot `{TimezoneDb} (tz : string) (slot : AppointmentSlot.t)
  : GeneratedSlot.t :=
  GeneratedSlot.mk
    (TimezoneUtil.formatTimeForDisplay (AppointmentSlot.slotStartTime slot) tz)
    (TimezoneUtil.formatTimeForDisplay (AppointmentSlot.slotEndTime slot) tz)
    (Some (AppointmentSlot.slotStartTime slot))
    (Some (AppointmentSlot.slotEndTime slot)).

Definition overlapMessage (n : nat) : string :=
  "Found " +:+ pretty n +:+
  " overlapping slots. Please choose a different time or date.".

(** Check for availability conflicts. *)
Definition checkAvailabilityConflicts `{TimezoneDb} (fuel : nat) (db : Store)
    (providerId : string) (config : SlotGenerationConfig.t) : result unit :=
  let dayStart := SlotGenerationConfig.date config in
  let dayEnd := Calendar.plusDays dayStart 1 in
  let existingSlots :=
    findManySlots db (fun slot =>
      String.eqb (AppointmentSlot.providerId slot) providerId
      && (dayStart <=? AppointmentSlot.slotStartTime slot)
      && (AppointmentSlot.slotStartTime slot <? dayEnd)) in
  if (0 <? length existingSlots)%nat then
    newSlots <- SlotGeneratorUtil.generateSlotsForDay fuel config ;;
    let existingGeneratedSlots :=
      List.map (asGeneratedSlot (SlotGenerationConfig.timezone config)) existingSlots in
    let overlapping :=
      SlotGeneratorUtil.checkForOverlappingSlots newSlots existingGeneratedSlots in
    if (0 <? length overlapping)%nat
    then Throw (ConflictException (overlapMessage (length overlapping)))
    else Ok tt
  else Ok tt.

(** The end date handed to the recurring generator. *)
Definition recurrenceEndDate (now : Z) (dto : CreateAvailabilityDto.t) : Z :=
  match CreateAvailabilityDto.recurrence_end_date dto with
  | Some d => d
  | None => Calendar.plusMonths now 3
  end.

(** "Generate slots": recurring or single day. *)
Definition generateRequestedSlots `{TimezoneDb} (fuel : nat) (now : Z)
    (dto : CreateAvailabilityDto.t) (config : SlotGenerationConfig.t)
  : result (list GeneratedSlot.t) :=
  match CreateAvailabilityDto.is_recurring dto,
        CreateAvailabilityDto.recurrence_pattern dto with
  | true, Some pattern =>
      SlotGeneratorUtil.generateRecurringSlots fuel config pattern
        (recurrenceEndDate now dto)
  | _, _ => SlotGeneratorUtil.generateSlotsForDay fuel config
  end.

(** The rows of [createMany]; an Invalid Date is refused by the ORM. *)
Fixpoint slotRows (slots : list GeneratedSlot.t) : result (list (Z * Z)) :=
  match slots with
  | [] => Ok []
  | slot :: rest =>
      match GeneratedSlot.slotStartTime slot, GeneratedSlot.slotEndTime slot with
      | Some s, Some e => rows <- slotRows rest ;; Ok ((s, e) :: rows)
      | _, _ => Throw (PersistenceError "Invalid Date")
      end
  end.

(** [tx.appointmentSlot.createMany]: one row per slot, each under a fresh id. *)
Fixpoint createManySlots (now : Z) (availabilityId providerId appointmentType : string)
    (rows : list (Z * Z)) (table : gmap string AppointmentSlot.t)
  : gmap string AppointmentSlot.t :=
  match rows with
  | [] => table
  | (s, e) :: rest =>
      let id := fresh_string "slot-" table in
      createManySlots now availabilityId providerId appointmentType rest
        (<[id := AppointmentSlot.mk id availabilityId providerId s e
                   SlotStatus.available None appointmentType None now]> table)
  end.

Definition newAvailability (now : Z) (id providerId : string)
    (dto : CreateAvailabilityDto.t) : ProviderAvailability.t :=
  ProviderAvailability.mk id providerId
    (CreateAvailabilityDto.date dto)
    (CreateAvailabilityDto.start_time dto) (CreateAvailabilityDto.end_time dto)
    (CreateAvailabilityDto.timezone dto)
    (CreateAvailabilityDto.is_recurring dto)
    (CreateAvailabilityDto.recurrence_pattern dto)
    (CreateAvailabilityDto.recurrence_end_date dto)
    (CreateAvailabilityDto.slot_duration dto) (CreateAvailabilityDto.break_duration dto)
    AvailabilityStatus.available
    (numberOr (CreateAvailabilityDto.max_appointments_per_slot dto) 1)
    0
    (CreateAvailabilityDto.appointment_type dto)
    (Some (CreateAvailabilityDto.location dto))
    (CreateAvailabilityDto.pricing dto)
    (match CreateAvailabilityDto.special_requirements dto with
     | Some l => l | None => [] end)
    (CreateAvailabilityDto.notes dto)
    now now.

(** Create availability slots for a provider. *)
Definition createAvailability `{TimezoneDb} (fuel : nat) (now : Z) (db : Store)
    (providerId : string) (dto : CreateAvailabilityDto.t)
  : result (Store * CreateAvailabilityResult.t) :=
  match providers db !! providerId with
  | None => Throw (NotFoundException "Provider not found")
  | Some _ =>
    if negb (TimezoneUtil.isValidTimezone (CreateAvailabilityDto.timezone dto))
    then Throw (BadRequestException "Invalid timezone")
    else
      let config := configOfDto dto in
      validationErrors <- SlotGeneratorUtil.validateSlotGeneration config ;;
      if (0 <? length validationErrors)%nat
      then Throw (BadRequestException (String.concat ", " validationErrors))
      else
        _ <- checkAvailabilityConflicts fuel db providerId config ;;
        slots <- generateRequestedSlots fuel now dto config ;;
        (* the transaction *)
        rows <- slotRows slots ;;
        let availabilityId := fresh_string "availability-" (availabilities db) in
        let availability := newAvailability now availabilityId providerId dto in
        let db' :=
          mkStore (providers db)
            (<[availabilityId := availability]> (availabilities db))
            (createManySlots now availabilityId providerId
               (AppointmentType.name (CreateAvailabilityDto.appointment_type dto))
               rows (appointmentSlots db)) in
        Ok (db',
            CreateAvailabilityResult.mk availabilityId (length rows)
              (CreateAvailabilityDto.date dto)
              (match CreateAvailabilityDto.is_recurring dto,
                     CreateAvailabilityDto.recurrence_end_date dto with
               | true, Some d => d
               | _, _ => CreateAvailabilityDto.date dto
               end))
  end.

(** The slot statuses an update may set: the members of
    [['available', 'blocked', 'cancelled']]. *)
Definition allowedSlotStatus (s : AvailabilityStatus.t) : option SlotStatus.t :=
  match s with
  | AvailabilityStatus.available => Some SlotStatus.available
  | AvailabilityStatus.blocked => Some SlotStatus.blocked
  | AvailabilityStatus.cancelled => Some SlotStatus.cancelled
  | AvailabilityStatus.booked | AvailabilityStatus.maintenance => None
  end.

(** [prisma.appointmentSlot.update({ data: updateData })] on a loaded row. *)
Definition applyUpdateData (slot : AppointmentSlot.t)
    (dto : UpdateAvailabilityDto.t) : AppointmentSlot.t :=
  let appointmentType :=
    match UpdateAvailabilityDto.appointment_type dto with
    | Some a => AppointmentType.name a
    | None => AppointmentSlot.appointmentType slot
    end in
  let status :=
    match UpdateAvailabilityDto.status dto with
    | Some s =>
        match allowedSlotStatus s with
        | Some s' => s'
        | None => AppointmentSlot.status slot
        end
    | None => AppointmentSlot.status slot
    end in
  AppointmentSlot.mk (AppointmentSlot.id slot) (AppointmentSlot.availabilityId slot)
    (AppointmentSlot.providerId slot) (AppointmentSlot.slotStartTime slot)
    (AppointmentSlot.slotEndTime slot) status (AppointmentSlot.patientId slot)
    appointmentType (AppointmentSlot.bookingReference slot)
    (AppointmentSlot.createdAt slot).

(** Update availability slot. *)
Definition updateAvailabilitySlot (db : Store) (slotId providerId : string)
    (dto : UpdateAvailabilityDto.t) : result (Store * UpdatedSlot.t) :=
  match findFirstSlot db slotId providerId with
  | None => Throw (NotFoundException "Slot not found")
  | Some slot =>
      if SlotStatus.eqb (AppointmentSlot.status slot) SlotStatus.booked
      then Throw (ConflictException "Cannot update booked slot")
      else
        let updatedSlot := applyUpdateData slot dto in
        Ok (mkStore (providers db) (availabilities db)
              (<[slotId := updatedSlot]> (appointmentSlots db)),
            UpdatedSlot.mk (AppointmentSlot.id updatedSlot)
              (AppointmentSlot.status updatedSlot)
              (AppointmentSlot.appointmentType updatedSlot)
              (AppointmentSlot.slotStartTime updatedSlot)
              (AppointmentSlot.slotEndTime updatedSlot))
  end.

(** The [where] of the series [deleteMany]:
    [{ availabilityId, status: { not: 'booked' } }]. *)
Definition inDeletedSeries (availabilityId : string) (slot : AppointmentSlot.t) : bool :=
  String.eqb (AppointmentSlot.availabilityId slot) availabilityId
  && negb (SlotStatus.eqb (AppointmentSlot.status slot) SlotStatus.booked).

(** Delete availability slot. *)
Definition deleteAvailabilitySlot (now : Z) (db : Store) (slotId providerId : string)
    (deleteRecurring : option bool) (reason : option string)
  : result (Store * DeleteResult.t) :=
  match findFirstSlot db slotId providerId with
  | None => Throw (NotFoundException "Slot not found")
  | Some slot =>
      if SlotStatus.eqb (AppointmentSlot.status slot) SlotStatus.booked
      then Throw (ConflictException "Cannot delete booked slot")
      else
        let outcome :=
          DeleteResult.mk "Slot deleted successfully"
            (if truthyString reason then default "" reason else "Provider request") in
        let single :=
          Ok (mkStore (providers db) (availabilities db)
                (delete slotId (appointmentSlots db)), outcome) in
        if truthyBool deleteRecurring then
          match availabilities db !! AppointmentSlot.availabilityId slot with
          | None => Throw (PersistenceError "availability of the slot is missing")
          | Some availability =>
              if ProviderAvailability.isRecurring availability then
                Ok (mkStore (providers db)
                      (<[AppointmentSlot.availabilityId slot :=
                           ProviderAvailability.withStatus availability
                             AvailabilityStatus.cancelled now]> (availabilities db))
                      (filter (fun kv : string * AppointmentSlot.t =>
                                 inDeletedSeries (AppointmentSlot.availabilityId slot)
                                   (snd kv) = false)
                         (appointmentSlots db)),
                    outcome)
              else single
          end
        else single
  end.

(** The [where] of the search query. *)
Definition searchWhere (now : Z) (dto : SlotSearchDto.t) (slot : AppointmentSlot.t) : bool :=
  let start := AppointmentSlot.slotStartTime slot in
  SlotStatus.eqb (AppointmentSlot.status slot) SlotStatus.available
  && match SlotSearchDto.date dto with
     | Some d => (d <=? start) && (start <? Calendar.plusDays d 1)
     | None =>
         match SlotSearchDto.start_date dto, SlotSearchDto.end_date dto with
         | Some a, Some b => (a <=? start) && (start <=? b)
         | _, _ => true
         end
     end
  && (if truthyString (SlotSearchDto.provider_id dto)
      then String.eqb (AppointmentSlot.providerId slot)
             (default "" (SlotSearchDto.provider_id dto))
      else true)
  && match SlotSearchDto.appointment_type dto with
     | Some a => String.eqb (AppointmentSlot.appointmentType slot) (AppointmentType.name a)
     | None => true
     end
  && (if truthyNumber (SlotSearchDto.min_duration dto)
      then now + default 0 (SlotSearchDto.min_duration dto) * Calendar.msPerMinute
           <=? AppointmentSlot.slotEndTime slot
      else true).

(** The [include] of the search query; the foreign keys make both parents
    present. *)
Definition loadSlot (db : Store) (slot : AppointmentSlot.t) : option LoadedSlot.t :=
  match availabilities db !! AppointmentSlot.availabilityId slot with
  | Some availability =>
      match providers db !! ProviderAvailability.providerId availability with
      | Some provider => Some (LoadedSlot.mk slot availability provider)
      | None => None
      end
  | None => None
  end.

(** [orderBy: { slotStartTime: 'asc' }] *)
Definition startsNoLater (a b : AppointmentSlot.t) : Prop :=
  AppointmentSlot.slotStartTime a <= AppointmentSlot.slotStartTime b.

#[export] Instance startsNoLater_dec (a b : AppointmentSlot.t)
  : Decision (startsNoLater a b) :=
  Z_le_dec (AppointmentSlot.slotStartTime a) (AppointmentSlot.slotStartTime b).

(** The search query: [where], [orderBy slotStartTime asc], [skip], [take]. *)
Definition searchQuery (now : Z) (db : Store) (dto : SlotSearchDto.t) : list LoadedSlot.t :=
  let matching := findManySlots db (searchWhere now dto) in
  let ordered :=
    merge_sort startsNoLater matching in
  let page :=
    take (Z.to_nat (numberOr (SlotSearchDto.limit dto) 50))
      (drop (Z.to_nat (numberOr (SlotSearchDto.offset dto) 0)) ordered) in
  omap (loadSlot db) page.

Definition matchesSpecialization (wanted : string) (slot : LoadedSlot.t) : bool :=
  includes (toLowerCase (Provider.specialization (LoadedSlot.provider slot)))
           (toLowerCase wanted).

Definition matchesLocation (wanted : string) (slot : LoadedSlot.t) : bool :=
  includes (toLowerCase (Provider.clinicCity (LoadedSlot.provider slot)))
           (toLowerCase wanted)
  || includes (toLowerCase (Provider.clinicState (LoadedSlot.provider slot)))
              (toLowerCase wanted).

Definition isVirtual (slot : LoadedSlot.t) : bool :=
  match ProviderAvailability.location (LoadedSlot.availability slot) with
  | Some location => String.eqb (Location.type location) "virtual"
  | None => false
  end.

Definition isInPerson (slot : LoadedSlot.t) : bool :=
  match ProviderAvailability.location (LoadedSlot.availability slot) with
  | Some location => negb (String.eqb (Location.type location) "virtual")
  | None => false
  end.

(** [!pricing || pricing.base_fee <= max_price] *)
Definition withinPrice (max_price : Z) (slot : LoadedSlot.t) : bool :=
  match ProviderAvailability.pricing (LoadedSlot.availability slot) with
  | None => true
  | Some pricing => Pricing.base_fee pricing <=? max_price
  end.

(** One [if (cond) filteredSlots = filteredSlots.filter(keep)] step. *)
Definition filterIf {A} (cond : bool) (keep : A -> bool) (l : list A) : list A :=
  if cond then List.filter keep l else l.

(** "Filter by price": the last filtering step of the search. *)
Definition filterByPrice (dto : SlotSearchDto.t) (slots : list LoadedSlot.t)
  : list LoadedSlot.t :=
  filterIf (truthyNumber (SlotSearchDto.max_price dto))
    (withinPrice (default 0 (SlotSearchDto.max_price dto))) slots.

(** "Apply additional filters" on the rows the query loaded. *)
Definition applyAdditionalFilters (dto : SlotSearchDto.t) (slots : list LoadedSlot.t)
  : list LoadedSlot.t :=
  let filteredSlots := slots in
  let filteredSlots :=
    filterIf (truthyString (SlotSearchDto.specialization dto))
      (matchesSpecialization (default "" (SlotSearchDto.specialization dto)))
      filteredSlots in
  let filteredSlots :=
    filterIf (truthyString (SlotSearchDto.location dto))
      (matchesLocation (default "" (SlotSearchDto.location dto))) filteredSlots in
  let filteredSlots :=
    filterIf (truthyBool (SlotSearchDto.virtual_only dto)) isVirtual filteredSlots in
  let filteredSlots :=
    filterIf (truthyBool (SlotSearchDto.in_person_only dto)) isInPerson filteredSlots in
  filterByPrice dto filteredSlots.

Definition toSlotResult (slot : LoadedSlot.t) : SlotResult.t :=
  let s := LoadedSlot.slot slot in
  let a := LoadedSlot.availability slot in
  let p := LoadedSlot.provider slot in
  SlotResult.mk (AppointmentSlot.id s) (Provider.id p)
    (Provider.firstName p +:+ " " +:+ Provider.lastName p)
    (Provider.specialization p)
    (Provider.clinicCity p +:+ ", " +:+ Provider.clinicState p)
    (AppointmentSlot.slotStartTime s) (AppointmentSlot.slotEndTime s)
    (AppointmentSlot.appointmentType s)
    (ProviderAvailability.location a) (ProviderAvailability.pricing a)
    (ProviderAvailability.timezone a).

(** Search available slots for patients. *)
Definition searchAvailableSlots (now : Z) (db : Store) (dto : SlotSearchDto.t)
  : list SlotResult.t :=
  List.map toSlotResult (applyAdditionalFilters dto (searchQuery now db dto)).

(** [orderBy: { date: 'asc' }] *)
Definition datesNoLater (a b : ProviderAvailability.t) : Prop :=
  ProviderAvailability.date a <= ProviderAvailability.date b.

#[export] Instance datesNoLater_dec (a b : ProviderAvailability.t)
  : Decision (datesNoLater a b) :=
  Z_le_dec (ProviderAvailability.date a) (ProviderAvailability.date b).

(** The [include: { appointmentSlots: { where: { status: 'available' },
    orderBy: { slotStartTime: 'asc' } } }] of a record. *)
Definition includedSlots (db : Store) (availability : ProviderAvailability.t)
  : list AppointmentSlot.t :=
  merge_sort startsNoLater
    (findManySlots db (fun slot =>
       String.eqb (AppointmentSlot.availabilityId slot)
                  (ProviderAvailability.id availability)
       && SlotStatus.eqb (AppointmentSlot.status slot) SlotStatus.available)).

Definition toAvailabilityView (db : Store) (availability : ProviderAvailability.t)
  : AvailabilityView.t :=
  AvailabilityView.mk
    (ProviderAvailability.id availability)
    (ProviderAvailability.date availability)
    (ProviderAvailability.startTime availability)
    (ProviderAvailability.endTime availability)
    (ProviderAvailability.timezone availability)
    (ProviderAvailability.status availability)
    (ProviderAvailability.appointmentType availability)
    (ProviderAvailability.location availability)
    (ProviderAvailability.pricing availability)
    (length (includedSlots db availability))
    (length (includedSlots db availability)).

(** The [where.date] of the two listing calls: set only when both bounds are
    given (a bound is [None] when absent or empty, [Some None] when its text
    is no date, which the ORM refuses). *)
Definition dateRange (startDate endDate : option JsDate) : result (option (Z * Z)) :=
  match startDate, endDate with
  | Some s, Some e =>
      match s, e with
      | Some s', Some e' => Ok (Some (s', e'))
      | _, _ => Throw (PersistenceError "Invalid Date")
      end
  | _, _ => Ok None
  end.

Definition inDateRange (range : option (Z * Z)) (date : Z) : bool :=
  match range with
  | Some (s, e) => (s <=? date) && (date <=? e)
  | None => true
  end.

(** Get provider availability. *)
Definition getProviderAvailability (db : Store) (providerId : string)
    (startDate endDate : option JsDate) : result (list AvailabilityView.t) :=
  match providers db !! providerId with
  | None => Throw (NotFoundException "Provider not found")
  | Some _ =>
      range <- dateRange startDate endDate ;;
      let availabilities :=
        merge_sort datesNoLater
          (List.filter (fun availability =>
                          String.eqb (ProviderAvailability.providerId availability)
                                     providerId
                          && inDateRange range (ProviderAvailability.date availability))
             (List.map snd (map_to_list (availabilities db)))) in
      Ok (List.map (toAvailabilityView db) availabilities)
  end.

(** [prisma.appointmentSlot.count({ where })] for the slots of a provider. *)
Definition countSlots (db : Store) (providerId : string)
    (status : option SlotStatus.t) : nat :=
  length (findManySlots db (fun slot =>
    String.eqb (AppointmentSlot.providerId slot) providerId
    && match status with
       | Some wanted => SlotStatus.eqb (AppointmentSlot.status slot) wanted
       | None => true
       end)).

(** Get availability statistics for a provider. With both bounds given the
    [where] carries a [date] filter, a field the slot table does not have:
    the ORM refuses the query. *)
Definition getAvailabilityStats (db : Store) (providerId : string)
    (startDate endDate : option JsDate) : result AvailabilityStats.t :=
  match startDate, endDate with
  | Some _, Some _ => Throw (PersistenceError "Unknown argument date")
  | _, _ =>
      let totalSlots := countSlots db providerId None in
      let bookedSlots := countSlots db providerId (Some SlotStatus.booked) in
      let availableSlots := countSlots db providerId (Some SlotStatus.available) in
      Ok (AvailabilityStats.mk totalSlots bookedSlots availableSlots
            (if (0 <? totalSlots)%nat
             then (Qmake (Z.of_nat bookedSlots) (Pos.of_nat totalSlots) * 100)%Q
             else 0%Q))
  end.

End AvailabilityService.

(** ** Concrete requests and stores used by the examples

    Statements without a [TimezoneDb] binder are about the zone database
    [fixedZones]; the examples use its zone "UTC". *)

Module Scenario.

Definition aug1 : Z := Calendar.utcDate 2024 8 1.

(** Scenario A: 09:00 to 17:00, 30 minute slots, 15 minute breaks. *)
Definition configA (tz : string) (date : Z) : SlotGenerationConfig.t :=
  SlotGenerationConfig.mk "09:00" "17:00" 30 15 tz date.

(** Scenario B: 09:00 to 09:40, 30 minute slots, no break. *)
Definition configB (tz : string) (date : Z) : SlotGenerationConfig.t :=
  SlotGenerationConfig.mk "09:00" "09:40" 30 0 tz date.

(** A late evening window: 23:00 to 23:50, 30 minute slots, no break. *)
Definition configLate : SlotGenerationConfig.t :=
  SlotGenerationConfig.mk "23:00" "23:50" 30 0 "UTC" aug1.

(** A start time that is not HH:mm. *)
Definition configMalformed : SlotGenerationConfig.t :=
  SlotGenerationConfig.mk "9am" "17:00" 30 15 "UTC" aug1.

(** The civil window of a slot, in minutes of the day. *)
Definition civilWindow (slot : GeneratedSlot.t) : option (Z * Z) :=
  match TimezoneUtil.fromFormat_HHmm (GeneratedSlot.startTime slot),
        TimezoneUtil.fromFormat_HHmm (GeneratedSlot.endTime slot) with
  | Some s, Some e => Some (s, e)
  | _, _ => None
  end.

Definition civilTimes (slot : GeneratedSlot.t) : string * string :=
  (GeneratedSlot.startTime slot, GeneratedSlot.endTime slot).

(** Minutes between the end of each slot and the start of the next one. *)
Fixpoint civilGaps (windows : list (Z * Z)) : list Z :=
  match windows with
  | (_, e) :: (((s, _) :: _) as rest) => (s - e) :: civilGaps rest
  | _ => []
  end.

(** The UTC instants of the slot that starts [s] and ends [e] minutes after
    the local midnight of the UTC day of [date]. *)
Definition instantsOf `{TimezoneDb} (tz : string) (date : Z) (w : Z * Z)
  : JsDate * JsDate :=
  let day := (date / Calendar.msPerDay) * Calendar.msPerDay in
  let at_ (t : Z) := let local := day + t * Calendar.msPerMinute in
                     Some (local - offsetAtLocal tz local) in
  (at_ (fst w), at_ (snd w)).

Definition slotInstants (slot : GeneratedSlot.t) : JsDate * JsDate :=
  (GeneratedSlot.slotStartTime slot, GeneratedSlot.slotEndTime slot).

(** [toFormat] then [fromFormat] gives the time of day back. *)
Definition roundTripOk (n : nat) : bool :=
  match TimezoneUtil.fromFormat_HHmm (TimezoneUtil.toFormat_HHmm (Z.of_nat n)) with
  | Some t => t =? Z.of_nat n
  | None => false
  end.

(** *** Stores and requests *)

Definition drSmith : Provider.t :=
  Provider.mk "p1" "Ann" "Smith" "Cardiology" "Pune" "Maharashtra".

Definition clinic : Location.t :=
  Location.mk "clinic" "Main Street, Pune" None None None None.

(** A store that knows the provider and nothing else. *)
Definition emptyDb : Store := mkStore {[ "p1" := drSmith ]} ∅ ∅.

Definition request (date : Z) (start_time end_time : string) (is_recurring : bool)
    (pattern : option RecurrencePattern) (end_date : option Z)
  : CreateAvailabilityDto.t :=
  CreateAvailabilityDto.mk date start_time end_time "UTC" 30 0 is_recurring
    pattern end_date AppointmentType.consultation clinic None None None None.

(** Scenario D: a single day on 2 August, then a daily series from 1 to
    3 August over the same hours. *)
Definition firstRequest : CreateAvailabilityDto.t :=
  request (Calendar.utcDate 2024 8 2) "09:00" "10:00" false None None.

Definition secondRequest : CreateAvailabilityDto.t :=
  request aug1 "09:00" "10:00" true (Some daily) (Some (Calendar.utcDate 2024 8 3)).

(** The same hours asked again for 2 August alone. *)
Definition repeatedRequest : CreateAvailabilityDto.t :=
  request (Calendar.utcDate 2024 8 2) "09:30" "10:30" false None None.

(** A weekly series from 1 August 2024 with no end date. *)
Definition openEndedRequest : CreateAvailabilityDto.t :=
  request aug1 "09:00" "10:00" true (Some weekly) None.

(** The request is handled on 1 January 2024. *)
Definition jan1 : Z := Calendar.utcDate 2024 1 1.

Definition availabilityRow (id : string) (isRecurring : bool)
    (pricing : option Pricing.t) : ProviderAvailability.t :=
  ProviderAvailability.mk id "p1" aug1 "09:00" "10:30" "UTC" isRecurring
    (if isRecurring then Some weekly else None) None 30 0
    AvailabilityStatus.available 1 0 AppointmentType.consultation (Some clinic)
    pricing [] None 0 0.

Definition slotRow (id availabilityId : string) (start : Z) (status : SlotStatus.t)
    (patient : option string) : AppointmentSlot.t :=
  AppointmentSlot.mk id availabilityId "p1" start (start + 30 * Calendar.msPerMinute)
    status patient "consultation" None 0.

(** Scenario E: a recurring record with a booked slot and two free ones, and
    a slot of another record. *)
Definition bookedSlot : AppointmentSlot.t :=
  slotRow "s1" "a1" (Calendar.utcDateTime 2024 8 1 9 0) SlotStatus.booked (Some "patient-7").

Definition seriesDb : Store :=
  mkStore {[ "p1" := drSmith ]}
    (<[ "a1" := availabilityRow "a1" true None ]>
       {[ "a2" := availabilityRow "a2" false None ]})
    (<[ "s1" := bookedSlot ]>
     (<[ "s2" := slotRow "s2" "a1" (Calendar.utcDateTime 2024 8 1 9 30)
                   SlotStatus.available None ]>
     (<[ "s3" := slotRow "s3" "a1" (Calendar.utcDateTime 2024 8 8 9 0)
                   SlotStatus.blocked None ]>
      {[ "s9" := slotRow "s9" "a2" (Calendar.utcDateTime 2024 8 1 10 0)
                   SlotStatus.available None ]}))).

(** A store with one free slot whose record asks a base fee of 500. *)
Definition pricedDb : Store :=
  mkStore {[ "p1" := drSmith ]}
    {[ "a1" := availabilityRow "a1" false (Some (Pricing.mk 500 None "INR" None None)) ]}
    {[ "s1" := slotRow "s1" "a1" (Calendar.utcDateTime 2024 8 1 9 0)
                 SlotStatus.available None ]}.

Definition searchByMaxPrice (max_price : Z) : SlotSearchDto.t :=
  SlotSearchDto.mk None None None None None None None None None (Some max_price)
    None None (Some 50) (Some 0).

Definition statusUpdate (status : AvailabilityStatus.t) : UpdateAvailabilityDto.t :=
  UpdateAvailabilityDto.mk None None None None None None (Some status) None
    None None None None None None.

(** What a search result shows of a slot's price. *)
Definition pricedAt (r : SlotResult.t) : string * option Z :=
  (SlotResult.id r, option_map Pricing.base_fee (SlotResult.pricing r)).

(** Two persisted slots of one provider whose intervals overlap. *)
Definition overlapping (a b : AppointmentSlot.t) : Prop :=
  AppointmentSlot.providerId a = AppointmentSlot.providerId b
  /\ AppointmentSlot.slotStartTime a < AppointmentSlot.slotEndTime b
  /\ AppointmentSlot.slotStartTime b < AppointmentSlot.slotEndTime a.

(** The store and answer of a creation request that succeeded. *)
Definition created `{TimezoneDb} (fuel : nat) (now : Z) (db : Store)
    (providerId : string) (dto : CreateAvailabilityDto.t)
  : Store * CreateAvailabilityResult.t :=
  match AvailabilityService.createAvailability fuel now db providerId dto with
  | Ok outcome => outcome
  | _ => (db, CreateAvailabilityResult.mk "" 0 0 0)
  end.

(** A generated slot of 1 August 2024 in UTC. *)
Definition utcSlot (h1 m1 h2 m2 : Z) : GeneratedSlot.t :=
  GeneratedSlot.mk (TimezoneUtil.toFormat_HHmm (60 * h1 + m1))
    (TimezoneUtil.toFormat_HHmm (60 * h2 + m2))
    (Some (Calendar.utcDateTime 2024 8 1 h1 m1))
    (Some (Calendar.utcDateTime 2024 8 1 h2 m2)).

End Scenario.

(** ** What the generator yields while no time of day passes midnight *)

Module WithinDay.

Import SlotGenerationConfig.

(** Slot plus break, in minutes. *)
Definition stride (config : t) : Z := slotDuration config + breakDuration config.

(** How many slots of the stride fit between minute [c] and minute [e],
    the last one needing no break after it. *)
Definition slotCount (config : t) (c e : Z) : Z :=
  Z.max 0 ((e - c + breakDuration config) / stride config).

(** The civil windows of [n] slots, the first one starting at minute [c]. *)
Fixpoint windowsFrom (config : t) (n : nat) (c : Z) : list (Z * Z) :=
  match n with
  | O => []
  | S n' => (c, c + slotDuration config) :: windowsFrom config n' (c + stride config)
  end.

(** The same slots as the generator builds them, [cur] being the text of
    minute [c]. *)
Fixpoint slotsFrom `{TimezoneDb} (config : t) (n : nat) (cur : string) (c : Z)
  : list GeneratedSlot.t :=
  match n with
  | O => []
  | S n' =>
      let slotEnd := TimezoneUtil.toFormat_HHmm (c + slotDuration config) in
      GeneratedSlot.mk cur slotEnd
        (TimezoneUtil.toUTC (date config) cur (timezone config))
        (TimezoneUtil.toUTC (date config) slotEnd (timezone config))
      :: slotsFrom config n' (TimezoneUtil.toFormat_HHmm (c + stride config))
           (c + stride config)
  end.

(** [{ ...config, date }] *)
Definition withDate (config : t) (date : Z) : t :=
  mk (startTime config) (endTime config) (slotDuration config)
     (breakDuration config) (timezone config) date.

(** The slots of [m] occurrences, [perDay] slots each, the first occurrence
    on [cur] and the next ones [step] days apart. *)
Fixpoint seriesFrom `{TimezoneDb} (config : t) (perDay : nat) (s step : Z)
    (m : nat) (cur : Z) : list GeneratedSlot.t :=
  match m with
  | O => []
  | S m' =>
      app (slotsFrom (withDate config cur) perDay (startTime config) s)
          (seriesFrom config perDay s step m' (cur + step * Calendar.msPerDay))
  end.

(** How many occurrences, [step] days apart, lie between [cur] and [endDate],
    both included. *)
Definition occurrencesFrom (step endDate cur : Z) : nat :=
  Z.to_nat ((endDate - cur) / (step * Calendar.msPerDay) + 1).

End WithinDay.

(** ** Integrity of the store

    What the schema's keys promise: every row sits under its own id, every
    slot belongs to a record of the same provider, every record to a known
    provider. *)

Definition storeConsistent (db : Store) : Prop :=
  (forall (key : string) (row : AppointmentSlot.t),
     appointmentSlots db !! key = Some row ->
     AppointmentSlot.id row = key
     /\ exists availability,
          availabilities db !! AppointmentSlot.availabilityId row = Some availability
          /\ ProviderAvailability.providerId availability
             = AppointmentSlot.providerId row)
  /\ (forall (key : string) (availability : ProviderAvailability.t),
        availabilities db !! key = Some availability ->
        ProviderAvailability.id availability = key
        /\ is_Some (providers db !! ProviderAvailability.providerId availability)).

(** A slot row as [createMany] writes it. *)
Definition freshSlotRow (now : Z) (id availabilityId providerId appointmentType : string)
    (window : Z * Z) : AppointmentSlot.t :=
  AppointmentSlot.mk id availabilityId providerId (fst window) (snd window)
    SlotStatus.available None appointmentType None now.

(** ** Variants of a search request *)

(** [{ ...dto, specialization, location }] *)
Definition withTerms (dto : SlotSearchDto.t) (specialization location : option string)
  : SlotSearchDto.t :=
  SlotSearchDto.mk (SlotSearchDto.date dto) (SlotSearchDto.start_date dto)
    (SlotSearchDto.end_date dto) specialization location
    (SlotSearchDto.provider_id dto) (SlotSearchDto.appointment_type dto)
    (SlotSearchDto.timezone dto) (SlotSearchDto.min_duration dto)
    (SlotSearchDto.max_price dto) (SlotSearchDto.virtual_only dto)
    (SlotSearchDto.in_person_only dto) (SlotSearchDto.limit dto)
    (SlotSearchDto.offset dto).

(** The request with the five conditions left out that the service applies
    to the rows once the query has answered. *)
Definition queryOnly (dto : SlotSearchDto.t) : SlotSearchDto.t :=
  SlotSearchDto.mk (SlotSearchDto.date dto) (SlotSearchDto.start_date dto)
    (SlotSearchDto.end_date dto) None None
    (SlotSearchDto.provider_id dto) (SlotSearchDto.appointment_type dto)
    (SlotSearchDto.timezone dto) (SlotSearchDto.min_duration dto)
    None None None (SlotSearchDto.limit dto) (SlotSearchDto.offset dto).

(** * Properties *)

(** ** Time strings *)

Lemma roundTrip_day : forallb Scenario.roundTripOk (seq 0 1440) = true.
Proof. vm_compute. reflexivity. Qed.

Lemma fromFormat_toFormat (t : Z) :
  TimezoneUtil.fromFormat_HHmm (TimezoneUtil.toFormat_HHmm t) = Some (t mod 1440).
Proof.
  assert (Hr : 0 <= t mod 1440 < 1440) by (apply Z.mod_pos_bound; lia).
  assert (Hin : In (Z.to_nat (t mod 1440)) (seq 0 1440)).
  { apply in_seq. lia. }
  pose proof (proj1 (forallb_forall _ _) roundTrip_day _ Hin) as Hok.
  unfold Scenario.roundTripOk in Hok.
  rewrite Z2Nat.id in Hok by lia.
  assert (Hsame : TimezoneUtil.toFormat_HHmm (t mod 1440) = TimezoneUtil.toFormat_HHmm t).
  { unfold TimezoneUtil.toFormat_HHmm. now rewrite Z.mod_mod by lia. }
  rewrite Hsame in Hok.
  destruct (TimezoneUtil.fromFormat_HHmm (TimezoneUtil.toFormat_HHmm t)) as [u|];
    [|discriminate].
  apply Z.eqb_eq in Hok. now subst.
Qed.

Lemma digitValue_range (c : ascii) (d : Z) :
  TimezoneUtil.digitValue c = Some d -> 0 <= d <= 9.
Proof.
  unfold TimezoneUtil.digitValue.
  destruct (_ && _) eqn:E; [|discriminate].
  intros [= <-]. apply andb_prop in E as [E1 E2]. lia.
Qed.

Lemma fromFormat_range (s : string) (t : Z) :
  TimezoneUtil.fromFormat_HHmm s = Some t -> 0 <= t <= 1440.
Proof.
  unfold TimezoneUtil.fromFormat_HHmm.
  destruct s as [|h1 [|h2 [|sep [|m1 [|m2 [|]]]]]]; try discriminate.
  destruct (TimezoneUtil.digitValue h1) as [a|] eqn:Ea; [|discriminate].
  destruct (TimezoneUtil.digitValue h2) as [b|] eqn:Eb; [|discriminate].
  destruct (TimezoneUtil.digitValue m1) as [c|] eqn:Ec; [|discriminate].
  destruct (TimezoneUtil.digitValue m2) as [d|] eqn:Ed; [|discriminate].
  apply digitValue_range in Ea, Eb, Ec, Ed.
  cbv zeta.
  destruct (negb _); [discriminate|].
  destruct ((10 * a + b <=? 23) && (10 * c + d <=? 59)) eqn:E1.
  - intros [= <-]. lia.
  - destruct ((10 * a + b =? 24) && (10 * c + d =? 0)) eqn:E2; [|discriminate].
    intros [= <-]. lia.
Qed.

(** ** The slot generator *)

Section GeneratorFacts.

Context `{tzdb : TimezoneDb}.

Import SlotGenerationConfig.

(** One turn of the loop, read on minutes of the day. *)
Lemma generateSlotsLoop_step (fuel : nat) (config : t) (cur : string) (c e : Z)
    (acc : list GeneratedSlot.t) :
  TimezoneUtil.fromFormat_HHmm cur = Some c ->
  TimezoneUtil.fromFormat_HHmm (endTime config) = Some e ->
  SlotGeneratorUtil.generateSlotsLoop (S fuel) config cur acc =
    if c <? e then
      let c1 := (c + slotDuration config) mod 1440 in
      let slotEnd := TimezoneUtil.toFormat_HHmm (c + slotDuration config) in
      SlotGeneratorUtil.generateSlotsLoop fuel config
        (TimezoneUtil.toFormat_HHmm (c1 + breakDuration config))
        (if (c1 <? e) || (c1 =? e)
         then push acc
                (GeneratedSlot.mk cur slotEnd
                   (TimezoneUtil.toUTC (date config) cur (timezone config))
                   (TimezoneUtil.toUTC (date config) slotEnd (timezone config)))
         else acc)
    else Ok acc.
Proof.
  intros Hc He. cbn [SlotGeneratorUtil.generateSlotsLoop].
  unfold SlotGeneratorUtil.isTimeBefore, SlotGeneratorUtil.isTimeEqual,
    SlotGeneratorUtil.addMinutes, TimezoneUtil.addMinutes.
  rewrite Hc, He. cbn [rbind].
  destruct (c <? e); [|reflexivity].
  cbn [rbind]. rewrite fromFormat_toFormat. cbn [rbind].
  cbv zeta.
  destruct ((c + slotDuration config) mod 1440 <? e); cbn [rbind orb].
  - reflexivity.
  - reflexivity.
Qed.

(** A malformed time makes the first turn throw. *)
Lemma generateSlotsLoop_throws (fuel : nat) (config : t) (cur : string)
    (acc : list GeneratedSlot.t) :
  TimezoneUtil.fromFormat_HHmm cur = None
  \/ TimezoneUtil.fromFormat_HHmm (endTime config) = None ->
  SlotGeneratorUtil.generateSlotsLoop (S fuel) config cur acc = Throw InvalidTimeFormat.
Proof.
  cbn [SlotGeneratorUtil.generateSlotsLoop]. unfold SlotGeneratorUtil.isTimeBefore.
  intros [Hn | Hn]; rewrite Hn.
  - reflexivity.
  - destruct (TimezoneUtil.fromFormat_HHmm cur); reflexivity.
Qed.

(** More fuel never changes a result. *)
Lemma generateSlotsLoop_fuel_mono (fuel : nat) :
  forall (config : t) (cur : string) (acc slots : list GeneratedSlot.t) (fuel' : nat),
    SlotGeneratorUtil.generateSlotsLoop fuel config cur acc = Ok slots ->
    (fuel <= fuel')%nat ->
    SlotGeneratorUtil.generateSlotsLoop fuel' config cur acc = Ok slots.
Proof.
  induction fuel as [|fuel IH]; intros config cur acc slots fuel' Hrun Hle.
  - discriminate.
  - destruct fuel' as [|fuel']; [lia|].
    destruct (TimezoneUtil.fromFormat_HHmm cur) as [c|] eqn:Hc.
    2:{ rewrite generateSlotsLoop_throws in Hrun by auto. discriminate. }
    destruct (TimezoneUtil.fromFormat_HHmm (endTime config)) as [e|] eqn:He.
    2:{ rewrite generateSlotsLoop_throws in Hrun by auto. discriminate. }
    rewrite (generateSlotsLoop_step _ _ _ c e) in Hrun by assumption.
    rewrite (generateSlotsLoop_step _ _ _ c e) by assumption.
    destruct (c <? e); [|assumption].
    cbv zeta in Hrun |- *. eapply IH; [eassumption|lia].
Qed.

Lemma generateSlotsForDay_fuel_mono (fuel fuel' : nat) (config : t)
    (slots : list GeneratedSlot.t) :
  SlotGeneratorUtil.generateSlotsForDay fuel config = Ok slots ->
  (fuel <= fuel')%nat ->
  SlotGeneratorUtil.generateSlotsForDay fuel' config = Ok slots.
Proof. apply generateSlotsLoop_fuel_mono. Qed.

(** Whatever the fuel, two completed runs agree. *)
Lemma generateSlotsForDay_deterministic (fuel fuel' : nat) (config : t)
    (slots slots' : list GeneratedSlot.t) :
  SlotGeneratorUtil.generateSlotsForDay fuel config = Ok slots ->
  SlotGeneratorUtil.generateSlotsForDay fuel' config = Ok slots' ->
  slots = slots'.
Proof.
  intros H1 H2.
  apply generateSlotsForDay_fuel_mono with (fuel' := Nat.max fuel fuel') in H1; [|lia].
  apply generateSlotsForDay_fuel_mono with (fuel' := Nat.max fuel fuel') in H2; [|lia].
  congruence.
Qed.

End GeneratorFacts.

(** ** The generator on windows that stay within the day *)

Section WithinDayFacts.

Context `{tzdb : TimezoneDb}.

Import SlotGenerationConfig WithinDay.

Variable config : t.
Variable e : Z.
Hypothesis end_parses : TimezoneUtil.fromFormat_HHmm (endTime config) = Some e.
Hypothesis duration_pos : 0 < slotDuration config.
Hypothesis break_nonneg : 0 <= breakDuration config.
Hypothesis no_wrap : e + slotDuration config + breakDuration config <= 1440.

Lemma slotCount_done (c : Z) : e <= c -> slotCount config c e = 0.
Proof.
  intros Hc. unfold slotCount, stride.
  assert ((e - c + breakDuration config) / (slotDuration config + breakDuration config) < 1).
  { apply Z.div_lt_upper_bound; lia. }
  lia.
Qed.

Lemma slotCount_overrun (c : Z) :
  e < c + slotDuration config -> slotCount config c e = 0.
Proof.
  intros Hc. unfold slotCount, stride.
  assert ((e - c + breakDuration config) / (slotDuration config + breakDuration config) < 1).
  { apply Z.div_lt_upper_bound; lia. }
  lia.
Qed.

Lemma slotCount_fits (c : Z) :
  c + slotDuration config <= e ->
  Z.to_nat (slotCount config c e) = S (Z.to_nat (slotCount config (c + stride config) e)).
Proof.
  intros Hc. unfold slotCount, stride.
  set (D := slotDuration config + breakDuration config).
  replace (e - c + breakDuration config)
    with ((e - (c + D) + breakDuration config) + 1 * D) by (unfold D; lia).
  rewrite Z.div_add by (unfold D; lia).
  assert (0 <= (e - (c + D) + breakDuration config) / D).
  { apply Z.div_pos; unfold D; lia. }
  lia.
Qed.

(** The loop, started at minute [c], appends the slots that fit and returns. *)
Lemma generateSlotsLoop_within_day (fuel : nat) :
  forall (cur : string) (c : Z) (acc : list GeneratedSlot.t),
    TimezoneUtil.fromFormat_HHmm cur = Some c ->
    (Z.to_nat (e - c) < fuel)%nat ->
    SlotGeneratorUtil.generateSlotsLoop fuel config cur acc
    = Ok (app acc (slotsFrom config (Z.to_nat (slotCount config c e)) cur c)).
Proof.
  induction fuel as [|fuel IH]; intros cur c acc Hc Hfuel; [lia|].
  pose proof (fromFormat_range _ _ Hc) as Hrange.
  rewrite (generateSlotsLoop_step _ _ _ c e) by assumption.
  destruct (c <? e) eqn:Hlt.
  - apply Z.ltb_lt in Hlt. cbv zeta.
    rewrite (Z.mod_small (c + slotDuration config)) by lia.
    replace (c + slotDuration config + breakDuration config)
      with (c + stride config) by (unfold stride; lia).
    assert (Hnext : TimezoneUtil.fromFormat_HHmm
                      (TimezoneUtil.toFormat_HHmm (c + stride config))
                    = Some (c + stride config)).
    { rewrite fromFormat_toFormat, Z.mod_small; [reflexivity|unfold stride; lia]. }
    rewrite IH with (c := c + stride config); [|assumption|unfold stride; lia].
    destruct ((c + slotDuration config <? e) || (c + slotDuration config =? e)) eqn:Hfit.
    + assert (c + slotDuration config <= e) as Hle.
      { apply orb_prop in Hfit as [Hf|Hf]; lia. }
      rewrite (slotCount_fits c Hle). cbn [slotsFrom]. unfold push.
      rewrite <- app_assoc. reflexivity.
    + apply orb_false_elim in Hfit as [Hf1 Hf2].
      rewrite (slotCount_overrun c) by lia.
      rewrite (slotCount_done (c + stride config)) by (unfold stride; lia).
      reflexivity.
  - apply Z.ltb_ge in Hlt. rewrite (slotCount_done c Hlt). cbn [Z.to_nat slotsFrom].
    now rewrite app_nil_r.
Qed.

(** The windows of [slotsFrom] are those of [windowsFrom]. *)
Lemma slotsFrom_windows (n : nat) :
  forall (cur : string) (c : Z),
    TimezoneUtil.fromFormat_HHmm cur = Some c ->
    0 <= c ->
    (0 < Z.of_nat n -> c + Z.of_nat n * stride config <= e + breakDuration config) ->
    List.map Scenario.civilWindow (slotsFrom config n cur c)
    = List.map Some (windowsFrom config n c)
    /\ List.map Scenario.slotInstants (slotsFrom config n cur c)
       = List.map (Scenario.instantsOf (timezone config) (date config))
           (windowsFrom config n c).
Proof.
  induction n as [|n IH]; intros cur c Hc H0 Hbound; [split; reflexivity|].
  rewrite Nat2Z.inj_succ in Hbound.
  replace (Z.succ (Z.of_nat n) * stride config)
    with (Z.of_nat n * stride config + stride config) in Hbound by ring.
  specialize (Hbound ltac:(lia)).
  assert (Hn : 0 <= Z.of_nat n * stride config) by (unfold stride; nia).
  assert (Hend : TimezoneUtil.fromFormat_HHmm
                   (TimezoneUtil.toFormat_HHmm (c + slotDuration config))
                 = Some (c + slotDuration config)).
  { rewrite fromFormat_toFormat, Z.mod_small; [reflexivity|unfold stride in *; lia]. }
  destruct n as [|n].
  { cbn [slotsFrom windowsFrom List.map]. split.
    - f_equal. unfold Scenario.civilWindow. cbn. now rewrite Hc, Hend.
    - f_equal. unfold Scenario.slotInstants, Scenario.instantsOf, TimezoneUtil.toUTC.
      cbn. now rewrite Hc, Hend. }
  assert (Hn' : stride config <= Z.of_nat (S n) * stride config)
    by (unfold stride; nia).
  assert (Hnext : TimezoneUtil.fromFormat_HHmm
                    (TimezoneUtil.toFormat_HHmm (c + stride config))
                  = Some (c + stride config)).
  { rewrite fromFormat_toFormat, Z.mod_small; [reflexivity|unfold stride in *; lia]. }
  destruct (IH _ (c + stride config) Hnext) as [IH1 IH2];
    [unfold stride; lia | intros _; lia |].
  change (slotsFrom config (S (S n)) cur c)
    with (GeneratedSlot.mk cur (TimezoneUtil.toFormat_HHmm (c + slotDuration config))
            (TimezoneUtil.toUTC (date config) cur (timezone config))
            (TimezoneUtil.toUTC (date config)
               (TimezoneUtil.toFormat_HHmm (c + slotDuration config)) (timezone config))
          :: slotsFrom config (S n)
               (TimezoneUtil.toFormat_HHmm (c + stride config)) (c + stride config)).
  change (windowsFrom config (S (S n)) c)
    with ((c, c + slotDuration config) :: windowsFrom config (S n) (c + stride config)).
  cbn [List.map]. rewrite IH1, IH2. split.
  - f_equal. unfold Scenario.civilWindow. cbn. now rewrite Hc, Hend.
  - f_equal. unfold Scenario.slotInstants, Scenario.instantsOf, TimezoneUtil.toUTC.
    cbn. now rewrite Hc, Hend.
Qed.

Lemma windowsFrom_length (n : nat) (c : Z) : length (windowsFrom config n c) = n.
Proof.
  revert c. induction n as [|n IH]; intros c; cbn; [reflexivity|now rewrite IH].
Qed.

(** Every window lasts the slot duration and lies between [c] and the last
    slot's end. *)
Lemma windowsFrom_bounds (n : nat) :
  forall (c : Z) (w : Z * Z),
    In w (windowsFrom config n c) ->
    snd w = fst w + slotDuration config
    /\ c <= fst w
    /\ snd w <= c + Z.of_nat n * stride config - breakDuration config.
Proof.
  clear no_wrap end_parses.
  induction n as [|n IH]; intros c w Hin; [destruct Hin|].
  destruct Hin as [<- | Hin].
  - cbn [fst snd]. unfold stride. nia.
  - destruct (IH _ _ Hin) as (H1 & H2 & H3). unfold stride in *. nia.
Qed.

End WithinDayFacts.

(** On a window that stays within the day the generator returns, whatever
    fuel above the window length it is given: it yields the slots that fit,
    one stride apart, each lasting the slot duration. *)
Theorem generateSlotsForDay_within_day `{tzdb : TimezoneDb}
    (config : SlotGenerationConfig.t) (s e : Z) :
  TimezoneUtil.fromFormat_HHmm (SlotGenerationConfig.startTime config) = Some s ->
  TimezoneUtil.fromFormat_HHmm (SlotGenerationConfig.endTime config) = Some e ->
  0 < SlotGenerationConfig.slotDuration config ->
  0 <= SlotGenerationConfig.breakDuration config ->
  e + SlotGenerationConfig.slotDuration config
    + SlotGenerationConfig.breakDuration config <= 1440 ->
  let n := Z.to_nat (WithinDay.slotCount config s e) in
  exists slots : list GeneratedSlot.t,
    (forall fuel : nat, (Z.to_nat (e - s) < fuel)%nat ->
       SlotGeneratorUtil.generateSlotsForDay fuel config = Ok slots)
    /\ length slots = n
    /\ List.map Scenario.civilWindow slots
       = List.map Some (WithinDay.windowsFrom config n s)
    /\ List.map Scenario.slotInstants slots
       = List.map (Scenario.instantsOf (SlotGenerationConfig.timezone config)
                     (SlotGenerationConfig.date config))
           (WithinDay.windowsFrom config n s).
Proof.
  intros Hs He Hd Hb Hwrap n.
  pose proof (fromFormat_range _ _ Hs) as Hrange.
  assert (Hbound : 0 < Z.of_nat n ->
                   s + Z.of_nat n * WithinDay.stride config
                   <= e + SlotGenerationConfig.breakDuration config).
  { intros Hn. subst n. unfold WithinDay.slotCount in *.
    rewrite Z2Nat.id in * by lia.
    set (D := WithinDay.stride config) in *.
    set (a := e - s + SlotGenerationConfig.breakDuration config) in *.
    assert (0 < D) by (unfold D, WithinDay.stride; lia).
    pose proof (Z.mul_div_le a D ltac:(lia)).
    assert (Z.max 0 (a / D) = a / D) as -> by lia. nia. }
  destruct (slotsFrom_windows config e Hd Hb Hwrap n _ s Hs ltac:(lia) Hbound)
    as [Hw Hi].
  exists (WithinDay.slotsFrom config n (SlotGenerationConfig.startTime config) s).
  split; [|split; [|split]].
  - intros fuel Hfuel. unfold SlotGeneratorUtil.generateSlotsForDay.
    now rewrite (generateSlotsLoop_within_day config e He Hd Hb Hwrap fuel _ s).
  - rewrite <- (length_map Scenario.civilWindow), Hw, length_map.
    apply windowsFrom_length.
  - exact Hw.
  - exact Hi.
Qed.

(** The estimate of [calculateTotalSlots] against the number of slots that
    fit: it is exact without breaks, and may be one short with them. *)
Lemma calculateTotalSlots_value (config : SlotGenerationConfig.t) (s e : Z) :
  TimezoneUtil.fromFormat_HHmm (SlotGenerationConfig.startTime config) = Some s ->
  TimezoneUtil.fromFormat_HHmm (SlotGenerationConfig.endTime config) = Some e ->
  0 < WithinDay.stride config ->
  SlotGeneratorUtil.calculateTotalSlots config
  = Ok (Some ((e - s) / WithinDay.stride config)).
Proof.
  intros Hs He HD. unfold SlotGeneratorUtil.calculateTotalSlots,
    TimezoneUtil.calculateDuration, WithinDay.stride in *.
  rewrite Hs, He. cbn [rbind].
  destruct (_ =? 0) eqn:E; [lia|reflexivity].
Qed.

Lemma slotCount_vs_estimate (config : SlotGenerationConfig.t) (s e : Z) :
  s <= e ->
  0 < SlotGenerationConfig.slotDuration config ->
  0 <= SlotGenerationConfig.breakDuration config ->
  let estimate := (e - s) / WithinDay.stride config in
  estimate <= WithinDay.slotCount config s e <= estimate + 1
  /\ (SlotGenerationConfig.breakDuration config = 0 ->
      WithinDay.slotCount config s e = estimate).
Proof.
  intros Hse Hd Hb estimate. subst estimate.
  unfold WithinDay.slotCount, WithinDay.stride.
  generalize dependent (SlotGenerationConfig.breakDuration config).
  generalize dependent (SlotGenerationConfig.slotDuration config).
  intros d Hd b Hb.
  assert (0 <= (e - s) / (d + b)) by (apply Z.div_pos; lia).
  assert ((e - s) / (d + b) <= (e - s + b) / (d + b))
    by (apply Z.div_le_mono; lia).
  assert ((e - s + b) / (d + b) <= (e - s + 1 * (d + b)) / (d + b))
    by (apply Z.div_le_mono; lia).
  rewrite Z.div_add in * by lia.
  split; [lia|]. intros ->. rewrite !Z.add_0_r in *. lia.
Qed.

(** Within the day no slot is cut short and none passes the window's end. *)
Corollary generateSlotsForDay_slots_fit `{tzdb : TimezoneDb}
    (config : SlotGenerationConfig.t) (s e : Z) :
  TimezoneUtil.fromFormat_HHmm (SlotGenerationConfig.startTime config) = Some s ->
  TimezoneUtil.fromFormat_HHmm (SlotGenerationConfig.endTime config) = Some e ->
  0 < SlotGenerationConfig.slotDuration config ->
  0 <= SlotGenerationConfig.breakDuration config ->
  e + SlotGenerationConfig.slotDuration config
    + SlotGenerationConfig.breakDuration config <= 1440 ->
  exists slots : list GeneratedSlot.t,
    SlotGeneratorUtil.generateSlotsForDay (S (Z.to_nat (e - s))) config = Ok slots
    /\ forall slot, In slot slots ->
         exists a, Scenario.civilWindow slot
                   = Some (a, a + SlotGenerationConfig.slotDuration config)
                   /\ s <= a /\ a + SlotGenerationConfig.slotDuration config <= e.
Proof.
  intros Hs He Hd Hb Hwrap.
  destruct (generateSlotsForDay_within_day config s e Hs He Hd Hb Hwrap)
    as (slots & Hrun & Hlen & Hw & _).
  exists slots. split; [apply Hrun; lia|].
  intros slot Hin.
  apply (in_map Scenario.civilWindow) in Hin. rewrite Hw in Hin.
  apply in_map_iff in Hin as ([a a'] & Heq & Hin).
  destruct (windowsFrom_bounds config Hd Hb _ _ _ Hin) as (H1 & H2 & H3).
  cbn [fst snd] in *. exists a. subst a'. split; [now symmetry|]. split; [lia|].
  unfold WithinDay.slotCount in H3, Hin.
  set (D := WithinDay.stride config) in *.
  set (x := e - s + SlotGenerationConfig.breakDuration config) in *.
  assert (0 < D) by (unfold D, WithinDay.stride; lia).
  destruct (Z.max_spec 0 (x / D)) as [[Hlt Hmax] | [Hge Hmax]]; rewrite Hmax in H3.
  - rewrite Z2Nat.id in H3 by lia.
    pose proof (Z.mul_div_le x D ltac:(lia)). nia.
  - (* no slot fits: the list of windows is empty *)
    rewrite Hmax in Hin. cbn in Hin. destruct Hin.
Qed.

(** ** Validation *)

Section ValidationFacts.

Context `{tzdb : TimezoneDb}.

Import SlotGenerationConfig.

(** Validation throws exactly when one of the two times is malformed. *)
Lemma validateSlotGeneration_throws_iff (config : t) :
  SlotGeneratorUtil.validateSlotGeneration config = Throw InvalidTimeFormat
  <-> TimezoneUtil.fromFormat_HHmm (startTime config) = None
      \/ TimezoneUtil.fromFormat_HHmm (endTime config) = None.
Proof.
  unfold SlotGeneratorUtil.validateSlotGeneration, SlotGeneratorUtil.isTimeBefore,
    TimezoneUtil.calculateDuration.
  destruct (TimezoneUtil.fromFormat_HHmm (startTime config)) as [s|];
    destruct (TimezoneUtil.fromFormat_HHmm (endTime config)) as [e|]; cbn [rbind];
    split; intros H; try discriminate; try reflexivity; auto.
  destruct H; discriminate.
Qed.

(** On well-formed times it returns every error that applies, in the order
    of the checks. *)
Lemma validateSlotGeneration_wellformed (config : t) (s e : Z) :
  TimezoneUtil.fromFormat_HHmm (startTime config) = Some s ->
  TimezoneUtil.fromFormat_HHmm (endTime config) = Some e ->
  SlotGeneratorUtil.validateSlotGeneration config
  = Ok (SlotGeneratorUtil.pushIf (e - s <? slotDuration config)
          "Slot duration cannot be greater than total availability duration."
       (SlotGeneratorUtil.pushIf (negb (TimezoneUtil.isValidTimezone (timezone config)))
          "Invalid timezone."
       (SlotGeneratorUtil.pushIf (breakDuration config <? 0)
          "Break duration cannot be negative."
       (SlotGeneratorUtil.pushIf (slotDuration config <=? 0)
          "Slot duration must be greater than 0."
       (SlotGeneratorUtil.pushIf (e <? s)
          "End time must be after start time." []))))).
Proof.
  intros Hs He.
  unfold SlotGeneratorUtil.validateSlotGeneration, SlotGeneratorUtil.isTimeBefore,
    SlotGeneratorUtil.isValidTimeFormat, TimezoneUtil.calculateDuration.
  rewrite Hs, He. reflexivity.
Qed.

(** A config that passes satisfies the conditions checked. *)
Lemma validateSlotGeneration_passes (config : t) :
  SlotGeneratorUtil.validateSlotGeneration config = Ok [] ->
  exists s e,
    TimezoneUtil.fromFormat_HHmm (startTime config) = Some s
    /\ TimezoneUtil.fromFormat_HHmm (endTime config) = Some e
    /\ 0 < slotDuration config <= e - s
    /\ 0 <= breakDuration config
    /\ TimezoneUtil.isValidTimezone (timezone config) = true.
Proof.
  intros Hok.
  destruct (TimezoneUtil.fromFormat_HHmm (startTime config)) as [s|] eqn:Hs.
  2:{ rewrite (proj2 (validateSlotGeneration_throws_iff config)) in Hok by auto.
      discriminate. }
  destruct (TimezoneUtil.fromFormat_HHmm (endTime config)) as [e|] eqn:He.
  2:{ rewrite (proj2 (validateSlotGeneration_throws_iff config)) in Hok by auto.
      discriminate. }
  rewrite (validateSlotGeneration_wellformed config s e Hs He) in Hok.
  exists s, e. unfold SlotGeneratorUtil.pushIf, push in Hok.
  destruct (e - s <? slotDuration config) eqn:E1;
    [injection Hok as Hok; now destruct (app_cons_not_nil _ _ _ (eq_sym Hok))|].
  destruct (negb (TimezoneUtil.isValidTimezone (timezone config))) eqn:E2;
    [injection Hok as Hok; now destruct (app_cons_not_nil _ _ _ (eq_sym Hok))|].
  destruct (breakDuration config <? 0) eqn:E3;
    [injection Hok as Hok; now destruct (app_cons_not_nil _ _ _ (eq_sym Hok))|].
  destruct (slotDuration config <=? 0) eqn:E4;
    [injection Hok as Hok; now destruct (app_cons_not_nil _ _ _ (eq_sym Hok))|].
  apply negb_false_iff in E2.
  repeat split; try assumption; lia.
Qed.

End ValidationFacts.



(** ** Scenarios of the slot generator *)

Lemma scenarioA_run :
  exists slots,
    SlotGeneratorUtil.generateSlotsForDay 12 (Scenario.configA "UTC" Scenario.aug1)
    = Ok slots
    /\ length slots = 11%nat.
Proof. eexists. split; [vm_compute; reflexivity|reflexivity]. Qed.

(** C1, on the window 09:00-17:00 with 30 minute slots and 15 minute breaks:
    the config passes validation, [calculateTotalSlots] answers 10, and
    [generateSlotsForDay] returns 11 slots. The estimate charges a break
    after the last slot, which the generator does not need. *)
Theorem calculateTotalSlots_misses_last_slot :
  SlotGeneratorUtil.validateSlotGeneration (Scenario.configA "UTC" Scenario.aug1) = Ok []
  /\ SlotGeneratorUtil.calculateTotalSlots (Scenario.configA "UTC" Scenario.aug1)
     = Ok (Some 10)
  /\ exists slots,
       SlotGeneratorUtil.generateSlotsForDay 12 (Scenario.configA "UTC" Scenario.aug1)
       = Ok slots
       /\ length slots = 11%nat.
Proof.
  split; [vm_compute; reflexivity|]. split; [vm_compute; reflexivity|].
  exact scenarioA_run.
Qed.

(** C3 as stated fails: no run of the generator on scenario A returns 16
    slots. *)
Lemma scenarioA_is_not_16_slots :
  ~ exists (fuel : nat) (slots : list GeneratedSlot.t),
      SlotGeneratorUtil.generateSlotsForDay fuel (Scenario.configA "UTC" Scenario.aug1)
      = Ok slots
      /\ length slots = 16%nat.
Proof.
  intros (fuel & slots & Hrun & Hlen).
  destruct scenarioA_run as (ref & Href & Hreflen).
  rewrite (generateSlotsForDay_deterministic _ _ _ _ _ Hrun Href) in Hlen.
  rewrite Hreflen in Hlen. discriminate Hlen.
Qed.

(** C3, amended: in any zone and on any date, scenario A (09:00-17:00,
    30 minute slots, 15 minute breaks) yields exactly 11 slots, the first
    09:00-09:30 and the last 16:30-17:00, each starting 15 minutes after the
    previous one ends; their instants are those civil times read in the zone. *)
Theorem scenarioA_yields_11_slots `{tzdb : TimezoneDb} (tz : string) (date : Z) :
  exists slots : list GeneratedSlot.t,
    (forall fuel : nat, (12 <= fuel)%nat ->
       SlotGeneratorUtil.generateSlotsForDay fuel (Scenario.configA tz date) = Ok slots)
    /\ length slots = 11%nat
    /\ List.map Scenario.civilTimes slots
       = [("09:00", "09:30"); ("09:45", "10:15"); ("10:30", "11:00");
          ("11:15", "11:45"); ("12:00", "12:30"); ("12:45", "13:15");
          ("13:30", "14:00"); ("14:15", "14:45"); ("15:00", "15:30");
          ("15:45", "16:15"); ("16:30", "17:00")]
    /\ Scenario.civilGaps (omap Scenario.civilWindow slots) = repeat 15 10
    /\ List.map Scenario.slotInstants slots
       = List.map (Scenario.instantsOf tz date)
           (WithinDay.windowsFrom (Scenario.configA tz date) 11 540).
Proof.
  exists (WithinDay.slotsFrom (Scenario.configA tz date) 11 "09:00" 540).
  split; [|split; [|split; [|split]]].
  - intros fuel Hfuel.
    apply generateSlotsForDay_fuel_mono with (fuel := 12%nat); [|assumption].
    lazy -[TimezoneUtil.toUTC]. reflexivity.
  - reflexivity.
  - lazy -[TimezoneUtil.toUTC]. reflexivity.
  - lazy -[TimezoneUtil.toUTC]. reflexivity.
  - apply (slotsFrom_windows (Scenario.configA tz date) 1020);
      cbn; try lia; reflexivity.
Qed.

(** Scenario B: 09:00-09:40 with 30 minute slots and no break yields the one
    slot 09:00-09:30; the span that would end at 10:00 is dropped. *)
Lemma scenarioB_single_slot `{tzdb : TimezoneDb} (tz : string) (date : Z) :
  forall fuel : nat, (3 <= fuel)%nat ->
    SlotGeneratorUtil.generateSlotsForDay fuel (Scenario.configB tz date)
    = Ok [GeneratedSlot.mk "09:00" "09:30"
            (TimezoneUtil.toUTC date "09:00" tz) (TimezoneUtil.toUTC date "09:30" tz)].
Proof.
  intros fuel Hfuel.
  apply generateSlotsForDay_fuel_mono with (fuel := 3%nat); [|assumption].
  lazy -[TimezoneUtil.toUTC]. reflexivity.
Qed.

(** On the late window every turn of the loop starts on a multiple of 30
    minutes, hence before 23:50: no amount of fuel lets it return. *)
Lemma late_loop_never_returns (fuel : nat) :
  forall (cur : string) (c : Z) (acc : list GeneratedSlot.t),
    TimezoneUtil.fromFormat_HHmm cur = Some c ->
    0 <= c < 1440 -> (c mod 30) = 0 ->
    SlotGeneratorUtil.generateSlotsLoop fuel Scenario.configLate cur acc = OutOfFuel.
Proof.
  induction fuel as [|fuel IH]; intros cur c acc Hc Hrange Hmod; [reflexivity|].
  rewrite (generateSlotsLoop_step _ _ _ c 1430) by (assumption || reflexivity).
  assert ((c <? 1430) = true) as -> by (apply Z.ltb_lt; Z.div_mod_to_equations; lia).
  cbv zeta. cbn [SlotGenerationConfig.slotDuration SlotGenerationConfig.breakDuration
                 Scenario.configLate].
  apply (IH _ (((c + 30) mod 1440 + 0) mod 1440)).
  - apply fromFormat_toFormat.
  - apply Z.mod_pos_bound. lia.
  - Z.div_mod_to_equations. lia.
Qed.

(** C8, on the window 23:00-23:50 with 30 minute slots and no break: the
    config passes validation; the span 23:30-00:00, which ends past the
    window, is pushed as a slot, its end instant a day before where it
    belongs; the loop then starts over from 00:00 and never returns. *)
Theorem late_window_slot_overruns :
  SlotGeneratorUtil.validateSlotGeneration Scenario.configLate = Ok []
  /\ (forall fuel : nat,
        SlotGeneratorUtil.generateSlotsForDay (S (S fuel)) Scenario.configLate
        = SlotGeneratorUtil.generateSlotsLoop fuel Scenario.configLate "00:00"
            [GeneratedSlot.mk "23:00" "23:30"
               (Some (Calendar.utcDateTime 2024 8 1 23 0))
               (Some (Calendar.utcDateTime 2024 8 1 23 30));
             GeneratedSlot.mk "23:30" "00:00"
               (Some (Calendar.utcDateTime 2024 8 1 23 30))
               (Some (Calendar.utcDateTime 2024 8 1 0 0))])
  /\ (forall fuel : nat,
        SlotGeneratorUtil.generateSlotsForDay fuel Scenario.configLate = OutOfFuel).
Proof.
  split; [vm_compute; reflexivity|]. split.
  - intros fuel. unfold SlotGeneratorUtil.generateSlotsForDay.
    rewrite (generateSlotsLoop_step _ _ _ 1380 1430) by reflexivity.
    rewrite (generateSlotsLoop_step _ _ _ 1410 1430) by reflexivity.
    reflexivity.
  - intros fuel. unfold SlotGeneratorUtil.generateSlotsForDay.
    apply (late_loop_never_returns fuel _ 1380); [reflexivity|lia|reflexivity].
Qed.

(** C4, on a config whose start time is "9am": validation throws
    'Invalid time format' instead of returning the list of errors. *)
Theorem validateSlotGeneration_throws_on_malformed_time :
  SlotGeneratorUtil.validateSlotGeneration Scenario.configMalformed
  = Throw InvalidTimeFormat.
Proof. vm_compute. reflexivity. Qed.

(** ** The conflict detector *)

Lemma overlapsAny_existsb (newSlot : GeneratedSlot.t) (existingSlots : list GeneratedSlot.t) :
  SlotGeneratorUtil.overlapsAny newSlot existingSlots
  = existsb (SlotGeneratorUtil.slotsOverlap newSlot) existingSlots.
Proof.
  induction existingSlots as [|x rest IH]; [reflexivity|].
  cbn. rewrite IH. now destruct (SlotGeneratorUtil.slotsOverlap newSlot x).
Qed.

Lemma overlapLoop_filter (newSlots existingSlots : list GeneratedSlot.t) :
  forall overlapping : list GeneratedSlot.t,
    SlotGeneratorUtil.overlapLoop newSlots existingSlots overlapping
    = app overlapping
        (List.filter (fun n => existsb (SlotGeneratorUtil.slotsOverlap n) existingSlots)
           newSlots).
Proof.
  induction newSlots as [|n rest IH]; intros acc; cbn.
  - now rewrite app_nil_r.
  - rewrite IH, overlapsAny_existsb.
    destruct (existsb _ existingSlots); [|reflexivity].
    unfold push. now rewrite <- app_assoc.
Qed.

(** C7: [checkForOverlappingSlots] keeps, in order, exactly the new slots
    that overlap some existing slot; two slots overlap iff each starts
    strictly before the other ends; a slot that ends exactly when another
    begins does not overlap it. *)
Theorem checkForOverlappingSlots_exact :
  (forall newSlots existingSlots : list GeneratedSlot.t,
     SlotGeneratorUtil.checkForOverlappingSlots newSlots existingSlots
     = List.filter (fun n => existsb (SlotGeneratorUtil.slotsOverlap n) existingSlots)
         newSlots)
  /\ (forall (newSlots existingSlots : list GeneratedSlot.t) (slot : GeneratedSlot.t),
        In slot (SlotGeneratorUtil.checkForOverlappingSlots newSlots existingSlots)
        <-> In slot newSlots
            /\ exists other, In other existingSlots
                             /\ SlotGeneratorUtil.slotsOverlap slot other = true)
  /\ (forall (sa ea sb eb : string) (a1 a2 b1 b2 : Z),
        SlotGeneratorUtil.slotsOverlap
          (GeneratedSlot.mk sa ea (Some a1) (Some a2))
          (GeneratedSlot.mk sb eb (Some b1) (Some b2)) = true
        <-> a1 < b2 /\ b1 < a2)
  /\ (forall a b : GeneratedSlot.t,
        GeneratedSlot.slotEndTime a = GeneratedSlot.slotStartTime b ->
        SlotGeneratorUtil.slotsOverlap a b = false
        /\ SlotGeneratorUtil.slotsOverlap b a = false).
Proof.
  assert (Hfilter : forall newSlots existingSlots,
    SlotGeneratorUtil.checkForOverlappingSlots newSlots existingSlots
    = List.filter (fun n => existsb (SlotGeneratorUtil.slotsOverlap n) existingSlots)
        newSlots).
  { intros. unfold SlotGeneratorUtil.checkForOverlappingSlots.
    now rewrite overlapLoop_filter. }
  split; [exact Hfilter|]. split; [|split].
  - intros newSlots existingSlots slot. rewrite Hfilter, filter_In, existsb_exists.
    reflexivity.
  - intros. unfold SlotGeneratorUtil.slotsOverlap, dateLt. cbn.
    rewrite andb_true_iff, !Z.ltb_lt. reflexivity.
  - intros a b Htouch. unfold SlotGeneratorUtil.slotsOverlap, dateLt.
    rewrite Htouch.
    destruct (GeneratedSlot.slotStartTime b) as [t|];
      destruct (GeneratedSlot.slotStartTime a), (GeneratedSlot.slotEndTime b);
      cbn; rewrite ?Z.ltb_irrefl, ?andb_false_r; auto.
Qed.

(** Against an existing slot 09:30-10:00, of the new slots 09:00-09:30,
    09:15-09:45 and 10:00-10:30 only the middle one conflicts: the other two
    touch it at a boundary. *)
Lemma touching_slots_do_not_conflict :
  SlotGeneratorUtil.checkForOverlappingSlots
    [Scenario.utcSlot 9 0 9 30; Scenario.utcSlot 9 15 9 45; Scenario.utcSlot 10 0 10 30]
    [Scenario.utcSlot 9 30 10 0]
  = [Scenario.utcSlot 9 15 9 45]
  /\ SlotGeneratorUtil.slotsOverlap (Scenario.utcSlot 9 0 9 30) (Scenario.utcSlot 9 30 10 0)
     = false
  /\ SlotGeneratorUtil.slotsOverlap (Scenario.utcSlot 9 30 10 0) (Scenario.utcSlot 9 0 9 30)
     = false.
Proof.
  destruct checkForOverlappingSlots_exact as (Hfilter & _ & _ & Htouch).
  split.
  - rewrite Hfilter. vm_compute. reflexivity.
  - apply Htouch. reflexivity.
Defined.

(** ** Creating availability *)

(** C2, scenario D: a single day on 2 August is created, then a daily
    series from 1 to 3 August over the same hours and for the same provider.
    Only the first day of the series is checked against the store, so the
    second request succeeds and its slot of 2 August 09:00 is persisted on
    top of the one already there. *)
Theorem recurring_series_not_checked_after_first_day :
  exists (db1 db2 : Store) (r1 r2 : CreateAvailabilityResult.t),
    AvailabilityService.createAvailability 10 Scenario.jan1 Scenario.emptyDb "p1"
      Scenario.firstRequest = Ok (db1, r1)
    /\ AvailabilityService.createAvailability 10 Scenario.jan1 db1 "p1"
         Scenario.secondRequest = Ok (db2, r2)
    /\ CreateAvailabilityResult.slots_created r2 = 6%nat
    /\ exists old new : AppointmentSlot.t,
         appointmentSlots db1 !! "slot-" = Some old
         /\ appointmentSlots db2 !! "slot-" = Some old
         /\ appointmentSlots db2 !! "slot-3" = Some new
         /\ AppointmentSlot.availabilityId old = CreateAvailabilityResult.availability_id r1
         /\ AppointmentSlot.availabilityId new = CreateAvailabilityResult.availability_id r2
         /\ CreateAvailabilityResult.availability_id r1
            <> CreateAvailabilityResult.availability_id r2
         /\ Scenario.overlapping new old.
Proof.
  do 4 eexists.
  split; [vm_compute; reflexivity|].
  split; [vm_compute; reflexivity|].
  split; [reflexivity|].
  do 2 eexists.
  split; [vm_compute; reflexivity|].
  split; [vm_compute; reflexivity|].
  split; [vm_compute; reflexivity|].
  split; [reflexivity|]. split; [reflexivity|].
  split; [intros Heq; discriminate Heq|].
  unfold Scenario.overlapping. cbn. repeat split; reflexivity.
Qed.

(** The check does see a clash on the day the request starts. *)
Lemma repeated_day_is_refused :
  AvailabilityService.createAvailability 10 Scenario.jan1
    (fst (Scenario.created 10 Scenario.jan1 Scenario.emptyDb "p1" Scenario.firstRequest))
    "p1" Scenario.repeatedRequest
  = Throw (ConflictException
             "Found 1 overlapping slots. Please choose a different time or date.").
Proof. vm_compute. reflexivity. Qed.

Lemma slotRows_length (slots : list GeneratedSlot.t) (rows : list (Z * Z)) :
  AvailabilityService.slotRows slots = Ok rows -> length rows = length slots.
Proof.
  revert rows. induction slots as [|slot rest IH]; intros rows Hrows; cbn in Hrows.
  - now injection Hrows as <-.
  - destruct (GeneratedSlot.slotStartTime slot); [|discriminate Hrows].
    destruct (GeneratedSlot.slotEndTime slot); [|discriminate Hrows].
    destruct (AvailabilityService.slotRows rest) as [rows'| |];
      cbn in Hrows; try discriminate Hrows.
    injection Hrows as <-. cbn. now rewrite (IH rows').
Qed.

(** C5 as stated fails: handled on 1 January 2024, an open-ended weekly
    series that starts on 1 August 2024 gets a horizon before its start date
    and no slot at all, where three months from the start date would give 14
    weeks of two slots. *)
Lemma default_horizon_is_not_from_start_date :
  AvailabilityService.recurrenceEndDate Scenario.jan1 Scenario.openEndedRequest
  <> Calendar.plusMonths (CreateAvailabilityDto.date Scenario.openEndedRequest) 3
  /\ AvailabilityService.generateRequestedSlots 20 Scenario.jan1
       Scenario.openEndedRequest
       (AvailabilityService.configOfDto Scenario.openEndedRequest) = Ok []
  /\ exists slots,
       SlotGeneratorUtil.generateRecurringSlots 20
         (AvailabilityService.configOfDto Scenario.openEndedRequest) weekly
         (Calendar.plusMonths (CreateAvailabilityDto.date Scenario.openEndedRequest) 3)
       = Ok slots
       /\ length slots = 28%nat.
Proof.
  split; [vm_compute; intros Heq; discriminate Heq|].
  split; [vm_compute; reflexivity|].
  eexists. split; [vm_compute; reflexivity|reflexivity].
Qed.

(** C5, amended: for a recurring request without an end date the horizon is
    three months from the moment the request is handled, whatever its start
    date; the slots persisted are those the recurring generator yields up to
    that horizon. *)
Theorem default_horizon_is_three_months_from_now `{tzdb : TimezoneDb}
    (fuel : nat) (now : Z) (db db' : Store) (providerId : string)
    (dto : CreateAvailabilityDto.t) (pattern : RecurrencePattern)
    (res : CreateAvailabilityResult.t) :
  CreateAvailabilityDto.is_recurring dto = true ->
  CreateAvailabilityDto.recurrence_pattern dto = Some pattern ->
  CreateAvailabilityDto.recurrence_end_date dto = None ->
  AvailabilityService.createAvailability fuel now db providerId dto = Ok (db', res) ->
  AvailabilityService.recurrenceEndDate now dto = Calendar.plusMonths now 3
  /\ exists slots : list GeneratedSlot.t,
       SlotGeneratorUtil.generateRecurringSlots fuel
         (AvailabilityService.configOfDto dto) pattern (Calendar.plusMonths now 3)
       = Ok slots
       /\ CreateAvailabilityResult.slots_created res = length slots.
Proof.
  intros Hrec Hpat Hend Hrun.
  split; [unfold AvailabilityService.recurrenceEndDate; now rewrite Hend|].
  unfold AvailabilityService.createAvailability in Hrun.
  destruct (providers db !! providerId); [|discriminate Hrun].
  destruct (negb _); [discriminate Hrun|].
  destruct (SlotGeneratorUtil.validateSlotGeneration _) as [errors| |];
    cbn [rbind] in Hrun; try discriminate Hrun.
  destruct (0 <? length errors)%nat; [discriminate Hrun|].
  destruct (AvailabilityService.checkAvailabilityConflicts _ _ _ _) as [[]| |];
    cbn [rbind] in Hrun; try discriminate Hrun.
  unfold AvailabilityService.generateRequestedSlots,
    AvailabilityService.recurrenceEndDate in Hrun.
  rewrite Hrec, Hpat, Hend in Hrun.
  destruct (SlotGeneratorUtil.generateRecurringSlots _ _ _ _) as [slots| |];
    cbn [rbind] in Hrun; try discriminate Hrun.
  destruct (AvailabilityService.slotRows slots) as [rows| |] eqn:Hrows;
    cbn [rbind] in Hrun; try discriminate Hrun.
  injection Hrun as _ <-. exists slots. split; [reflexivity|].
  cbn. now apply slotRows_length.
Qed.

Lemma default_horizon_witness :
  AvailabilityService.recurrenceEndDate Scenario.aug1 Scenario.openEndedRequest
  = Calendar.plusMonths Scenario.aug1 3
  /\ exists slots : list GeneratedSlot.t,
       SlotGeneratorUtil.generateRecurringSlots 20
         (AvailabilityService.configOfDto Scenario.openEndedRequest) weekly
         (Calendar.plusMonths Scenario.aug1 3)
       = Ok slots
       /\ CreateAvailabilityResult.slots_created
            (snd (Scenario.created 20 Scenario.aug1 Scenario.emptyDb "p1"
                    Scenario.openEndedRequest))
          = length slots.
Proof.
  apply (default_horizon_is_three_months_from_now 20 Scenario.aug1 Scenario.emptyDb
           (fst (Scenario.created 20 Scenario.aug1 Scenario.emptyDb "p1"
                   Scenario.openEndedRequest))
           "p1" Scenario.openEndedRequest weekly).
  - reflexivity.
  - reflexivity.
  - reflexivity.
  - vm_compute. reflexivity.
Defined.

(** ** Updating and deleting a slot *)

Lemma SlotStatus_eqb_eq (a b : SlotStatus.t) : SlotStatus.eqb a b = true <-> a = b.
Proof. destruct a, b; cbn; split; intros H; (reflexivity || discriminate H). Qed.

Lemma SlotStatus_eqb_neq (a b : SlotStatus.t) : SlotStatus.eqb a b = false <-> a <> b.
Proof.
  rewrite <- SlotStatus_eqb_eq. destruct (SlotStatus.eqb a b); split; intros H;
    (reflexivity || discriminate H || (intros H'; discriminate H') || (now destruct H)).
Qed.

Lemma findFirstSlot_found (db : Store) (slotId providerId : string)
    (slot : AppointmentSlot.t) :
  appointmentSlots db !! slotId = Some slot ->
  AppointmentSlot.providerId slot = providerId ->
  AvailabilityService.findFirstSlot db slotId providerId = Some slot.
Proof.
  intros Hrow Hown. unfold AvailabilityService.findFirstSlot.
  rewrite Hrow. apply String.eqb_eq in Hown. now rewrite Hown.
Qed.

Lemma findFirstSlot_foreign (db : Store) (slotId providerId : string) :
  (forall slot, appointmentSlots db !! slotId = Some slot ->
                AppointmentSlot.providerId slot <> providerId) ->
  AvailabilityService.findFirstSlot db slotId providerId = None.
Proof.
  intros Hforeign. unfold AvailabilityService.findFirstSlot.
  destruct (appointmentSlots db !! slotId) as [slot|]; [|reflexivity].
  destruct (String.eqb _ _) eqn:E; [|reflexivity].
  apply String.eqb_eq in E. now destruct (Hforeign slot eq_refl).
Qed.

Lemma inDeletedSeries_false (availabilityId : string) (slot : AppointmentSlot.t) :
  AvailabilityService.inDeletedSeries availabilityId slot = false
  <-> (AppointmentSlot.availabilityId slot = availabilityId ->
       AppointmentSlot.status slot = SlotStatus.booked).
Proof.
  unfold AvailabilityService.inDeletedSeries.
  rewrite andb_false_iff, negb_false_iff, SlotStatus_eqb_eq, String.eqb_neq.
  split.
  - intros [Hne | Hb] Heq; [now destruct Hne | assumption].
  - intros H.
    destruct (String.eqb_spec (AppointmentSlot.availabilityId slot) availabilityId);
      [right; auto | left; assumption].
Qed.

(** C6: update and delete answer NotFound for a slot that is not the
    provider's and Conflict for a booked one; deleting a series removes the
    slots of the record that are not booked, keeps every other row as it is
    (the booked ones of the record among them) and marks the record
    cancelled; any other deletion removes the targeted row alone. *)
Theorem slot_guards_and_deletion :
  (forall (now : Z) (db : Store) (slotId providerId : string)
          (dto : UpdateAvailabilityDto.t) (deleteRecurring : option bool)
          (reason : option string),
     (forall slot, appointmentSlots db !! slotId = Some slot ->
                   AppointmentSlot.providerId slot <> providerId) ->
     AvailabilityService.updateAvailabilitySlot db slotId providerId dto
     = Throw (NotFoundException "Slot not found")
     /\ AvailabilityService.deleteAvailabilitySlot now db slotId providerId
          deleteRecurring reason
        = Throw (NotFoundException "Slot not found"))
  /\ (forall (now : Z) (db : Store) (slotId providerId : string)
             (dto : UpdateAvailabilityDto.t) (deleteRecurring : option bool)
             (reason : option string) (slot : AppointmentSlot.t),
        appointmentSlots db !! slotId = Some slot ->
        AppointmentSlot.providerId slot = providerId ->
        AppointmentSlot.status slot = SlotStatus.booked ->
        AvailabilityService.updateAvailabilitySlot db slotId providerId dto
        = Throw (ConflictException "Cannot update booked slot")
        /\ AvailabilityService.deleteAvailabilitySlot now db slotId providerId
             deleteRecurring reason
           = Throw (ConflictException "Cannot delete booked slot"))
  /\ (forall (now : Z) (db : Store) (slotId providerId : string)
             (reason : option string) (slot : AppointmentSlot.t)
             (availability : ProviderAvailability.t),
        appointmentSlots db !! slotId = Some slot ->
        AppointmentSlot.providerId slot = providerId ->
        AppointmentSlot.status slot <> SlotStatus.booked ->
        availabilities db !! AppointmentSlot.availabilityId slot = Some availability ->
        ProviderAvailability.isRecurring availability = true ->
        exists (db' : Store) (outcome : DeleteResult.t),
          AvailabilityService.deleteAvailabilitySlot now db slotId providerId
            (Some true) reason = Ok (db', outcome)
          /\ (forall (id : string) (row : AppointmentSlot.t),
                appointmentSlots db' !! id = Some row
                <-> appointmentSlots db !! id = Some row
                    /\ (AppointmentSlot.availabilityId row
                        = AppointmentSlot.availabilityId slot ->
                        AppointmentSlot.status row = SlotStatus.booked))
          /\ availabilities db'
             = <[AppointmentSlot.availabilityId slot :=
                   ProviderAvailability.withStatus availability
                     AvailabilityStatus.cancelled now]> (availabilities db)
          /\ providers db' = providers db)
  /\ (forall (now : Z) (db : Store) (slotId providerId : string)
             (deleteRecurring : option bool) (reason : option string)
             (slot : AppointmentSlot.t),
        appointmentSlots db !! slotId = Some slot ->
        AppointmentSlot.providerId slot = providerId ->
        AppointmentSlot.status slot <> SlotStatus.booked ->
        truthyBool deleteRecurring = false
        \/ (exists availability,
              availabilities db !! AppointmentSlot.availabilityId slot = Some availability
              /\ ProviderAvailability.isRecurring availability = false) ->
        exists outcome : DeleteResult.t,
          AvailabilityService.deleteAvailabilitySlot now db slotId providerId
            deleteRecurring reason
          = Ok (mkStore (providers db) (availabilities db)
                  (delete slotId (appointmentSlots db)), outcome)).
Proof.
  split; [|split; [|split]].
  - intros now db slotId providerId dto dr reason Hforeign.
    unfold AvailabilityService.updateAvailabilitySlot,
      AvailabilityService.deleteAvailabilitySlot.
    now rewrite (findFirstSlot_foreign _ _ _ Hforeign).
  - intros now db slotId providerId dto dr reason slot Hrow Hown Hbooked.
    unfold AvailabilityService.updateAvailabilitySlot,
      AvailabilityService.deleteAvailabilitySlot.
    rewrite (findFirstSlot_found _ _ _ _ Hrow Hown), Hbooked. split; reflexivity.
  - intros now db slotId providerId reason slot availability
      Hrow Hown Hfree Havail Hrec.
    unfold AvailabilityService.deleteAvailabilitySlot.
    rewrite (findFirstSlot_found _ _ _ _ Hrow Hown).
    apply SlotStatus_eqb_neq in Hfree. rewrite Hfree. cbn [truthyBool].
    rewrite Havail, Hrec. do 2 eexists. split; [reflexivity|].
    cbn [appointmentSlots availabilities providers]. split; [|split; reflexivity].
    intros id row. rewrite map_lookup_filter_Some. cbn [snd].
    now rewrite inDeletedSeries_false.
  - intros now db slotId providerId dr reason slot Hrow Hown Hfree Hsingle.
    unfold AvailabilityService.deleteAvailabilitySlot.
    rewrite (findFirstSlot_found _ _ _ _ Hrow Hown).
    apply SlotStatus_eqb_neq in Hfree. rewrite Hfree.
    destruct Hsingle as [Hno | (availability & Havail & Hrec)].
    + rewrite Hno. eexists. reflexivity.
    + rewrite Havail, Hrec. destruct (truthyBool dr); eexists; reflexivity.
Qed.

(** Scenario E, through the theorem above: the booked slot cannot be
    deleted; deleting its free sibling with the series removes the free and
    the blocked slot of the record, cancels the record, and leaves the booked
    slot and the slot of the other record in place. *)
Lemma scenarioE_series_deletion :
  AvailabilityService.deleteAvailabilitySlot 0 Scenario.seriesDb "s1" "p1" None None
  = Throw (ConflictException "Cannot delete booked slot")
  /\ exists (db' : Store) (outcome : DeleteResult.t),
       AvailabilityService.deleteAvailabilitySlot 0 Scenario.seriesDb "s2" "p1"
         (Some true) None = Ok (db', outcome)
       /\ appointmentSlots db' !! "s1" = Some Scenario.bookedSlot
       /\ appointmentSlots db' !! "s9" = appointmentSlots Scenario.seriesDb !! "s9"
       /\ appointmentSlots db' !! "s2" = None
       /\ appointmentSlots db' !! "s3" = None
       /\ option_map ProviderAvailability.status (availabilities db' !! "a1")
          = Some AvailabilityStatus.cancelled.
Proof.
  destruct slot_guards_and_deletion as (_ & Hconflict & Hseries & _).
  split.
  - apply (Hconflict 0 Scenario.seriesDb "s1" "p1"
             (Scenario.statusUpdate AvailabilityStatus.blocked) None None
             Scenario.bookedSlot); reflexivity.
  - destruct (Hseries 0 Scenario.seriesDb "s2" "p1" None
                (Scenario.slotRow "s2" "a1" (Calendar.utcDateTime 2024 8 1 9 30)
                   SlotStatus.available None)
                (Scenario.availabilityRow "a1" true None))
      as (db' & outcome & Hrun & Hrows & Hrecord & _).
    + reflexivity.
    + reflexivity.
    + intros Hb. discriminate Hb.
    + reflexivity.
    + reflexivity.
    + exists db', outcome. split; [exact Hrun|].
      split; [apply Hrows; split; [reflexivity|intros _; reflexivity]|].
      split.
      { apply Hrows. split; [reflexivity|]. intros Hsame. discriminate Hsame. }
      split.
      { destruct (appointmentSlots db' !! "s2") as [row|] eqn:Hrow; [|reflexivity].
        apply Hrows in Hrow as [Hwas Hbooked].
        vm_compute in Hwas. injection Hwas as <-.
        specialize (Hbooked eq_refl). discriminate Hbooked. }
      split.
      { destruct (appointmentSlots db' !! "s3") as [row|] eqn:Hrow; [|reflexivity].
        apply Hrows in Hrow as [Hwas Hbooked].
        vm_compute in Hwas. injection Hwas as <-.
        specialize (Hbooked eq_refl). discriminate Hbooked. }
      rewrite Hrecord. reflexivity.
Defined.

(** C10: an update that succeeds rewrites one row and changes at most its
    status and appointment type; the status moves only to available, blocked
    or cancelled, and only when the request names that status; a request for
    any other status (booked, maintenance) leaves the status as it was and
    still succeeds. *)
Theorem update_changes_status_and_type_only :
  (forall (db db' : Store) (slotId providerId : string)
          (dto : UpdateAvailabilityDto.t) (updated : UpdatedSlot.t),
     AvailabilityService.updateAvailabilitySlot db slotId providerId dto
     = Ok (db', updated) ->
     exists slot slot' : AppointmentSlot.t,
       appointmentSlots db !! slotId = Some slot
       /\ appointmentSlots db' = <[slotId := slot']> (appointmentSlots db)
       /\ availabilities db' = availabilities db
       /\ providers db' = providers db
       /\ AppointmentSlot.id slot' = AppointmentSlot.id slot
       /\ AppointmentSlot.availabilityId slot' = AppointmentSlot.availabilityId slot
       /\ AppointmentSlot.providerId slot' = AppointmentSlot.providerId slot
       /\ AppointmentSlot.slotStartTime slot' = AppointmentSlot.slotStartTime slot
       /\ AppointmentSlot.slotEndTime slot' = AppointmentSlot.slotEndTime slot
       /\ AppointmentSlot.patientId slot' = AppointmentSlot.patientId slot
       /\ AppointmentSlot.bookingReference slot' = AppointmentSlot.bookingReference slot
       /\ AppointmentSlot.createdAt slot' = AppointmentSlot.createdAt slot
       /\ (AppointmentSlot.status slot' = AppointmentSlot.status slot
           \/ exists s, UpdateAvailabilityDto.status dto = Some s
                        /\ AvailabilityService.allowedSlotStatus s
                           = Some (AppointmentSlot.status slot'))
       /\ (AppointmentSlot.appointmentType slot' = AppointmentSlot.appointmentType slot
           \/ exists a, UpdateAvailabilityDto.appointment_type dto = Some a
                        /\ AppointmentSlot.appointmentType slot' = AppointmentType.name a)
       /\ UpdatedSlot.status updated = AppointmentSlot.status slot')
  /\ (forall s : AvailabilityStatus.t,
        AvailabilityService.allowedSlotStatus s = None
        <-> s <> AvailabilityStatus.available
            /\ s <> AvailabilityStatus.blocked
            /\ s <> AvailabilityStatus.cancelled)
  /\ (forall (db : Store) (slotId providerId : string) (dto : UpdateAvailabilityDto.t)
             (slot : AppointmentSlot.t) (s : AvailabilityStatus.t),
        appointmentSlots db !! slotId = Some slot ->
        AppointmentSlot.providerId slot = providerId ->
        AppointmentSlot.status slot <> SlotStatus.booked ->
        UpdateAvailabilityDto.status dto = Some s ->
        AvailabilityService.allowedSlotStatus s = None ->
        exists (db' : Store) (updated : UpdatedSlot.t) (slot' : AppointmentSlot.t),
          AvailabilityService.updateAvailabilitySlot db slotId providerId dto
          = Ok (db', updated)
          /\ appointmentSlots db' !! slotId = Some slot'
          /\ AppointmentSlot.status slot' = AppointmentSlot.status slot
          /\ UpdatedSlot.status updated = AppointmentSlot.status slot).
Proof.
  split; [|split].
  - intros db db' slotId providerId dto updated Hrun.
    unfold AvailabilityService.updateAvailabilitySlot,
      AvailabilityService.findFirstSlot in Hrun.
    destruct (appointmentSlots db !! slotId) as [slot|] eqn:Hrow; [|discriminate Hrun].
    destruct (String.eqb _ _); [|discriminate Hrun].
    destruct (SlotStatus.eqb _ _); [discriminate Hrun|].
    injection Hrun as <- <-.
    exists slot, (AvailabilityService.applyUpdateData slot dto).
    cbn [appointmentSlots availabilities providers UpdatedSlot.status].
    repeat (split; [reflexivity|]).
    unfold AvailabilityService.applyUpdateData.
    cbn [AppointmentSlot.status AppointmentSlot.appointmentType].
    split; [|split; [|reflexivity]].
    + destruct (UpdateAvailabilityDto.status dto) as [s|]; [|now left].
      destruct (AvailabilityService.allowedSlotStatus s) as [s'|] eqn:Hs; [|now left].
      right. exists s. now split.
    + destruct (UpdateAvailabilityDto.appointment_type dto) as [a|]; [|now left].
      right. exists a. now split.
  - intros s. destruct s; cbn; split; intros H;
      try discriminate H; try reflexivity;
      try (repeat split; intros H'; discriminate H');
      destruct H as (H1 & H2 & H3); congruence.
  - intros db slotId providerId dto slot s Hrow Hown Hfree Hstatus Hignored.
    unfold AvailabilityService.updateAvailabilitySlot.
    rewrite (findFirstSlot_found _ _ _ _ Hrow Hown).
    apply SlotStatus_eqb_neq in Hfree. rewrite Hfree.
    do 3 eexists. split; [reflexivity|].
    cbn [appointmentSlots]. split; [apply lookup_insert_eq|].
    unfold AvailabilityService.applyUpdateData.
    cbn [AppointmentSlot.status UpdatedSlot.status].
    rewrite Hstatus, Hignored. split; reflexivity.
Qed.

Lemma update_to_booked_is_ignored :
  exists (db' : Store) (updated : UpdatedSlot.t) (slot' : AppointmentSlot.t),
    AvailabilityService.updateAvailabilitySlot Scenario.seriesDb "s2" "p1"
      (Scenario.statusUpdate AvailabilityStatus.booked) = Ok (db', updated)
    /\ appointmentSlots db' !! "s2" = Some slot'
    /\ AppointmentSlot.status slot' = SlotStatus.available
    /\ UpdatedSlot.status updated = SlotStatus.available.
Proof.
  destruct update_changes_status_and_type_only as (_ & _ & Hignored).
  apply (Hignored Scenario.seriesDb "s2" "p1"
           (Scenario.statusUpdate AvailabilityStatus.booked)
           (Scenario.slotRow "s2" "a1" (Calendar.utcDateTime 2024 8 1 9 30)
              SlotStatus.available None)
           AvailabilityStatus.booked).
  - reflexivity.
  - reflexivity.
  - intros Hb. discriminate Hb.
  - reflexivity.
  - reflexivity.
Defined.

(** ** Searching *)

(** A maximum price other than 0 keeps the slots without pricing and those
    whose base fee does not exceed it. *)
Lemma filterByPrice_nonzero (dto : SlotSearchDto.t) (max_price : Z)
    (slots : list LoadedSlot.t) (slot : LoadedSlot.t) :
  SlotSearchDto.max_price dto = Some max_price ->
  max_price <> 0 ->
  In slot (AvailabilityService.filterByPrice dto slots)
  <-> In slot slots
      /\ match ProviderAvailability.pricing (LoadedSlot.availability slot) with
         | None => True
         | Some pricing => Pricing.base_fee pricing <= max_price
         end.
Proof.
  intros Hmax Hnz.
  unfold AvailabilityService.filterByPrice, AvailabilityService.filterIf, truthyNumber.
  rewrite Hmax. cbn [default].
  assert ((max_price =? 0) = false) as -> by now apply Z.eqb_neq.
  cbn [negb]. rewrite filter_In. unfold AvailabilityService.withinPrice.
  destruct (ProviderAvailability.pricing (LoadedSlot.availability slot)) as [p|].
  - now rewrite Z.leb_le.
  - tauto.
Qed.

(** Without a maximum price, or with 0, no slot is filtered out. *)
Lemma filterByPrice_falsy (dto : SlotSearchDto.t) (slots : list LoadedSlot.t) :
  truthyNumber (SlotSearchDto.max_price dto) = false ->
  AvailabilityService.filterByPrice dto slots = slots.
Proof.
  intros Hfalsy. unfold AvailabilityService.filterByPrice, AvailabilityService.filterIf.
  now rewrite Hfalsy.
Qed.

(** C9, on a search whose maximum price is 0 and a store whose one free slot
    asks a base fee of 500: the slot is returned, as it is without any
    filter; with a maximum of 100 it is filtered out. *)
Theorem zero_max_price_filters_nothing :
  List.map Scenario.pricedAt
    (AvailabilityService.searchAvailableSlots 0 Scenario.pricedDb
       (Scenario.searchByMaxPrice 0))
  = [("s1", Some 500)]
  /\ List.map Scenario.pricedAt
       (AvailabilityService.searchAvailableSlots 0 Scenario.pricedDb
          (Scenario.searchByMaxPrice 100))
     = [].
Proof. split; vm_compute; reflexivity. Qed.

(** * Further properties *)

(** ** Time strings, continued *)

Lemma digitChar_digitValue (c : ascii) (d : Z) :
  TimezoneUtil.digitValue c = Some d -> TimezoneUtil.digitChar d = c.
Proof.
  unfold TimezoneUtil.digitValue, TimezoneUtil.digitChar.
  destruct (_ && _) eqn:E; [|discriminate].
  intros [= <-]. apply andb_prop in E as [E1 E2].
  replace (48 + Z.to_nat (Z.of_nat (nat_of_ascii c) - 48))%nat
    with (nat_of_ascii c) by lia.
  apply ascii_nat_embedding.
Qed.

Lemma pad2_digits (a b : Z) :
  0 <= a <= 9 -> 0 <= b <= 9 ->
  TimezoneUtil.pad2 (10 * a + b)
  = String (TimezoneUtil.digitChar a) (String (TimezoneUtil.digitChar b) EmptyString).
Proof.
  intros Ha Hb. unfold TimezoneUtil.pad2.
  replace (10 * a + b) with (b + a * 10) by ring.
  rewrite Z.div_add, Z.div_small, Z.mod_add, Z.mod_small by lia.
  reflexivity.
Qed.

(** A well-formed time other than 24:00 is the text of its own minute. *)
Lemma toFormat_fromFormat (s : string) (t : Z) :
  TimezoneUtil.fromFormat_HHmm s = Some t -> t < 1440 ->
  TimezoneUtil.toFormat_HHmm t = s.
Proof.
  unfold TimezoneUtil.fromFormat_HHmm.
  destruct s as [|h1 [|h2 [|sep [|m1 [|m2 [|]]]]]]; try discriminate.
  destruct (TimezoneUtil.digitValue h1) as [a|] eqn:Ea; [|discriminate].
  destruct (TimezoneUtil.digitValue h2) as [b|] eqn:Eb; [|discriminate].
  destruct (TimezoneUtil.digitValue m1) as [c|] eqn:Ec; [|discriminate].
  destruct (TimezoneUtil.digitValue m2) as [d|] eqn:Ed; [|discriminate].
  pose proof (digitValue_range _ _ Ea). pose proof (digitValue_range _ _ Eb).
  pose proof (digitValue_range _ _ Ec). pose proof (digitValue_range _ _ Ed).
  apply digitChar_digitValue in Ea, Eb, Ec, Ed.
  cbv zeta.
  destruct (Ascii.eqb sep ":") eqn:Esep; [|discriminate].
  apply Ascii.eqb_eq in Esep. cbn [negb].
  destruct ((10 * a + b <=? 23) && (10 * c + d <=? 59)) eqn:E1.
  - intros [= <-] _. apply andb_prop in E1 as [Eh Em].
    unfold TimezoneUtil.toFormat_HHmm.
    rewrite (Z.mod_small (60 * (10 * a + b) + (10 * c + d))) by lia.
    replace (60 * (10 * a + b) + (10 * c + d))
      with ((10 * c + d) + (10 * a + b) * 60) by ring.
    rewrite Z.div_add, Z.div_small, Z.mod_add, Z.mod_small by lia.
    rewrite Z.add_0_l, !pad2_digits by lia.
    subst. reflexivity.
  - destruct ((10 * a + b =? 24) && (10 * c + d =? 0)); [|discriminate].
    intros [= <-] Hlt. lia.
Qed.








(** ** The generator within the day, continued *)

Lemma windowsFrom_lookup (config : SlotGenerationConfig.t) (n : nat) :
  forall (c : Z) (k : nat) (w : Z * Z),
    WithinDay.windowsFrom config n c !! k = Some w ->
    (k < n)%nat
    /\ w = (c + Z.of_nat k * WithinDay.stride config,
            c + Z.of_nat k * WithinDay.stride config
            + SlotGenerationConfig.slotDuration config).
Proof.
  induction n as [|n IH]; intros c k w Hk; [discriminate Hk|].
  destruct k as [|k]; cbn in Hk.
  - injection Hk as <-. split; [lia|]. f_equal; lia.
  - destruct (IH _ _ _ Hk) as [Hlt ->]. split; [lia|].
    rewrite Nat2Z.inj_succ. f_equal; lia.
Qed.

(** The instants of the slots of a window within the day, in a zone whose
    offset is the same at every wall-clock reading. *)
Lemma within_day_instants `{tzdb : TimezoneDb}
    (config : SlotGenerationConfig.t) (s e off : Z) :
  TimezoneUtil.fromFormat_HHmm (SlotGenerationConfig.startTime config) = Some s ->
  TimezoneUtil.fromFormat_HHmm (SlotGenerationConfig.endTime config) = Some e ->
  0 < SlotGenerationConfig.slotDuration config ->
  0 <= SlotGenerationConfig.breakDuration config ->
  e + SlotGenerationConfig.slotDuration config
    + SlotGenerationConfig.breakDuration config <= 1440 ->
  (forall local, offsetAtLocal (SlotGenerationConfig.timezone config) local = off) ->
  exists slots : list GeneratedSlot.t,
    SlotGeneratorUtil.generateSlotsForDay (S (Z.to_nat (e - s))) config = Ok slots
    /\ forall (i : nat) (slot : GeneratedSlot.t),
         slots !! i = Some slot ->
         let start :=
           SlotGenerationConfig.date config / Calendar.msPerDay * Calendar.msPerDay
           + (s + Z.of_nat i * WithinDay.stride config) * Calendar.msPerMinute - off in
         GeneratedSlot.slotStartTime slot = Some start
         /\ GeneratedSlot.slotEndTime slot
            = Some (start + SlotGenerationConfig.slotDuration config
                            * Calendar.msPerMinute).
Proof.
  intros Hs He Hd Hb Hwrap Hoff.
  destruct (generateSlotsForDay_within_day config s e Hs He Hd Hb Hwrap)
    as (slots & Hrun & _ & _ & Hinst).
  exists slots. split; [apply Hrun; lia|].
  intros i slot Hi.
  assert (Hmap : List.map Scenario.slotInstants slots !! i
                 = Some (Scenario.slotInstants slot)).
  { change (List.map Scenario.slotInstants slots) with (Scenario.slotInstants <$> slots).
    now rewrite list_lookup_fmap, Hi. }
  rewrite Hinst in Hmap.
  change (List.map ?f ?l) with (f <$> l) in Hmap.
  rewrite list_lookup_fmap in Hmap.
  destruct (WithinDay.windowsFrom config _ s !! i) as [w|] eqn:Hw; [|discriminate Hmap].
  destruct (windowsFrom_lookup _ _ _ _ _ Hw) as [_ ->].
  cbn in Hmap. injection Hmap as Hstart Hend.
  unfold Scenario.slotInstants in *. cbv zeta.
  rewrite <- Hstart, <- Hend, !Hoff. split; f_equal.
  unfold Calendar.msPerMinute. ring.
Qed.



(** X6: every slot of a window within the day starts and ends between the
    window's two times, in the terms of [isTimeBetween], and starts before
    it ends. *)
Theorem generated_slots_are_between `{tzdb : TimezoneDb}
    (config : SlotGenerationConfig.t) (s e : Z) :
  TimezoneUtil.fromFormat_HHmm (SlotGenerationConfig.startTime config) = Some s ->
  TimezoneUtil.fromFormat_HHmm (SlotGenerationConfig.endTime config) = Some e ->
  0 < SlotGenerationConfig.slotDuration config ->
  0 <= SlotGenerationConfig.breakDuration config ->
  e + SlotGenerationConfig.slotDuration config
    + SlotGenerationConfig.breakDuration config <= 1440 ->
  exists slots : list GeneratedSlot.t,
    SlotGeneratorUtil.generateSlotsForDay (S (Z.to_nat (e - s))) config = Ok slots
    /\ forall slot : GeneratedSlot.t, In slot slots ->
         TimezoneUtil.isTimeBetween (GeneratedSlot.startTime slot)
           (SlotGenerationConfig.startTime config) (SlotGenerationConfig.endTime config)
         = true
         /\ TimezoneUtil.isTimeBetween (GeneratedSlot.endTime slot)
              (SlotGenerationConfig.startTime config) (SlotGenerationConfig.endTime config)
            = true
         /\ SlotGeneratorUtil.isTimeBefore (GeneratedSlot.startTime slot)
              (GeneratedSlot.endTime slot) = Ok true.
Proof.
  intros Hs He Hd Hb Hwrap.
  destruct (generateSlotsForDay_slots_fit config s e Hs He Hd Hb Hwrap)
    as (slots & Hrun & Hfit).
  exists slots. split; [exact Hrun|].
  intros slot Hin. destruct (Hfit slot Hin) as (a & Hwin & Hlo & Hhi).
  unfold Scenario.civilWindow in Hwin.
  destruct (TimezoneUtil.fromFormat_HHmm (GeneratedSlot.startTime slot)) as [x|] eqn:Hx;
    [|discriminate Hwin].
  destruct (TimezoneUtil.fromFormat_HHmm (GeneratedSlot.endTime slot)) as [y|] eqn:Hy;
    [|discriminate Hwin].
  injection Hwin as -> ->.
  unfold TimezoneUtil.isTimeBetween, SlotGeneratorUtil.isTimeBefore.
  rewrite Hx, Hy, Hs, He.
  repeat split; [apply andb_true_intro; split; lia
                |apply andb_true_intro; split; lia
                |f_equal; lia].
Qed.

Lemma generated_slots_are_between_witness :
  exists slots : list GeneratedSlot.t,
    SlotGeneratorUtil.generateSlotsForDay (S (Z.to_nat (580 - 540)))
      (Scenario.configB "UTC" Scenario.aug1) = Ok slots
    /\ forall slot : GeneratedSlot.t, In slot slots ->
         TimezoneUtil.isTimeBetween (GeneratedSlot.startTime slot) "09:00" "09:40" = true
         /\ TimezoneUtil.isTimeBetween (GeneratedSlot.endTime slot) "09:00" "09:40" = true
         /\ SlotGeneratorUtil.isTimeBefore (GeneratedSlot.startTime slot)
              (GeneratedSlot.endTime slot) = Ok true.
Proof.
  apply (generated_slots_are_between (Scenario.configB "UTC" Scenario.aug1) 540 580).
  - reflexivity.
  - reflexivity.
  - cbn. lia.
  - cbn. lia.
  - cbn. lia.
Defined.

(** ** Recurring series *)

Section RecurringFacts.

Context `{tzdb : TimezoneDb}.

Import SlotGenerationConfig WithinDay.

Variable config : t.
Variables s e : Z.
Hypothesis start_parses : TimezoneUtil.fromFormat_HHmm (startTime config) = Some s.
Hypothesis end_parses : TimezoneUtil.fromFormat_HHmm (endTime config) = Some e.
Hypothesis duration_pos : 0 < slotDuration config.
Hypothesis break_nonneg : 0 <= breakDuration config.
Hypothesis no_wrap : e + slotDuration config + breakDuration config <= 1440.

Variable pattern : RecurrencePattern.
Variable step : Z.
Hypothesis fixed_step : (pattern = daily /\ step = 1) \/ (pattern = weekly /\ step = 7).
Variable endDate : Z.

Variable perDay : nat.
Hypothesis perDay_def : perDay = Z.to_nat (slotCount config s e).

Local Abbreviation occurrencesFrom := (WithinDay.occurrencesFrom step endDate).

Lemma step_pos : 0 < step * Calendar.msPerDay.
Proof. unfold Calendar.msPerDay. destruct fixed_step as [[_ ->]|[_ ->]]; lia. Qed.

Lemma getNextDate_step (cur : Z) :
  SlotGeneratorUtil.getNextDate cur pattern = cur + step * Calendar.msPerDay.
Proof. destruct fixed_step as [[-> ->]|[-> ->]]; reflexivity. Qed.

Lemma occurrencesFrom_past (cur : Z) : endDate < cur -> occurrencesFrom cur = O.
Proof.
  intros Hlt. unfold occurrencesFrom. pose proof step_pos.
  assert ((endDate - cur) / (step * Calendar.msPerDay) < 0)
    by (apply Z.div_lt_upper_bound; lia).
  lia.
Qed.

Lemma occurrencesFrom_due (cur : Z) :
  cur <= endDate ->
  occurrencesFrom cur = S (occurrencesFrom (cur + step * Calendar.msPerDay)).
Proof.
  intros Hle. unfold occurrencesFrom. pose proof step_pos.
  replace (endDate - cur)
    with ((endDate - (cur + step * Calendar.msPerDay)) + 1 * (step * Calendar.msPerDay))
    by ring.
  rewrite Z.div_add by lia.
  assert (-1 <= (endDate - (cur + step * Calendar.msPerDay)) / (step * Calendar.msPerDay)).
  { apply Z.div_le_lower_bound; lia. }
  lia.
Qed.

Lemma recurringLoop_series (m : nat) :
  forall (fuel : nat) (cur : Z) (acc : list GeneratedSlot.t),
    occurrencesFrom cur = m ->
    (m + Z.to_nat (e - s) < fuel)%nat ->
    SlotGeneratorUtil.recurringLoop fuel config pattern endDate cur acc
    = Ok (app acc (seriesFrom config perDay s step m cur)).
Proof.
  induction m as [|m IH]; intros fuel cur acc Hocc Hfuel;
    (destruct fuel as [|fuel]; [lia|]); cbn [SlotGeneratorUtil.recurringLoop].
  - destruct (cur <=? endDate) eqn:Hle.
    + apply Z.leb_le in Hle. rewrite (occurrencesFrom_due cur Hle) in Hocc.
      discriminate Hocc.
    + cbn [seriesFrom]. now rewrite app_nil_r.
  - destruct (cur <=? endDate) eqn:Hle.
    2:{ apply Z.leb_gt in Hle. rewrite (occurrencesFrom_past cur Hle) in Hocc.
        discriminate Hocc. }
    apply Z.leb_le in Hle. rewrite (occurrencesFrom_due cur Hle) in Hocc.
    injection Hocc as Hocc.
    unfold SlotGeneratorUtil.generateSlotsForDay.
    rewrite (generateSlotsLoop_within_day (withDate config cur) e end_parses
               duration_pos break_nonneg no_wrap (S fuel) (startTime config) s []
               start_parses) by (cbn; lia).
    change (slotCount (withDate config cur) s e) with (slotCount config s e).
    rewrite <- perDay_def.
    cbn [rbind app]. rewrite getNextDate_step.
    rewrite (IH fuel _ _ Hocc) by lia.
    unfold pushAll. cbn [seriesFrom]. now rewrite <- app_assoc.
Qed.

Lemma seriesFrom_length (m : nat) (cur : Z) :
  length (seriesFrom config perDay s step m cur) = (m * perDay)%nat.
Proof.
  revert cur. induction m as [|m IH]; intros cur; cbn [seriesFrom]; [reflexivity|].
  assert (Hlen : forall n cur' c,
            length (slotsFrom (withDate config cur) n cur' c) = n).
  { induction n as [|n IHn]; intros; cbn; [reflexivity|now rewrite IHn]. }
  rewrite length_app, IH, Hlen. reflexivity.
Qed.

Lemma perDay_bound :
  0 < Z.of_nat perDay ->
  s + Z.of_nat perDay * stride config <= e + breakDuration config.
Proof.
  intros Hn. rewrite perDay_def in *. unfold slotCount in *.
  rewrite Z2Nat.id in * by lia.
  set (D := stride config) in *.
  set (a := e - s + breakDuration config) in *.
  assert (0 < D) by (unfold D, stride; lia).
  pose proof (Z.mul_div_le a D ltac:(lia)).
  assert (Z.max 0 (a / D) = a / D) as -> by lia. nia.
Qed.

Lemma windowsFrom_withDate (n : nat) :
  forall date c : Z,
    windowsFrom (withDate config date) n c = windowsFrom config n c.
Proof.
  induction n as [|n IH]; intros date c; [reflexivity|].
  cbn [windowsFrom]. rewrite IH. reflexivity.
Qed.

Lemma seriesFrom_instants (m : nat) :
  forall cur : Z,
    List.map Scenario.slotInstants (seriesFrom config perDay s step m cur)
    = flat_map (fun k : nat =>
                  List.map (Scenario.instantsOf (timezone config)
                              (cur + Z.of_nat k * (step * Calendar.msPerDay)))
                    (windowsFrom config perDay s))
        (seq 0 m)
    /\ List.map Scenario.civilWindow (seriesFrom config perDay s step m cur)
       = flat_map (fun _ : nat => List.map Some (windowsFrom config perDay s)) (seq 0 m).
Proof.
  pose proof (fromFormat_range _ _ start_parses) as Hrange.
  induction m as [|m IH]; intros cur; [split; reflexivity|].
  destruct (slotsFrom_windows (withDate config cur) e duration_pos break_nonneg no_wrap
              perDay (startTime config) s start_parses ltac:(lia) perDay_bound)
    as [Hwin Hinst].
  destruct (IH (cur + step * Calendar.msPerDay)) as [IHinst IHwin].
  rewrite windowsFrom_withDate in Hwin, Hinst.
  cbn [timezone date withDate] in Hinst.
  cbn [seriesFrom seq flat_map]. rewrite !map_app, Hwin, Hinst, IHinst, IHwin.
  rewrite <- seq_shift, !flat_map_concat_map, !map_map.
  split.
  - f_equal.
    + f_equal. f_equal. cbn. ring.
    + f_equal. apply map_ext. intros k.
      rewrite Nat2Z.inj_succ. f_equal. f_equal. ring.
  - reflexivity.
Qed.

End RecurringFacts.



(** ** Filtering and grouping slots *)

Lemma filter_twice {A} (f g : A -> bool) (l : list A) :
  List.filter f (List.filter g l) = List.filter (fun x => g x && f x) l.
Proof.
  induction l as [|x l IH]; [reflexivity|]. cbn.
  destruct (g x); cbn; [destruct (f x); now rewrite IH | exact IH].
Qed.

(** X8: [filterSlotsByDateRange] keeps the slots that start within the two
    bounds, both included; filtering by two ranges in turn is filtering by
    their intersection; an Invalid Date as a bound keeps nothing. *)
Theorem filterSlotsByDateRange_ranges :
  (forall (slots : list GeneratedSlot.t) (a b : Z) (slot : GeneratedSlot.t),
     In slot (SlotGeneratorUtil.filterSlotsByDateRange slots (Some a) (Some b))
     <-> In slot slots
         /\ exists t, GeneratedSlot.slotStartTime slot = Some t /\ a <= t <= b)
  /\ (forall (slots : list GeneratedSlot.t) (a b c d : Z),
        SlotGeneratorUtil.filterSlotsByDateRange
          (SlotGeneratorUtil.filterSlotsByDateRange slots (Some a) (Some b))
          (Some c) (Some d)
        = SlotGeneratorUtil.filterSlotsByDateRange slots
            (Some (Z.max a c)) (Some (Z.min b d)))
  /\ (forall (slots : list GeneratedSlot.t) (bound : JsDate),
        SlotGeneratorUtil.filterSlotsByDateRange slots None bound = []
        /\ SlotGeneratorUtil.filterSlotsByDateRange slots bound None = []).
Proof.
  split; [|split].
  - intros slots a b slot. unfold SlotGeneratorUtil.filterSlotsByDateRange.
    rewrite filter_In. cbv zeta. unfold dateLe.
    destruct (GeneratedSlot.slotStartTime slot) as [t|].
    + rewrite andb_true_iff, !Z.leb_le. split.
      * intros [Hin Hr]. split; [assumption|]. exists t. split; [reflexivity|lia].
      * intros [Hin (t' & [= <-] & Hr)]. split; [assumption|lia].
    + split; [intros [_ H]; discriminate H|intros [_ (t & H & _)]; discriminate H].
  - intros slots a b c d. unfold SlotGeneratorUtil.filterSlotsByDateRange.
    rewrite filter_twice. apply filter_ext. intros slot. cbv zeta. unfold dateLe.
    destruct (GeneratedSlot.slotStartTime slot) as [t|]; [|reflexivity].
    destruct (a <=? t) eqn:E1, (t <=? b) eqn:E2, (c <=? t) eqn:E3, (t <=? d) eqn:E4,
      (Z.max a c <=? t) eqn:E5, (t <=? Z.min b d) eqn:E6;
      try reflexivity; exfalso;
      rewrite ?Z.leb_le, ?Z.leb_gt in *; lia.
  - intros slots bound. unfold SlotGeneratorUtil.filterSlotsByDateRange. split.
    + induction slots as [|x l IH]; [reflexivity|]. cbn. exact IH.
    + induction slots as [|x l IH]; [reflexivity|]. cbn.
      destruct (dateLe bound (GeneratedSlot.slotStartTime x)); cbn;
        destruct (GeneratedSlot.slotStartTime x); cbn; exact IH.
Qed.

Lemma groupedGet_push (grouped : list (string * list GeneratedSlot.t))
    (dateKey key : string) (slot : GeneratedSlot.t) :
  SlotGeneratorUtil.groupedGet (SlotGeneratorUtil.groupedPush grouped dateKey slot) key
  = if String.eqb dateKey key
    then Some (app (default [] (SlotGeneratorUtil.groupedGet grouped dateKey)) [slot])
    else SlotGeneratorUtil.groupedGet grouped key.
Proof.
  induction grouped as [|[k group] rest IH]; cbn.
  - reflexivity.
  - destruct (String.eqb_spec k dateKey) as [->|Hne]; cbn.
    + destruct (String.eqb dateKey key); reflexivity.
    + rewrite IH. destruct (String.eqb_spec dateKey key) as [<-|Hne'].
      * apply String.eqb_neq in Hne. now rewrite Hne.
      * reflexivity.
Qed.

Lemma groupedGet_keys (grouped : list (string * list GeneratedSlot.t)) (key : string) :
  In key (List.map fst grouped) <-> SlotGeneratorUtil.groupedGet grouped key <> None.
Proof.
  induction grouped as [|[k group] rest IH]; cbn.
  - split; [intros []|intros H; now destruct H].
  - destruct (String.eqb_spec k key) as [->|Hne].
    + split; [intros _ H; discriminate H|auto].
    + rewrite <- IH. split; [intros [H|H]; [now destruct Hne|exact H]|auto].
Qed.

Lemma groupedPush_NoDup (grouped : list (string * list GeneratedSlot.t))
    (dateKey : string) (slot : GeneratedSlot.t) :
  List.NoDup (List.map fst grouped) ->
  List.NoDup (List.map fst (SlotGeneratorUtil.groupedPush grouped dateKey slot)).
Proof.
  induction grouped as [|[k group] rest IH]; cbn; intros Hnd.
  - constructor; [intros []|constructor].
  - inversion Hnd as [|? ? Hnotin Hrest]; subst.
    destruct (String.eqb_spec k dateKey) as [->|Hne]; cbn.
    + now constructor.
    + constructor; [|auto].
      rewrite groupedGet_keys, groupedGet_push.
      apply not_eq_sym, String.eqb_neq in Hne. rewrite Hne.
      now rewrite <- groupedGet_keys.
Qed.

Lemma groupedPush_total (grouped : list (string * list GeneratedSlot.t))
    (dateKey : string) (slot : GeneratedSlot.t) :
  list_sum (List.map (fun entry => length (snd entry))
              (SlotGeneratorUtil.groupedPush grouped dateKey slot))
  = S (list_sum (List.map (fun entry => length (snd entry)) grouped)).
Proof.
  unfold list_sum.
  induction grouped as [|[k group] rest IH]; cbn [SlotGeneratorUtil.groupedPush].
  - reflexivity.
  - destruct (String.eqb k dateKey); cbn [List.map fold_right snd].
    + unfold push. rewrite length_app. cbn [length]. lia.
    + rewrite IH. lia.
Qed.

Lemma groupSlots_fold (slots : list GeneratedSlot.t) :
  forall (done : list GeneratedSlot.t) (grouped : list (string * list GeneratedSlot.t)),
    List.NoDup (List.map fst grouped) ->
    (forall key,
       SlotGeneratorUtil.groupedGet grouped key
       = match List.filter (fun slot => String.eqb (SlotGeneratorUtil.dateKeyOf slot) key)
                 done with
         | [] => None
         | group => Some group
         end) ->
    list_sum (List.map (fun entry => length (snd entry)) grouped) = length done ->
    let result :=
      fold_left (fun grouped slot =>
                   SlotGeneratorUtil.groupedPush grouped
                     (SlotGeneratorUtil.dateKeyOf slot) slot) slots grouped in
    List.NoDup (List.map fst result)
    /\ (forall key,
          SlotGeneratorUtil.groupedGet result key
          = match List.filter
                    (fun slot => String.eqb (SlotGeneratorUtil.dateKeyOf slot) key)
                    (app done slots) with
            | [] => None
            | group => Some group
            end)
    /\ list_sum (List.map (fun entry => length (snd entry)) result)
       = length (app done slots).
Proof.
  induction slots as [|slot rest IH]; intros done grouped Hnd Hget Hsum; cbn.
  - rewrite app_nil_r. auto.
  - replace (app done (slot :: rest)) with (app (app done [slot]) rest)
      by now rewrite <- app_assoc.
    apply IH.
    + now apply groupedPush_NoDup.
    + intros key. rewrite groupedGet_push, List.filter_app. cbn.
      destruct (String.eqb_spec (SlotGeneratorUtil.dateKeyOf slot) key) as [<-|Hne].
      * rewrite Hget.
        destruct (List.filter _ done); reflexivity.
      * rewrite Hget, app_nil_r. reflexivity.
    + rewrite groupedPush_total, Hsum, length_app. cbn. lia.
Qed.

(** X9: [groupSlotsByDate] files every slot under the date of its start:
    the group of a date holds exactly the slots of that date, in their
    order; a date without slot has no entry; no date has two entries; the
    groups together hold as many slots as were given. *)
Theorem groupSlotsByDate_exact :
  forall slots : list GeneratedSlot.t,
    List.NoDup (List.map fst (SlotGeneratorUtil.groupSlotsByDate slots))
    /\ (forall key : string,
          SlotGeneratorUtil.groupedGet (SlotGeneratorUtil.groupSlotsByDate slots) key
          = match List.filter
                    (fun slot => String.eqb (SlotGeneratorUtil.dateKeyOf slot) key)
                    slots with
            | [] => None
            | group => Some group
            end)
    /\ list_sum (List.map (fun entry => length (snd entry))
                   (SlotGeneratorUtil.groupSlotsByDate slots))
       = length slots.
Proof.
  intros slots. unfold SlotGeneratorUtil.groupSlotsByDate.
  apply (groupSlots_fold slots [] []).
  - constructor.
  - intros key. reflexivity.
  - reflexivity.
Qed.

(** ** Validation, continued *)

(** X10: validation returns no error exactly when both times are
    well-formed, the slot duration is positive and no longer than the
    window, the break is not negative and the zone is known. *)
Theorem validation_passes_iff `{tzdb : TimezoneDb} (config : SlotGenerationConfig.t) :
  SlotGeneratorUtil.validateSlotGeneration config = Ok []
  <-> exists s e : Z,
        TimezoneUtil.fromFormat_HHmm (SlotGenerationConfig.startTime config) = Some s
        /\ TimezoneUtil.fromFormat_HHmm (SlotGenerationConfig.endTime config) = Some e
        /\ 0 < SlotGenerationConfig.slotDuration config <= e - s
        /\ 0 <= SlotGenerationConfig.breakDuration config
        /\ TimezoneUtil.isValidTimezone (SlotGenerationConfig.timezone config) = true.
Proof.
  split; [apply validateSlotGeneration_passes|].
  intros (s & e & Hs & He & Hd & Hb & Htz).
  rewrite (validateSlotGeneration_wellformed config s e Hs He), Htz.
  unfold SlotGeneratorUtil.pushIf. cbn [negb].
  assert ((e <? s) = false) as -> by (apply Z.ltb_ge; lia).
  assert ((SlotGenerationConfig.slotDuration config <=? 0) = false) as ->
    by (apply Z.leb_gt; lia).
  assert ((SlotGenerationConfig.breakDuration config <? 0) = false) as ->
    by (apply Z.ltb_ge; lia).
  assert ((e - s <? SlotGenerationConfig.slotDuration config) = false) as ->
    by (apply Z.ltb_ge; lia).
  reflexivity.
Qed.

(** X11: validation throws exactly when one of the two times is malformed,
    whatever the other fields hold; the exception is always 'Invalid time
    format', and the list of errors is then lost. *)
Theorem validation_throws_iff_malformed `{tzdb : TimezoneDb}
    (config : SlotGenerationConfig.t) :
  (SlotGeneratorUtil.validateSlotGeneration config = Throw InvalidTimeFormat
   <-> SlotGeneratorUtil.isValidTimeFormat (SlotGenerationConfig.startTime config) = false
       \/ SlotGeneratorUtil.isValidTimeFormat (SlotGenerationConfig.endTime config) = false)
  /\ (forall errors : list string,
        SlotGeneratorUtil.validateSlotGeneration config = Ok errors ->
        SlotGeneratorUtil.isValidTimeFormat (SlotGenerationConfig.startTime config) = true
        /\ SlotGeneratorUtil.isValidTimeFormat (SlotGenerationConfig.endTime config) = true)
  /\ (forall ex : Exn,
        SlotGeneratorUtil.validateSlotGeneration config = Throw ex ->
        ex = InvalidTimeFormat).
Proof.
  unfold SlotGeneratorUtil.isValidTimeFormat.
  destruct (TimezoneUtil.fromFormat_HHmm (SlotGenerationConfig.startTime config))
    as [s|] eqn:Hs;
    destruct (TimezoneUtil.fromFormat_HHmm (SlotGenerationConfig.endTime config))
      as [e|] eqn:He.
  - rewrite (validateSlotGeneration_wellformed config s e Hs He).
    split; [split; [intros H; discriminate H|intros [H|H]; discriminate H]|].
    split; [auto|intros ex H; discriminate H].
  - rewrite (proj2 (validateSlotGeneration_throws_iff config)) by auto.
    split; [split; auto|]. split; [intros errors H; discriminate H|].
    intros ex [= <-]. reflexivity.
  - rewrite (proj2 (validateSlotGeneration_throws_iff config)) by auto.
    split; [split; auto|]. split; [intros errors H; discriminate H|].
    intros ex [= <-]. reflexivity.
  - rewrite (proj2 (validateSlotGeneration_throws_iff config)) by auto.
    split; [split; auto|]. split; [intros errors H; discriminate H|].
    intros ex [= <-]. reflexivity.
Qed.

Lemma In_pushIf (cond : bool) (msg : string) (errors : list string) (x : string) :
  In x (SlotGeneratorUtil.pushIf cond msg errors)
  <-> In x errors \/ (cond = true /\ x = msg).
Proof.
  unfold SlotGeneratorUtil.pushIf, push. destruct cond.
  - rewrite in_app_iff. cbn. intuition congruence.
  - intuition congruence.
Qed.



(** ** The store under the service's operations *)

Lemma findManySlots_In (db : Store) (where_ : AppointmentSlot.t -> bool)
    (row : AppointmentSlot.t) :
  In row (AvailabilityService.findManySlots db where_)
  <-> (exists key, appointmentSlots db !! key = Some row) /\ where_ row = true.
Proof.
  unfold AvailabilityService.findManySlots. rewrite filter_In, in_map_iff.
  split.
  - intros [([key row'] & Hsnd & Hin) Hw]. cbn in Hsnd. subst row'.
    apply list_elem_of_In, elem_of_map_to_list in Hin. eauto.
  - intros [[key Hrow] Hw]. split; [|assumption].
    exists (key, row). split; [reflexivity|].
    now apply list_elem_of_In, elem_of_map_to_list.
Qed.

Lemma createManySlots_rows (now : Z) (availabilityId providerId appointmentType : string)
    (rows : list (Z * Z)) :
  forall table : gmap string AppointmentSlot.t,
    (forall key row, table !! key = Some row ->
       AvailabilityService.createManySlots now availabilityId providerId
         appointmentType rows table !! key = Some row)
    /\ (forall key row,
          AvailabilityService.createManySlots now availabilityId providerId
            appointmentType rows table !! key = Some row ->
          table !! key = Some row
          \/ (table !! key = None
              /\ exists window, In window rows
                 /\ row = freshSlotRow now key availabilityId providerId
                            appointmentType window))
    /\ size (AvailabilityService.createManySlots now availabilityId providerId
               appointmentType rows table)
       = (size table + length rows)%nat.
Proof.
  induction rows as [|[s e] rest IH]; intros table;
    cbn [AvailabilityService.createManySlots].
  - split; [auto|]. split; [auto|]. cbn. lia.
  - pose proof (fresh_string_fresh table "slot-") as Hfresh.
    set (id := fresh_string "slot-" table) in *.
    destruct (IH (<[id := AppointmentSlot.mk id availabilityId providerId s e
                           SlotStatus.available None appointmentType None now]> table))
      as (Hkeep & Hnew & Hsize).
    split; [|split].
    + intros key row Hrow. apply Hkeep.
      rewrite lookup_insert_ne; [assumption|]. intros <-. congruence.
    + intros key row Hrow. destruct (Hnew key row Hrow) as [Hold | [Hnone Hmade]].
      * apply lookup_insert_Some in Hold as [[<- <-] | [Hne Hold]].
        -- right. split; [assumption|]. exists (s, e). split; [now left|reflexivity].
        -- now left.
      * apply lookup_insert_None in Hnone as [Hnone _].
        right. split; [assumption|].
        destruct Hmade as (window & Hin & ->). exists window. split; [now right|reflexivity].
    + rewrite Hsize, map_size_insert_None by assumption. cbn. lia.
Qed.

Lemma createAvailability_inv `{tzdb : TimezoneDb} (fuel : nat) (now : Z)
    (db db' : Store) (providerId : string) (dto : CreateAvailabilityDto.t)
    (res : CreateAvailabilityResult.t) :
  AvailabilityService.createAvailability fuel now db providerId dto = Ok (db', res) ->
  exists rows : list (Z * Z),
    is_Some (providers db !! providerId)
    /\ db' = mkStore (providers db)
               (<[CreateAvailabilityResult.availability_id res :=
                    AvailabilityService.newAvailability now
                      (CreateAvailabilityResult.availability_id res) providerId dto]>
                  (availabilities db))
               (AvailabilityService.createManySlots now
                  (CreateAvailabilityResult.availability_id res) providerId
                  (AppointmentType.name (CreateAvailabilityDto.appointment_type dto))
                  rows (appointmentSlots db))
    /\ availabilities db !! CreateAvailabilityResult.availability_id res = None
    /\ CreateAvailabilityResult.slots_created res = length rows.
Proof.
  intros Hrun. unfold AvailabilityService.createAvailability in Hrun.
  destruct (providers db !! providerId) eqn:Hprov; [|discriminate Hrun].
  destruct (negb _); [discriminate Hrun|].
  destruct (SlotGeneratorUtil.validateSlotGeneration _) as [errors| |];
    cbn [rbind] in Hrun; try discriminate Hrun.
  destruct (0 <? length errors)%nat; [discriminate Hrun|].
  destruct (AvailabilityService.checkAvailabilityConflicts _ _ _ _) as [[]| |];
    cbn [rbind] in Hrun; try discriminate Hrun.
  destruct (AvailabilityService.generateRequestedSlots _ _ _ _) as [slots| |];
    cbn [rbind] in Hrun; try discriminate Hrun.
  destruct (AvailabilityService.slotRows slots) as [rows| |];
    cbn [rbind] in Hrun; try discriminate Hrun.
  injection Hrun as <- <-. exists rows. cbn.
  split; [eauto|]. split; [reflexivity|]. split; [apply fresh_string_fresh|reflexivity].
Qed.

(** X13: a creation that succeeds adds one record under an id that was free
    and [slots_created] slot rows under ids that were free, each an
    available slot of that record and provider with no patient; every row
    that was in the store is still there, unchanged. *)
Theorem createAvailability_only_adds `{tzdb : TimezoneDb} (fuel : nat) (now : Z)
    (db db' : Store) (providerId : string) (dto : CreateAvailabilityDto.t)
    (res : CreateAvailabilityResult.t) :
  AvailabilityService.createAvailability fuel now db providerId dto = Ok (db', res) ->
  providers db' = providers db
  /\ availabilities db !! CreateAvailabilityResult.availability_id res = None
  /\ availabilities db'
     = <[CreateAvailabilityResult.availability_id res :=
           AvailabilityService.newAvailability now
             (CreateAvailabilityResult.availability_id res) providerId dto]>
         (availabilities db)
  /\ (forall key row, appointmentSlots db !! key = Some row ->
        appointmentSlots db' !! key = Some row)
  /\ (forall key row, appointmentSlots db' !! key = Some row ->
        appointmentSlots db !! key = Some row
        \/ (appointmentSlots db !! key = None
            /\ exists window,
                 row = freshSlotRow now key
                         (CreateAvailabilityResult.availability_id res) providerId
                         (AppointmentType.name (CreateAvailabilityDto.appointment_type dto))
                         window))
  /\ size (appointmentSlots db')
     = (size (appointmentSlots db) + CreateAvailabilityResult.slots_created res)%nat.
Proof.
  intros Hrun.
  destruct (createAvailability_inv _ _ _ _ _ _ _ Hrun) as (rows & _ & -> & Hfree & Hcount).
  cbn [providers availabilities appointmentSlots].
  destruct (createManySlots_rows now (CreateAvailabilityResult.availability_id res)
              providerId
              (AppointmentType.name (CreateAvailabilityDto.appointment_type dto))
              rows (appointmentSlots db)) as (Hkeep & Hnew & Hsize).
  split; [reflexivity|]. split; [assumption|]. split; [reflexivity|].
  split; [exact Hkeep|]. split; [|now rewrite Hsize, Hcount].
  intros key row Hrow. destruct (Hnew key row Hrow) as [Hold | [Hnone (w & _ & ->)]].
  - now left.
  - right. split; [assumption|]. now exists w.
Qed.

Lemma createAvailability_only_adds_witness :
  providers (fst (Scenario.created 10 Scenario.jan1 Scenario.seriesDb "p1"
                    Scenario.firstRequest))
  = providers Scenario.seriesDb
  /\ size (appointmentSlots
             (fst (Scenario.created 10 Scenario.jan1 Scenario.seriesDb "p1"
                     Scenario.firstRequest)))
     = (size (appointmentSlots Scenario.seriesDb)
        + CreateAvailabilityResult.slots_created
            (snd (Scenario.created 10 Scenario.jan1 Scenario.seriesDb "p1"
                    Scenario.firstRequest)))%nat.
Proof.
  destruct (createAvailability_only_adds 10 Scenario.jan1 Scenario.seriesDb
              (fst (Scenario.created 10 Scenario.jan1 Scenario.seriesDb "p1"
                      Scenario.firstRequest))
              "p1" Scenario.firstRequest
              (snd (Scenario.created 10 Scenario.jan1 Scenario.seriesDb "p1"
                      Scenario.firstRequest)))
    as (Hprov & _ & _ & _ & _ & Hsize).
  - vm_compute. reflexivity.
  - split; [exact Hprov|exact Hsize].
Defined.

Lemma findFirstSlot_Some (db : Store) (slotId providerId : string)
    (slot : AppointmentSlot.t) :
  AvailabilityService.findFirstSlot db slotId providerId = Some slot
  <-> appointmentSlots db !! slotId = Some slot
      /\ AppointmentSlot.providerId slot = providerId.
Proof.
  unfold AvailabilityService.findFirstSlot. split.
  - destruct (appointmentSlots db !! slotId) as [row|]; [|intros H; discriminate H].
    destruct (String.eqb _ _) eqn:E; [|intros H; discriminate H].
    intros H. injection H as ->. apply String.eqb_eq in E. auto.
  - intros [-> <-]. now rewrite String.eqb_refl.
Qed.

Lemma updateAvailabilitySlot_inv (db db' : Store) (slotId providerId : string)
    (dto : UpdateAvailabilityDto.t) (res : UpdatedSlot.t) :
  AvailabilityService.updateAvailabilitySlot db slotId providerId dto = Ok (db', res) ->
  exists slot,
    appointmentSlots db !! slotId = Some slot
    /\ AppointmentSlot.providerId slot = providerId
    /\ AppointmentSlot.status slot <> SlotStatus.booked
    /\ db' = mkStore (providers db) (availabilities db)
               (<[slotId := AvailabilityService.applyUpdateData slot dto]>
                  (appointmentSlots db)).
Proof.
  unfold AvailabilityService.updateAvailabilitySlot. intros Hrun.
  destruct (AvailabilityService.findFirstSlot db slotId providerId) as [slot|] eqn:Hfind;
    [|discriminate Hrun].
  destruct (SlotStatus.eqb _ _) eqn:Hb; [discriminate Hrun|].
  apply findFirstSlot_Some in Hfind as [Hrow Hown].
  apply SlotStatus_eqb_neq in Hb.
  injection Hrun as <- <-. exists slot. auto.
Qed.

Lemma deleteAvailabilitySlot_inv (now : Z) (db db' : Store) (slotId providerId : string)
    (deleteRecurring : option bool) (reason : option string) (res : DeleteResult.t) :
  AvailabilityService.deleteAvailabilitySlot now db slotId providerId deleteRecurring
    reason = Ok (db', res) ->
  exists slot,
    appointmentSlots db !! slotId = Some slot
    /\ AppointmentSlot.providerId slot = providerId
    /\ AppointmentSlot.status slot <> SlotStatus.booked
    /\ (db' = mkStore (providers db) (availabilities db)
                (delete slotId (appointmentSlots db))
        \/ exists availability,
             availabilities db !! AppointmentSlot.availabilityId slot = Some availability
             /\ db' = mkStore (providers db)
                        (<[AppointmentSlot.availabilityId slot :=
                             ProviderAvailability.withStatus availability
                               AvailabilityStatus.cancelled now]> (availabilities db))
                        (filter (fun kv : string * AppointmentSlot.t =>
                                   AvailabilityService.inDeletedSeries
                                     (AppointmentSlot.availabilityId slot) (snd kv) = false)
                           (appointmentSlots db))).
Proof.
  unfold AvailabilityService.deleteAvailabilitySlot. intros Hrun.
  destruct (AvailabilityService.findFirstSlot db slotId providerId) as [slot|] eqn:Hfind;
    [|discriminate Hrun].
  destruct (SlotStatus.eqb _ _) eqn:Hb; [discriminate Hrun|].
  apply findFirstSlot_Some in Hfind as [Hrow Hown].
  apply SlotStatus_eqb_neq in Hb.
  exists slot. split; [assumption|]. split; [assumption|]. split; [assumption|].
  destruct (truthyBool deleteRecurring).
  - destruct (availabilities db !! AppointmentSlot.availabilityId slot)
      as [availability|] eqn:Hav; [|discriminate Hrun].
    destruct (ProviderAvailability.isRecurring availability).
    + injection Hrun as <- <-. right. exists availability. auto.
    + injection Hrun as <- <-. now left.
  - injection Hrun as <- <-. now left.
Qed.

Lemma applyUpdateData_not_booked (slot : AppointmentSlot.t)
    (dto : UpdateAvailabilityDto.t) :
  AppointmentSlot.status slot <> SlotStatus.booked ->
  AppointmentSlot.status (AvailabilityService.applyUpdateData slot dto)
  <> SlotStatus.booked.
Proof.
  intros Hfree. unfold AvailabilityService.applyUpdateData. cbn.
  destruct (UpdateAvailabilityDto.status dto) as [[]|]; cbn;
    (assumption || (intros H; discriminate H)).
Qed.

Lemma applyUpdateData_twice (slot : AppointmentSlot.t) (dto : UpdateAvailabilityDto.t) :
  AvailabilityService.applyUpdateData (AvailabilityService.applyUpdateData slot dto) dto
  = AvailabilityService.applyUpdateData slot dto.
Proof.
  unfold AvailabilityService.applyUpdateData. cbn.
  destruct (UpdateAvailabilityDto.status dto) as [[]|],
           (UpdateAvailabilityDto.appointment_type dto); reflexivity.
Qed.

(** X14: updating a slot is idempotent: the same update applied again to the
    store it produced succeeds, leaves that store as it is and answers the
    same. *)
Theorem updateAvailabilitySlot_idempotent (db db' : Store) (slotId providerId : string)
    (dto : UpdateAvailabilityDto.t) (res : UpdatedSlot.t) :
  AvailabilityService.updateAvailabilitySlot db slotId providerId dto = Ok (db', res) ->
  AvailabilityService.updateAvailabilitySlot db' slotId providerId dto = Ok (db', res).
Proof.
  intros Hrun.
  destruct (updateAvailabilitySlot_inv _ _ _ _ _ _ Hrun) as (slot & Hrow & Hown & Hfree & ->).
  unfold AvailabilityService.updateAvailabilitySlot in Hrun.
  rewrite (findFirstSlot_found db slotId providerId slot Hrow Hown) in Hrun.
  destruct (SlotStatus.eqb (AppointmentSlot.status slot) SlotStatus.booked);
    [discriminate Hrun|].
  injection Hrun as <-.
  unfold AvailabilityService.updateAvailabilitySlot.
  rewrite (findFirstSlot_found _ slotId providerId
             (AvailabilityService.applyUpdateData slot dto)).
  - pose proof (applyUpdateData_not_booked slot dto Hfree) as Hstill.
    apply SlotStatus_eqb_neq in Hstill. rewrite Hstill.
    cbn [providers availabilities appointmentSlots].
    rewrite applyUpdateData_twice, insert_insert_eq. reflexivity.
  - cbn [appointmentSlots]. apply lookup_insert_eq.
  - exact Hown.
Qed.

Lemma updateAvailabilitySlot_idempotent_witness :
  AvailabilityService.updateAvailabilitySlot
    (mkStore (providers Scenario.seriesDb) (availabilities Scenario.seriesDb)
       (<["s2" := AvailabilityService.applyUpdateData
                    (Scenario.slotRow "s2" "a1" (Calendar.utcDateTime 2024 8 1 9 30)
                       SlotStatus.available None)
                    (Scenario.statusUpdate AvailabilityStatus.blocked)]>
          (appointmentSlots Scenario.seriesDb)))
    "s2" "p1" (Scenario.statusUpdate AvailabilityStatus.blocked)
  = Ok (mkStore (providers Scenario.seriesDb) (availabilities Scenario.seriesDb)
          (<["s2" := AvailabilityService.applyUpdateData
                       (Scenario.slotRow "s2" "a1" (Calendar.utcDateTime 2024 8 1 9 30)
                          SlotStatus.available None)
                       (Scenario.statusUpdate AvailabilityStatus.blocked)]>
             (appointmentSlots Scenario.seriesDb)),
        UpdatedSlot.mk "s2" SlotStatus.blocked "consultation"
          (Calendar.utcDateTime 2024 8 1 9 30)
          (Calendar.utcDateTime 2024 8 1 9 30 + 30 * Calendar.msPerMinute)).
Proof.
  apply (updateAvailabilitySlot_idempotent Scenario.seriesDb).
  vm_compute. reflexivity.
Defined.

(** X15: a slot that was deleted is gone: after a deletion that succeeded, of
    the slot alone or of its series, no row is left under its id, and a
    further update or deletion of it is answered with NotFound. *)
Theorem deleted_slot_is_gone (now : Z) (db db' : Store) (slotId providerId : string)
    (deleteRecurring : option bool) (reason : option string) (res : DeleteResult.t) :
  AvailabilityService.deleteAvailabilitySlot now db slotId providerId deleteRecurring
    reason = Ok (db', res) ->
  appointmentSlots db' !! slotId = None
  /\ (forall owner dto,
        AvailabilityService.updateAvailabilitySlot db' slotId owner dto
        = Throw (NotFoundException "Slot not found"))
  /\ (forall now' owner deleteRecurring' reason',
        AvailabilityService.deleteAvailabilitySlot now' db' slotId owner
          deleteRecurring' reason'
        = Throw (NotFoundException "Slot not found")).
Proof.
  intros Hrun.
  assert (Hgone : appointmentSlots db' !! slotId = None).
  { destruct (deleteAvailabilitySlot_inv _ _ _ _ _ _ _ _ Hrun)
      as (slot & Hrow & Hown & Hfree & [-> | (availability & Hav & ->)]);
      cbn [appointmentSlots].
    - apply lookup_delete_eq.
    - apply map_lookup_filter_None. right. intros row Hrow' Hkeep. cbn in Hkeep.
      rewrite Hrow in Hrow'. injection Hrow' as <-.
      apply inDeletedSeries_false in Hkeep; [|reflexivity]. contradiction. }
  split; [assumption|].
  split; intros; unfold AvailabilityService.updateAvailabilitySlot,
    AvailabilityService.deleteAvailabilitySlot, AvailabilityService.findFirstSlot;
    rewrite Hgone; reflexivity.
Qed.

Lemma deleted_slot_is_gone_witness :
  appointmentSlots
    (mkStore (providers Scenario.seriesDb) (availabilities Scenario.seriesDb)
       (delete "s2" (appointmentSlots Scenario.seriesDb))) !! "s2" = None.
Proof.
  apply (deleted_slot_is_gone 0 Scenario.seriesDb _ "s2" "p1" None None
           (DeleteResult.mk "Slot deleted successfully" "Provider request")).
  vm_compute. reflexivity.
Defined.

(** X16: a booked slot is out of reach of the three operations that write:
    whatever creation, update or deletion succeeds, of this or of any other
    slot, by any provider, a row that was booked is still in the store,
    unchanged. *)
Theorem booked_slot_is_never_touched `{tzdb : TimezoneDb} (db : Store) (key : string)
    (row : AppointmentSlot.t) :
  appointmentSlots db !! key = Some row ->
  AppointmentSlot.status row = SlotStatus.booked ->
  (forall fuel now providerId dto db' res,
     AvailabilityService.createAvailability fuel now db providerId dto = Ok (db', res) ->
     appointmentSlots db' !! key = Some row)
  /\ (forall slotId providerId dto db' res,
        AvailabilityService.updateAvailabilitySlot db slotId providerId dto
        = Ok (db', res) ->
        appointmentSlots db' !! key = Some row)
  /\ (forall now slotId providerId deleteRecurring reason db' res,
        AvailabilityService.deleteAvailabilitySlot now db slotId providerId
          deleteRecurring reason = Ok (db', res) ->
        appointmentSlots db' !! key = Some row).
Proof.
  intros Hrow Hbooked. split; [|split].
  - intros fuel now providerId dto db' res Hrun.
    destruct (createAvailability_inv _ _ _ _ _ _ _ Hrun) as (rows & _ & -> & _ & _).
    cbn [appointmentSlots]. now apply createManySlots_rows.
  - intros slotId providerId dto db' res Hrun.
    destruct (updateAvailabilitySlot_inv _ _ _ _ _ _ Hrun)
      as (slot & Hslot & _ & Hfree & ->).
    cbn [appointmentSlots]. rewrite lookup_insert_ne; [assumption|].
    intros ->. rewrite Hrow in Hslot. injection Hslot as <-. contradiction.
  - intros now slotId providerId deleteRecurring reason db' res Hrun.
    destruct (deleteAvailabilitySlot_inv _ _ _ _ _ _ _ _ Hrun)
      as (slot & Hslot & _ & Hfree & [-> | (availability & _ & ->)]);
      cbn [appointmentSlots].
    + rewrite lookup_delete_ne; [assumption|].
      intros ->. rewrite Hrow in Hslot. injection Hslot as <-. contradiction.
    + apply map_lookup_filter_Some. split; [assumption|]. cbn.
      apply inDeletedSeries_false. intros _. assumption.
Qed.

Lemma booked_slot_is_never_touched_witness :
  appointmentSlots
    (mkStore (providers Scenario.seriesDb)
       (<["a1" := ProviderAvailability.withStatus (Scenario.availabilityRow "a1" true None)
                    AvailabilityStatus.cancelled 7]> (availabilities Scenario.seriesDb))
       (filter (fun kv : string * AppointmentSlot.t =>
                  AvailabilityService.inDeletedSeries "a1" (snd kv) = false)
          (appointmentSlots Scenario.seriesDb))) !! "s1"
  = Some Scenario.bookedSlot.
Proof.
  destruct (booked_slot_is_never_touched (tzdb := fixedZones) Scenario.seriesDb "s1"
              Scenario.bookedSlot) as (_ & _ & Hdelete).
  - vm_compute. reflexivity.
  - reflexivity.
  - apply (Hdelete 7 "s2" "p1" (Some true) None _
             (DeleteResult.mk "Slot deleted successfully" "Provider request")).
    vm_compute. reflexivity.
Defined.

(** X17: the integrity of the store (every row under its own id, every slot
    on a record of its own provider, every record on a known provider) is
    kept by each creation, update and deletion that succeeds. *)
Theorem store_integrity_is_kept `{tzdb : TimezoneDb} (db : Store) :
  storeConsistent db ->
  (forall fuel now providerId dto db' res,
     AvailabilityService.createAvailability fuel now db providerId dto = Ok (db', res) ->
     storeConsistent db')
  /\ (forall slotId providerId dto db' res,
        AvailabilityService.updateAvailabilitySlot db slotId providerId dto
        = Ok (db', res) ->
        storeConsistent db')
  /\ (forall now slotId providerId deleteRecurring reason db' res,
        AvailabilityService.deleteAvailabilitySlot now db slotId providerId
          deleteRecurring reason = Ok (db', res) ->
        storeConsistent db').
Proof.
  intros [Hslots Havs]. split; [|split].
  - intros fuel now providerId dto db' res Hrun.
    destruct (createAvailability_inv _ _ _ _ _ _ _ Hrun)
      as (rows & Hprov & -> & Hfree & _).
    set (aid := CreateAvailabilityResult.availability_id res) in *.
    split; cbn [providers availabilities appointmentSlots].
    + intros key row Hrow.
      apply createManySlots_rows in Hrow as [Hold | [_ (window & _ & ->)]].
      * destruct (Hslots key row Hold) as (Hid & availability & Hav & Hown).
        split; [assumption|]. exists availability. split; [|assumption].
        rewrite lookup_insert_ne; [assumption|]. intros Heq.
        rewrite <- Heq in Hav. rewrite Hfree in Hav. discriminate Hav.
      * cbn. split; [reflexivity|].
        exists (AvailabilityService.newAvailability now aid providerId dto).
        split; [apply lookup_insert_eq|reflexivity].
    + intros key availability Hav.
      apply lookup_insert_Some in Hav as [[<- <-] | [_ Hav]].
      * cbn. split; [reflexivity|assumption].
      * now apply Havs.
  - intros slotId providerId dto db' res Hrun.
    destruct (updateAvailabilitySlot_inv _ _ _ _ _ _ Hrun)
      as (slot & Hslot & _ & _ & ->).
    split; cbn [providers availabilities appointmentSlots]; [|exact Havs].
    intros key row Hrow.
    apply lookup_insert_Some in Hrow as [[<- <-] | [_ Hrow]]; [|now apply Hslots].
    cbn. now apply Hslots.
  - intros now slotId providerId deleteRecurring reason db' res Hrun.
    destruct (deleteAvailabilitySlot_inv _ _ _ _ _ _ _ _ Hrun)
      as (slot & Hslot & _ & _ & [-> | (availability & Hthis & ->)]);
      split; cbn [providers availabilities appointmentSlots]; try exact Havs.
    + intros key row Hrow. apply lookup_delete_Some in Hrow as [_ Hrow].
      now apply Hslots.
    + intros key row Hrow. apply map_lookup_filter_Some in Hrow as [Hrow _].
      destruct (Hslots key row Hrow) as (Hid & other & Hav & Hown).
      split; [assumption|].
      destruct (decide (AppointmentSlot.availabilityId slot
                        = AppointmentSlot.availabilityId row)) as [Heq | Hne].
      * exists (ProviderAvailability.withStatus availability
                  AvailabilityStatus.cancelled now).
        rewrite Heq, lookup_insert_eq. split; [reflexivity|].
        rewrite Heq in Hthis. rewrite Hthis in Hav. injection Hav as <-.
        exact Hown.
      * exists other. rewrite lookup_insert_ne by assumption. auto.
    + intros key other Hav.
      apply lookup_insert_Some in Hav as [[<- <-] | [_ Hav]]; [|now apply Havs].
      cbn. now apply Havs.
Qed.

Lemma store_integrity_is_kept_witness :
  storeConsistent
    (fst (Scenario.created 10 Scenario.jan1 Scenario.emptyDb "p1" Scenario.firstRequest)).
Proof.
  destruct (store_integrity_is_kept (tzdb := fixedZones) Scenario.emptyDb)
    as (Hcreate & _ & _).
  - split; intros key row Hrow; cbn in Hrow; rewrite lookup_empty in Hrow;
      discriminate Hrow.
  - apply (Hcreate 10%nat Scenario.jan1 "p1" Scenario.firstRequest _
             (snd (Scenario.created 10 Scenario.jan1 Scenario.emptyDb "p1"
                     Scenario.firstRequest))).
    vm_compute. reflexivity.
Defined.

Lemma findManySlots_nil (db : Store) (where_ : AppointmentSlot.t -> bool) :
  (forall key row, appointmentSlots db !! key = Some row -> where_ row = false) ->
  AvailabilityService.findManySlots db where_ = [].
Proof.
  intros Hnone.
  destruct (AvailabilityService.findManySlots db where_) as [|row rest] eqn:Hl;
    [reflexivity|exfalso].
  assert (Hin : In row (row :: rest)) by now left.
  rewrite <- Hl in Hin. apply findManySlots_In in Hin as [[key Hrow] Hwhere].
  rewrite (Hnone key row Hrow) in Hwhere. discriminate Hwhere.
Qed.

Lemma no_slot_on_the_day (db : Store) (providerId : string) (date : Z) :
  (forall key row,
     appointmentSlots db !! key = Some row ->
     AppointmentSlot.providerId row = providerId ->
     AppointmentSlot.slotStartTime row < date
     \/ Calendar.plusDays date 1 <= AppointmentSlot.slotStartTime row) ->
  AvailabilityService.findManySlots db (fun slot =>
    String.eqb (AppointmentSlot.providerId slot) providerId
    && (date <=? AppointmentSlot.slotStartTime slot)
    && (AppointmentSlot.slotStartTime slot <? Calendar.plusDays date 1)) = [].
Proof.
  intros Hfree. apply findManySlots_nil. intros key row Hrow.
  destruct (String.eqb_spec (AppointmentSlot.providerId row) providerId) as [Hown|];
    [|reflexivity].
  cbn [andb]. apply andb_false_iff.
  destruct (Hfree key row Hrow Hown); [left; apply Z.leb_gt|right; apply Z.ltb_ge]; lia.
Qed.

(** X18: the conflict check of a creation looks at the first day only, and
    there before it generates anything: when the provider has no slot that
    starts on the day of [config.date] it accepts, whatever the window, the
    durations and the slots on other days, even a window the generator would
    refuse or never finish. *)
Theorem conflict_check_passes_on_a_free_day `{tzdb : TimezoneDb} (fuel : nat)
    (db : Store) (providerId : string) (config : SlotGenerationConfig.t) :
  (forall key row,
     appointmentSlots db !! key = Some row ->
     AppointmentSlot.providerId row = providerId ->
     AppointmentSlot.slotStartTime row < SlotGenerationConfig.date config
     \/ Calendar.plusDays (SlotGenerationConfig.date config) 1
        <= AppointmentSlot.slotStartTime row) ->
  AvailabilityService.checkAvailabilityConflicts fuel db providerId config = Ok tt.
Proof.
  intros Hfree. unfold AvailabilityService.checkAvailabilityConflicts. cbv zeta.
  rewrite (no_slot_on_the_day _ _ _ Hfree). reflexivity.
Qed.

Lemma conflict_check_passes_on_a_free_day_witness :
  AvailabilityService.checkAvailabilityConflicts 0 Scenario.pricedDb "p1"
    (SlotGenerationConfig.mk "23:00" "23:50" 30 0 "UTC" (Calendar.utcDate 2024 8 2))
  = Ok tt.
Proof.
  apply conflict_check_passes_on_a_free_day.
  intros key row Hrow _. cbn in Hrow.
  apply lookup_singleton_Some in Hrow as [_ <-].
  left. vm_compute. reflexivity.
Defined.

Lemma checkAvailabilityConflicts_filter `{tzdb : TimezoneDb} (fuel : nat) (db : Store)
    (providerId : string) (config : SlotGenerationConfig.t)
    (newSlots : list GeneratedSlot.t) :
  SlotGeneratorUtil.generateSlotsForDay fuel config = Ok newSlots ->
  AvailabilityService.checkAvailabilityConflicts fuel db providerId config
  = let existing :=
      AvailabilityService.findManySlots db (fun slot =>
        String.eqb (AppointmentSlot.providerId slot) providerId
        && (SlotGenerationConfig.date config <=? AppointmentSlot.slotStartTime slot)
        && (AppointmentSlot.slotStartTime slot
            <? Calendar.plusDays (SlotGenerationConfig.date config) 1)) in
    let overlapping :=
      List.filter
        (fun n => existsb (SlotGeneratorUtil.slotsOverlap n)
                    (List.map (AvailabilityService.asGeneratedSlot
                                 (SlotGenerationConfig.timezone config)) existing))
        newSlots in
    if (0 <? length overlapping)%nat
    then Throw (ConflictException
                  (AvailabilityService.overlapMessage (length overlapping)))
    else Ok tt.
Proof.
  intros Hgen. unfold AvailabilityService.checkAvailabilityConflicts.
  cbv zeta. rewrite Hgen. cbn [rbind].
  unfold SlotGeneratorUtil.checkForOverlappingSlots. rewrite overlapLoop_filter.
  cbn [app].
  match goal with |- context [AvailabilityService.findManySlots db ?w] =>
    destruct (AvailabilityService.findManySlots db w) as [|row rest] end;
    [|reflexivity].
  cbn [length Nat.ltb Nat.leb List.map existsb].
  replace (List.filter (fun _ : GeneratedSlot.t => false) newSlots)
    with (@nil GeneratedSlot.t); [reflexivity|].
  clear Hgen. induction newSlots as [|n rest IH]; [reflexivity| exact IH].
Qed.



(** ** Searching *)

#[local] Existing Instance AvailabilityService.startsNoLater_dec.
#[local] Existing Instance AvailabilityService.datesNoLater_dec.

#[local] Instance startsNoLater_trans : Transitive AvailabilityService.startsNoLater.
Proof. intros a b c. unfold AvailabilityService.startsNoLater. lia. Qed.

#[local] Instance startsNoLater_total : Total AvailabilityService.startsNoLater.
Proof. intros a b. unfold AvailabilityService.startsNoLater. lia. Qed.

Lemma StronglySorted_sublist {A} (R : relation A) (l1 l2 : list A) :
  sublist l1 l2 -> StronglySorted R l2 -> StronglySorted R l1.
Proof.
  induction 1 as [|x l1 l2 Hsub IH|x l1 l2 Hsub IH]; intros Hsorted.
  - constructor.
  - apply StronglySorted_inv in Hsorted as [Hrest Hall]. constructor; [auto|].
    rewrite Forall_forall in *. intros y Hy. apply Hall.
    eapply elem_of_sublist; eassumption.
  - apply StronglySorted_inv in Hsorted as [Hrest _]. auto.
Qed.

Lemma sublist_map {A B} (f : A -> B) (l1 l2 : list A) :
  sublist l1 l2 -> sublist (List.map f l1) (List.map f l2).
Proof. induction 1; cbn; constructor; assumption. Qed.

Lemma sublist_List_filter {A} (f : A -> bool) (l : list A) :
  sublist (List.filter f l) l.
Proof.
  induction l as [|x l IH]; cbn; [constructor|].
  destruct (f x); constructor; assumption.
Qed.

Lemma sublist_filterIf {A} (cond : bool) (keep : A -> bool) (l : list A) :
  sublist (AvailabilityService.filterIf cond keep l) l.
Proof.
  unfold AvailabilityService.filterIf. destruct cond; [apply sublist_List_filter|].
  reflexivity.
Qed.

Lemma sublist_applyAdditionalFilters (dto : SlotSearchDto.t) (l : list LoadedSlot.t) :
  sublist (AvailabilityService.applyAdditionalFilters dto l) l.
Proof.
  unfold AvailabilityService.applyAdditionalFilters, AvailabilityService.filterByPrice.
  cbv zeta.
  repeat (etransitivity; [apply sublist_filterIf|]). reflexivity.
Qed.

Lemma loadSlot_slot (db : Store) (row : AppointmentSlot.t) (loaded : LoadedSlot.t) :
  AvailabilityService.loadSlot db row = Some loaded -> LoadedSlot.slot loaded = row.
Proof.
  unfold AvailabilityService.loadSlot.
  destruct (availabilities db !! _) as [a|]; [|intros H; discriminate H].
  destruct (providers db !! _) as [p|]; [|intros H; discriminate H].
  intros H. injection H as <-. reflexivity.
Qed.

Lemma sublist_omap_loadSlot (db : Store) (page : list AppointmentSlot.t) :
  sublist (List.map LoadedSlot.slot (omap (AvailabilityService.loadSlot db) page)) page.
Proof.
  induction page as [|row rest IH]; cbn; [constructor|].
  destruct (AvailabilityService.loadSlot db row) as [loaded|] eqn:Hload; cbn.
  - rewrite (loadSlot_slot _ _ _ Hload). now constructor.
  - now constructor.
Qed.

Lemma searchAvailableSlots_rows (now : Z) (db : Store) (dto : SlotSearchDto.t) :
  exists loaded : list LoadedSlot.t,
    AvailabilityService.searchAvailableSlots now db dto
    = List.map AvailabilityService.toSlotResult loaded
    /\ sublist (List.map LoadedSlot.slot loaded)
         (take (Z.to_nat (numberOr (SlotSearchDto.limit dto) 50))
            (drop (Z.to_nat (numberOr (SlotSearchDto.offset dto) 0))
               (merge_sort AvailabilityService.startsNoLater
                  (AvailabilityService.findManySlots db
                     (AvailabilityService.searchWhere now dto))))).
Proof.
  exists (AvailabilityService.applyAdditionalFilters dto
            (AvailabilityService.searchQuery now db dto)).
  split; [reflexivity|].
  etransitivity; [apply sublist_map, sublist_applyAdditionalFilters|].
  apply sublist_omap_loadSlot.
Qed.

(** X20: what a search answers: at most [limit] results (50 when no limit or
    limit 0 is given), in ascending order of start time, each of them a slot
    of the store that is available and meets the conditions of the query. *)
Theorem search_results_are_a_sorted_page (now : Z) (db : Store) (dto : SlotSearchDto.t) :
  (length (AvailabilityService.searchAvailableSlots now db dto)
   <= Z.to_nat (numberOr (SlotSearchDto.limit dto) 50))%nat
  /\ StronglySorted Z.le
       (List.map SlotResult.slot_start_time
          (AvailabilityService.searchAvailableSlots now db dto))
  /\ (forall r, In r (AvailabilityService.searchAvailableSlots now db dto) ->
        exists key row,
          appointmentSlots db !! key = Some row
          /\ AppointmentSlot.status row = SlotStatus.available
          /\ AvailabilityService.searchWhere now dto row = true
          /\ SlotResult.id r = AppointmentSlot.id row
          /\ SlotResult.slot_start_time r = AppointmentSlot.slotStartTime row
          /\ SlotResult.slot_end_time r = AppointmentSlot.slotEndTime row
          /\ SlotResult.appointment_type r = AppointmentSlot.appointmentType row).
Proof.
  destruct (searchAvailableSlots_rows now db dto) as (loaded & -> & Hsub).
  set (matching := AvailabilityService.findManySlots db _) in Hsub.
  split; [|split].
  - rewrite length_map, <- (length_map LoadedSlot.slot).
    apply sublist_length in Hsub. rewrite length_take in Hsub. lia.
  - rewrite map_map.
    change (List.map (fun x => SlotResult.slot_start_time
                                 (AvailabilityService.toSlotResult x)) loaded)
      with (List.map (fun x => AppointmentSlot.slotStartTime (LoadedSlot.slot x)) loaded).
    rewrite <- (map_map LoadedSlot.slot AppointmentSlot.slotStartTime).
    apply (StronglySorted_sublist Z.le _
             (List.map AppointmentSlot.slotStartTime
                (merge_sort AvailabilityService.startsNoLater matching))).
    + apply sublist_map. etransitivity; [exact Hsub|].
      etransitivity; [apply sublist_take|apply sublist_drop].
    + apply (StronglySorted_fmap AppointmentSlot.slotStartTime
               AvailabilityService.startsNoLater Z.le).
      * intros x y Hxy. exact Hxy.
      * apply StronglySorted_merge_sort; typeclasses eauto.
  - intros r Hr. apply in_map_iff in Hr as (l & <- & Hl).
    assert (Hrow : In (LoadedSlot.slot l) matching).
    { apply list_elem_of_In.
      rewrite <- (merge_sort_Permutation AvailabilityService.startsNoLater matching).
      eapply elem_of_sublist;
        [|etransitivity; [exact Hsub|];
          etransitivity; [apply sublist_take|apply sublist_drop]].
      apply list_elem_of_In. now apply in_map. }
    apply findManySlots_In in Hrow as [[key Hkey] Hwhere].
    exists key, (LoadedSlot.slot l). split; [assumption|].
    split; [|split; [assumption|cbn; auto]].
    unfold AvailabilityService.searchWhere in Hwhere.
    repeat (apply andb_true_iff in Hwhere as [Hwhere _]).
    now apply SlotStatus_eqb_eq.
Qed.

Lemma queryOnly_searchQuery (now : Z) (db : Store) (dto : SlotSearchDto.t) :
  AvailabilityService.searchQuery now db (queryOnly dto)
  = AvailabilityService.searchQuery now db dto.
Proof. destruct dto. reflexivity. Qed.

(** X21: the conditions on specialization, location, virtual or in-person and
    price are applied to the page the query returned, after [limit] and
    [offset]: the answer is the answer to the same request without them,
    with rows left out in place, so it holds nothing from beyond that page. *)
Theorem search_filters_only_thin_the_page (now : Z) (db : Store) (dto : SlotSearchDto.t) :
  sublist (AvailabilityService.searchAvailableSlots now db dto)
          (AvailabilityService.searchAvailableSlots now db (queryOnly dto)).
Proof.
  unfold AvailabilityService.searchAvailableSlots.
  rewrite queryOnly_searchQuery.
  replace (AvailabilityService.applyAdditionalFilters (queryOnly dto)
             (AvailabilityService.searchQuery now db dto))
    with (AvailabilityService.searchQuery now db dto) by (destruct dto; reflexivity).
  apply sublist_map, sublist_applyAdditionalFilters.
Qed.

Lemma virtual_and_in_person_exclude (l : list LoadedSlot.t) :
  List.filter AvailabilityService.isInPerson
    (List.filter AvailabilityService.isVirtual l) = [].
Proof.
  induction l as [|x rest IH]; [reflexivity|]. cbn [List.filter].
  destruct (AvailabilityService.isVirtual x) eqn:Hv; [|exact IH].
  cbn [List.filter]. rewrite IH.
  unfold AvailabilityService.isVirtual, AvailabilityService.isInPerson in *.
  destruct (ProviderAvailability.location _); [|discriminate Hv].
  now rewrite Hv.
Qed.

(** X22: a search that asks for virtual slots only and for in-person slots
    only at once answers nothing, whatever the store holds. *)
Theorem search_virtual_and_in_person_is_empty (now : Z) (db : Store)
    (dto : SlotSearchDto.t) :
  SlotSearchDto.virtual_only dto = Some true ->
  SlotSearchDto.in_person_only dto = Some true ->
  AvailabilityService.searchAvailableSlots now db dto = [].
Proof.
  intros Hv Hp.
  unfold AvailabilityService.searchAvailableSlots,
    AvailabilityService.applyAdditionalFilters, AvailabilityService.filterByPrice.
  cbv zeta. rewrite Hv, Hp. cbn [truthyBool].
  unfold AvailabilityService.filterIf at 2 3.
  rewrite virtual_and_in_person_exclude.
  unfold AvailabilityService.filterIf. now destruct (truthyNumber _).
Qed.

Lemma search_virtual_and_in_person_is_empty_witness :
  AvailabilityService.searchAvailableSlots 0 Scenario.pricedDb
    (SlotSearchDto.mk None None None None None None None None None None
       (Some true) (Some true) None None) = [].
Proof.
  apply search_virtual_and_in_person_is_empty; reflexivity.
Defined.

Lemma toLowerCase_empty (s : string) : toLowerCase s = "" <-> s = "".
Proof. destruct s; cbn; split; intros H; (reflexivity || discriminate H). Qed.



(** ** Listing and statistics *)

#[local] Instance datesNoLater_trans : Transitive AvailabilityService.datesNoLater.
Proof. intros a b c. unfold AvailabilityService.datesNoLater. lia. Qed.

#[local] Instance datesNoLater_total : Total AvailabilityService.datesNoLater.
Proof. intros a b. unfold AvailabilityService.datesNoLater. lia. Qed.

Lemma dateRange_Ok (startDate endDate : option JsDate) (range : option (Z * Z)) :
  AvailabilityService.dateRange startDate endDate = Ok range ->
  forall d,
    AvailabilityService.inDateRange range d = true
    <-> (forall s e, startDate = Some (Some s) -> endDate = Some (Some e) -> s <= d <= e).
Proof.
  intros Hrange d.
  destruct startDate as [[s|]|], endDate as [[e|]|]; cbn in Hrange;
    try discriminate Hrange; injection Hrange as <-; cbn;
    try (split; [intros _ s' e' H1 H2; (discriminate H1 || discriminate H2)
                |reflexivity]).
  rewrite andb_true_iff, !Z.leb_le. split.
  - intros Hd s' e' H1 H2. injection H1 as <-. injection H2 as <-. exact Hd.
  - intros Hd. now apply Hd.
Qed.


Lemma count_disjoint {A} (p q1 q2 : A -> bool) (l : list A) :
  (forall x, q1 x = true -> q2 x = true -> False) ->
  (length (List.filter (fun x => p x && q1 x) l)
   + length (List.filter (fun x => p x && q2 x) l)
   <= length (List.filter (fun x => p x && true) l))%nat.
Proof.
  intros Hdisjoint. induction l as [|x rest IH]; cbn; [lia|].
  specialize (Hdisjoint x).
  destruct (p x), (q1 x) eqn:H1, (q2 x) eqn:H2; cbn; try lia;
    now destruct Hdisjoint.
Qed.

Lemma booking_rate_range (booked total : nat) :
  (booked <= total)%nat ->
  (0 <= (if (0 <? total)%nat
         then (Qmake (Z.of_nat booked) (Pos.of_nat total) * 100)%Q
         else 0%Q) <= 100)%Q.
Proof.
  intros Hle. destruct (Nat.ltb_spec 0 total) as [Hpos | Hzero].
  - assert (Htotal : Z.pos (Pos.of_nat total) = Z.of_nat total).
    { rewrite <- positive_nat_Z, Nat2Pos.id by lia. reflexivity. }
    unfold Qle, Qmult. cbn [Qnum Qden]. rewrite Pos.mul_1_r, Htotal. split; lia.
  - split; unfold Qle; cbn; lia.
Qed.

(** X25: the statistics of a provider: when the call answers, the booked and
    the available slots together are no more than the total, the booking rate
    lies between 0 and 100 and is 0 when there is no slot; the provider is
    not looked up, so an unknown provider is answered with zeros, never with
    NotFound; with at most one date given the call always answers. *)
Theorem getAvailabilityStats_counts (db : Store) (providerId : string)
    (startDate endDate : option JsDate) :
  (forall stats,
     AvailabilityService.getAvailabilityStats db providerId startDate endDate
     = Ok stats ->
     (AvailabilityStats.booked_slots stats + AvailabilityStats.available_slots stats
      <= AvailabilityStats.total_slots stats)%nat
     /\ (0 <= AvailabilityStats.booking_rate stats <= 100)%Q
     /\ (AvailabilityStats.total_slots stats = 0%nat ->
         AvailabilityStats.booking_rate stats = 0%Q)
     /\ ((forall key row, appointmentSlots db !! key = Some row ->
            AppointmentSlot.providerId row <> providerId) ->
         stats = AvailabilityStats.mk 0 0 0 0%Q))
  /\ (forall message,
        AvailabilityService.getAvailabilityStats db providerId startDate endDate
        <> Throw (NotFoundException message))
  /\ (startDate = None \/ endDate = None ->
      exists stats,
        AvailabilityService.getAvailabilityStats db providerId startDate endDate
        = Ok stats).
Proof.
  assert (Hcounts :
    (AvailabilityService.countSlots db providerId (Some SlotStatus.booked)
     + AvailabilityService.countSlots db providerId (Some SlotStatus.available)
     <= AvailabilityService.countSlots db providerId None)%nat).
  { unfold AvailabilityService.countSlots, AvailabilityService.findManySlots.
    apply (count_disjoint
             (fun slot => String.eqb (AppointmentSlot.providerId slot) providerId)
             (fun slot => SlotStatus.eqb (AppointmentSlot.status slot) SlotStatus.booked)
             (fun slot => SlotStatus.eqb (AppointmentSlot.status slot)
                            SlotStatus.available)).
    intros slot H1 H2. destruct (AppointmentSlot.status slot); discriminate. }
  assert (Hnone : (forall key row, appointmentSlots db !! key = Some row ->
                     AppointmentSlot.providerId row <> providerId) ->
                  forall status,
                    AvailabilityService.countSlots db providerId status = 0%nat).
  { intros Hforeign status. unfold AvailabilityService.countSlots.
    match goal with |- length ?l = _ => destruct l as [|row rest] eqn:Hl end;
      [reflexivity|exfalso].
    assert (Hrow : In row (row :: rest)) by now left.
    rewrite <- Hl in Hrow. apply findManySlots_In in Hrow as [[key Hkey] Hwhere].
    apply andb_true_iff in Hwhere as [Hown _]. apply String.eqb_eq in Hown.
    exact (Hforeign key row Hkey Hown). }
  assert (Hstats : forall stats,
    Ok (AvailabilityStats.mk
          (AvailabilityService.countSlots db providerId None)
          (AvailabilityService.countSlots db providerId (Some SlotStatus.booked))
          (AvailabilityService.countSlots db providerId (Some SlotStatus.available))
          (if (0 <? AvailabilityService.countSlots db providerId None)%nat
           then (Qmake (Z.of_nat (AvailabilityService.countSlots db providerId
                                    (Some SlotStatus.booked)))
                       (Pos.of_nat (AvailabilityService.countSlots db providerId None))
                 * 100)%Q
           else 0%Q)) = Ok stats ->
    (AvailabilityStats.booked_slots stats + AvailabilityStats.available_slots stats
      <= AvailabilityStats.total_slots stats)%nat
     /\ (0 <= AvailabilityStats.booking_rate stats <= 100)%Q
     /\ (AvailabilityStats.total_slots stats = 0%nat ->
         AvailabilityStats.booking_rate stats = 0%Q)
     /\ ((forall key row, appointmentSlots db !! key = Some row ->
            AppointmentSlot.providerId row <> providerId) ->
         stats = AvailabilityStats.mk 0 0 0 0%Q)).
  { intros stats Hok. injection Hok as <-.
    cbn [AvailabilityStats.booked_slots AvailabilityStats.available_slots
         AvailabilityStats.total_slots AvailabilityStats.booking_rate].
    split; [exact Hcounts|].
    split; [|split].
    - apply booking_rate_range. lia.
    - intros ->. reflexivity.
    - intros Hforeign. rewrite !(Hnone Hforeign). reflexivity. }
  unfold AvailabilityService.getAvailabilityStats.
  split; [|split].
  - intros stats Hok.
    destruct startDate, endDate; (discriminate Hok || (apply Hstats; exact Hok)).
  - intros message. destruct startDate, endDate; intros H; discriminate H.
  - intros [-> | ->]; [|destruct startDate]; eexists; reflexivity.
Qed.

(** ** A creation that goes through *)

Lemma slotRows_of_instants `{tzdb : TimezoneDb} (tz : string) (date : Z) :
  forall (slots : list GeneratedSlot.t) (windows : list (Z * Z)),
    List.map Scenario.slotInstants slots
    = List.map (Scenario.instantsOf tz date) windows ->
    exists rows, AvailabilityService.slotRows slots = Ok rows.
Proof.
  induction slots as [|slot rest IH]; intros windows Hinst.
  - now exists [].
  - destruct windows as [|w windows]; [discriminate Hinst|].
    cbn [List.map] in Hinst. injection Hinst as Hs He Hrest.
    destruct (IH windows Hrest) as [rows Hrows].
    cbn [AvailabilityService.slotRows]. rewrite Hs, He, Hrows. cbn [rbind].
    eexists. reflexivity.
Qed.


